(** * de_exercise: the cleaning, deduplication and merge pipeline of src/main.py

    A shallow embedding of [clean_data], [remove_dupes] and
    [combine_dataframes] together with the pandas operations they call, and
    of [read_source_files] and [main], which run them on the two files.

    Scope of the data model.
    - A cell is a Python value as [read_csv] produces it in an object column:
      a [str], an [int], a [bool] or a missing value (None / NaN).  Floating
      point cells are not modelled.  pandas holds a column of numbers with a
      gap as float64, so such a column is outside the model: where a zip is
      missing, the statements and the sample tables are about zip columns
      that hold text, which pandas keeps as columns of Python objects.
    - Text is ASCII: a [str] is a [string] of 7-bit characters.  The character
      classes below follow CPython on the ASCII range.
    - Row labels (the pandas index) are not modelled: rows are kept in
      positional order, which is all the three functions depend on.
    - Label lookups are modelled for tables whose column labels are distinct;
      where a statement depends on a lookup it says so.
    - The sorting algorithm behind [sort_values(by=["name"])] is a parameter
      [kind] of the merger.  [Numpy.quicksort_kind] is the one the call
      gets by default; statements that hold of every comparison sort are
      made for every [kind]. *)

From stdpp Require Import base option list strings gmap pretty sorting.
From Stdlib Require Import Ascii ZArith Permutation Sorted Lia.

Local Open Scope string_scope.
Local Open Scope list_scope.
Local Open Scope Z_scope.

(** ** Python values and exceptions *)

Inductive cell : Type :=
| VStr (s : string)
| VInt (n : Z)
| VBool (b : bool)
| VMissing.

Inductive exn : Type :=
| IndexError
| KeyError (label : string)
| AttributeError
| TypeError
| ValueError (msg : string)
| InvalidIndexError
| Exception (msg : string).

Inductive result (A : Type) : Type :=
| Ok (a : A)
| Raise (e : exn).
Arguments Ok {A} a.
Arguments Raise {A} e.

Global Instance result_ret : MRet result := λ A a, Ok a.
Global Instance result_bind : MBind result := λ A B f m,
  match m with
  | Ok a => f a
  | Raise e => Raise e
  end.

Global Instance cell_eq_dec : EqDecision cell.
Proof. solve_decision. Defined.

(** ** Python [str] methods and the two regular expressions *)

Module Py.

Definition code (c : ascii) : N := N_of_ascii c.

Definition between (lo hi : N) (c : ascii) : bool :=
  ((lo <=? code c) && (code c <=? hi))%N.

Definition is_upper (c : ascii) : bool := between 65 90 c.

(** [str.isspace] on ASCII: TAB..CR, FS..US and the space. *)
Definition is_space (c : ascii) : bool :=
  between 9 13 c || between 28 32 c.

(** [\w] on ASCII: letters, digits and the underscore. *)
Definition is_word (c : ascii) : bool :=
  between 48 57 c || between 65 90 c || between 97 122 c || (code c =? 95)%N.

Definition lower_char (c : ascii) : ascii :=
  if is_upper c then ascii_of_N (code c + 32) else c.

(** [s.lower()] *)
Fixpoint lower (s : string) : string :=
  match s with
  | EmptyString => EmptyString
  | String c s' => String (lower_char c) (lower s')
  end.

Fixpoint lstrip (s : string) : string :=
  match s with
  | EmptyString => EmptyString
  | String c s' => if is_space c then lstrip s' else s
  end.

Fixpoint rstrip (s : string) : string :=
  match s with
  | EmptyString => EmptyString
  | String c s' =>
      match rstrip s' with
      | EmptyString => if is_space c then EmptyString else String c EmptyString
      | r => String c r
      end
  end.

(** [s.strip()] *)
Definition strip (s : string) : string := rstrip (lstrip s).

(** The first alternative that matches at the head of [s], if any. *)
Fixpoint match_alt (pats : list string) (s : string) : option string :=
  match pats with
  | [] => None
  | p :: pats' => if String.prefix p s then Some p else match_alt pats' s
  end.

(** [re.sub(p1|p2|..., empty, s)] for literal, non-empty alternatives: scan from
    the left, drop every match, resume after it.  [skip] counts the characters
    of the current match still to drop. *)
Fixpoint re_sub_alt_from (pats : list string) (skip : nat) (s : string) : string :=
  match s with
  | EmptyString => EmptyString
  | String c s' =>
      match skip with
      | S k => re_sub_alt_from pats k s'
      | O =>
          match match_alt pats s with
          | Some p => re_sub_alt_from pats (Nat.pred (String.length p)) s'
          | None => String c (re_sub_alt_from pats O s')
          end
      end
  end.

Definition re_sub_alt (pats : list string) (s : string) : string :=
  re_sub_alt_from pats O s.

(** [re.sub(r'[^\w\s]', empty, s)] *)
Fixpoint remove_symbols (s : string) : string :=
  match s with
  | EmptyString => EmptyString
  | String c s' =>
      if is_word c || is_space c then String c (remove_symbols s')
      else remove_symbols s'
  end.

(** Predicates on text that is already clean. *)
Fixpoint all_chars (p : ascii → bool) (s : string) : bool :=
  match s with
  | EmptyString => true
  | String c s' => p c && all_chars p s'
  end.

Definition is_lowercase (s : string) : bool :=
  all_chars (λ c, negb (is_upper c)) s.

Definition only_word_space (s : string) : bool :=
  all_chars (λ c, is_word c || is_space c) s.

Fixpoint ends_with_space (s : string) : bool :=
  match s with
  | EmptyString => false
  | String c EmptyString => is_space c
  | String _ s' => ends_with_space s'
  end.

Definition is_trimmed (s : string) : bool :=
  match s with
  | EmptyString => true
  | String c _ => negb (is_space c) && negb (ends_with_space s)
  end.

(** No alternative of [pats] occurs anywhere in [s]. *)
Fixpoint no_match (pats : list string) (s : string) : bool :=
  match s with
  | EmptyString => true
  | String _ s' => bool_decide (match_alt pats s = None) && no_match pats s'
  end.

End Py.

(** ** Tables *)

Record DataFrame : Type := mkDF {
  columns : list string;
  rows : list (list cell)
}.

Global Instance DataFrame_eq_dec : EqDecision DataFrame.
Proof. solve_decision. Defined.

(** [df.shape[0]] *)
Definition shape0 (df : DataFrame) : nat := length (rows df).

Module Pandas.

Definition isna (c : cell) : bool :=
  match c with VMissing => true | _ => false end.

Definition has_label (l : string) (cols : list string) : bool :=
  bool_decide (l ∈ cols).

(** [df.columns[i]] *)
Definition column_label (df : DataFrame) (i : nat) : result string :=
  match columns df !! i with
  | Some l => Ok l
  | None => Raise IndexError
  end.

(** [df.rename(columns=m)]: every label that is a key of [m] is replaced. *)
Definition rename (m : gmap string string) (df : DataFrame) : DataFrame :=
  mkDF ((λ l, default l (m !! l)) <$> columns df) (rows df).

(** Apply [f l] to the cell under label [l], along one row. *)
Fixpoint map_row (f : string → cell → cell) (labels : list string)
    (row : list cell) : list cell :=
  match labels, row with
  | l :: labels', c :: row' => f l c :: map_row f labels' row'
  | _, _ => row
  end.

Fixpoint map_row_res (f : string → cell → result cell) (labels : list string)
    (row : list cell) : result (list cell) :=
  match labels, row with
  | l :: labels', c :: row' =>
      c' ← f l c; row'' ← map_row_res f labels' row'; mret (c' :: row'')
  | _, _ => mret row
  end.

Fixpoint map_rows_res (f : string → cell → result cell) (labels : list string)
    (rs : list (list cell)) : result (list (list cell)) :=
  match rs with
  | [] => mret []
  | r :: rs' =>
      r' ← map_row_res f labels r; rs'' ← map_rows_res f labels rs';
      mret (r' :: rs'')
  end.

(** Cells under the labels in [sel] are rewritten by [f], the others kept. *)
Definition on_labels (sel : list string) (f : cell → cell)
    (l : string) (c : cell) : cell :=
  if has_label l sel then f c else c.

Definition on_labels_res (sel : list string) (f : cell → result cell)
    (l : string) (c : cell) : result cell :=
  if has_label l sel then f c else Ok c.

(** [df.fillna(value={k: v})] for one key: skipped when [k] is no column. *)
Definition fillna1 (k : string) (v : cell) (df : DataFrame) : DataFrame :=
  mkDF (columns df)
       (map_row (on_labels [k] (λ c, if isna c then v else c)) (columns df)
          <$> rows df).

(** [df.fillna(value=values)] with [values] in the dict's order. *)
Definition fillna (values : list (string * cell)) (df : DataFrame) : DataFrame :=
  foldl (λ d kv, fillna1 kv.1 kv.2 d) df values.

(** The first label of [sel] that is no column of the table. *)
Definition missing_label (sel cols : list string) : option string :=
  List.find (λ l, negb (has_label l cols)) sel.

(** [df[sel].map(f)] written back with [df[sel] = ...]; [f] may raise.
    This is the call on a table whose labels are distinct; with a label of
    [sel] there twice the selection has more columns than [sel], a case the
    statements leave out. *)
Definition map_selected_res (sel : list string) (f : cell → result cell)
    (df : DataFrame) : result DataFrame :=
  match missing_label sel (columns df) with
  | Some l => Raise (KeyError l)
  | None =>
      rs ← map_rows_res (on_labels_res sel f) (columns df) (rows df);
      mret (mkDF (columns df) rs)
  end.

(** [df.map(f)] over every cell (a new table). *)
Definition applymap (f : cell → cell) (df : DataFrame) : DataFrame :=
  mkDF (columns df) ((λ r : list cell, f <$> r) <$> rows df).

End Pandas.

(** ** The object store

    [clean_data] receives a reference to the caller's table, updates it in
    place ([inplace=True], item assignment) and later rebinds its local name
    to a new table.  References are positions in the store. *)

Abbreviation ref := nat (only parsing).
Abbreviation heap := (list DataFrame) (only parsing).
Definition M (A : Type) : Type := heap → heap * result A.

Global Instance M_ret : MRet M := λ A a h, (h, Ok a).
Global Instance M_bind : MBind M := λ A B f m h,
  match m h with
  | (h', Ok a) => f a h'
  | (h', Raise e) => (h', Raise e)
  end.

Definition load (r : ref) : M DataFrame := λ h,
  match h !! r with
  | Some d => (h, Ok d)
  | None => (h, Raise (Exception "dangling reference"))
  end.

Definition store (r : ref) (d : DataFrame) : M unit := λ h,
  (<[r := d]> h, Ok tt).

Definition alloc (d : DataFrame) : M ref := λ h, (h ++ [d], Ok (length h)).

Definition lift {A} (x : result A) : M A := λ h, (h, x).

(** Update the object behind [r] in place. *)
Definition modify (r : ref) (f : DataFrame → result DataFrame) : M unit :=
  d ← load r; d' ← lift (f d); store r d'.

(** ** clean_data (src/main.py, lines 136-200) *)

Definition str_cols : list string := ["name"; "address"; "city"].

(** The dict of the [fillna] call.  The literal [00000] is the integer 0,
    which is what a gap in a zip column of Python objects receives. *)
Definition fill_values : list (string * cell) :=
  [("name", VStr "not provided"); ("address", VStr "not provided");
   ("city", VStr "not provided"); ("zip", VInt 0)].

Definition corp_pattern : list string := [" llc"; " inc"; " ltd"].

(** [lambda x: x.lower()] *)
Definition py_lower (x : cell) : result cell :=
  match x with
  | VStr s => Ok (VStr (Py.lower s))
  | _ => Raise AttributeError
  end.

(** [lambda x: x.strip() if isinstance(x, str) else x] *)
Definition py_strip (x : cell) : cell :=
  match x with
  | VStr s => VStr (Py.strip s)
  | _ => x
  end.

(** [Series.str.replace(corp_pattern, repl, regex=True)] with the empty
    replacement: a cell that is no
    string becomes missing. *)
Definition str_replace_corp (x : cell) : cell :=
  match x with
  | VStr s => VStr (Py.re_sub_alt corp_pattern s)
  | _ => VMissing
  end.

(** [DataFrame.replace(r'[^\w\s]', repl, regex=True)] with the empty
    replacement: only strings change. *)
Definition replace_symbols (x : cell) : cell :=
  match x with
  | VStr s => VStr (Py.remove_symbols s)
  | _ => x
  end.

(** The dict of the [rename] call; a repeated key keeps its last value. *)
Definition rename_dict (c0 c1 c2 c3 : string) : gmap string string :=
  <[c3 := "zip"]> (<[c2 := "city"]> (<[c1 := "address"]> (<[c0 := "name"]> ∅))).

(** The final record-count test. *)
Definition check_count (original_count : nat) (d : DataFrame) : result unit :=
  if bool_decide (original_count ≠ shape0 d)
  then Raise (Exception "The dataframe record count has changed!")
  else Ok tt.

Definition clean_data (df : ref) : M ref :=
  d ← load df;
  let original_count := shape0 d in
  c0 ← lift (Pandas.column_label d 0);
  c1 ← lift (Pandas.column_label d 1);
  c2 ← lift (Pandas.column_label d 2);
  c3 ← lift (Pandas.column_label d 3);
  modify df (λ d, Ok (Pandas.rename (rename_dict c0 c1 c2 c3) d));;
  modify df (λ d, Ok (Pandas.fillna fill_values d));;
  modify df (Pandas.map_selected_res str_cols py_lower);;
  d ← load df;
  df ← alloc (Pandas.applymap py_strip d);
  modify df (Pandas.map_selected_res ["name"] (λ c, Ok (str_replace_corp c)));;
  modify df (Pandas.map_selected_res str_cols (λ c, Ok (replace_symbols c)));;
  d ← load df;
  lift (check_count original_count d);;
  mret df.


(** ** Python [repr] and [str(tuple(...))] *)

Module PyRepr.

Definition dquote : ascii := ascii_of_N 34.
Definition squote : ascii := ascii_of_N 39.
Definition backslash : ascii := ascii_of_N 92.

Fixpoint has_char (c : ascii) (s : string) : bool :=
  match s with
  | EmptyString => false
  | String c' s' => bool_decide (c' = c) || has_char c s'
  end.

(** The quote [repr] picks: double quotes only for a string that has a single
    quote and no double quote. *)
Definition quote_of (s : string) : ascii :=
  if has_char squote s && negb (has_char dquote s) then dquote else squote.

Definition hex_digit (n : N) : ascii :=
  default "0"%char (String.get (N.to_nat n) "0123456789abcdef").

Definition escape_char (q c : ascii) : string :=
  if bool_decide (c = q) || bool_decide (c = backslash)
  then String backslash (String c EmptyString)
  else if (Py.code c =? 9)%N then "\t"
  else if (Py.code c =? 10)%N then "\n"
  else if (Py.code c =? 13)%N then "\r"
  else if (Py.code c <? 32)%N || (127 <=? Py.code c)%N
  then String backslash
         (String "x" (String (hex_digit (Py.code c / 16))
            (String (hex_digit (Py.code c mod 16)) EmptyString)))
  else String c EmptyString.

Fixpoint escape (q : ascii) (s : string) : string :=
  match s with
  | EmptyString => EmptyString
  | String c s' => escape_char q c +:+ escape q s'
  end.

Definition repr_str (s : string) : string :=
  let q := quote_of s in String q (escape q s +:+ String q EmptyString).

(** [repr(x)]; a missing cell prints as the float NaN. *)
Definition repr (x : cell) : string :=
  match x with
  | VStr s => repr_str s
  | VInt n => pretty n
  | VBool true => "True"
  | VBool false => "False"
  | VMissing => "nan"
  end.

Fixpoint join (sep : string) (l : list string) : string :=
  match l with
  | [] => EmptyString
  | [x] => x
  | x :: l' => x +:+ sep +:+ join sep l'
  end.

(** [str(tuple(x))] *)
Definition str_tuple (vals : list cell) : string :=
  match vals with
  | [v] => "(" +:+ repr v +:+ ",)"
  | _ => "(" +:+ join ", " (repr <$> vals) +:+ ")"
  end.

End PyRepr.

(** ** [hashlib.md5(...).hexdigest()] (RFC 1321) on 32-bit words held in [Z] *)

Module Md5.

Definition mask32 (x : Z) : Z := Z.land x 0xffffffff.
Definition add32 (x y : Z) : Z := mask32 (x + y).
Definition not32 (x : Z) : Z := Z.lxor x 0xffffffff.
Definition rotl32 (x c : Z) : Z :=
  mask32 (Z.lor (Z.shiftl x c) (Z.shiftr x (32 - c))).

Definition K : list Z :=
  [0xd76aa478; 0xe8c7b756; 0x242070db; 0xc1bdceee;
   0xf57c0faf; 0x4787c62a; 0xa8304613; 0xfd469501;
   0x698098d8; 0x8b44f7af; 0xffff5bb1; 0x895cd7be;
   0x6b901122; 0xfd987193; 0xa679438e; 0x49b40821;
   0xf61e2562; 0xc040b340; 0x265e5a51; 0xe9b6c7aa;
   0xd62f105d; 0x02441453; 0xd8a1e681; 0xe7d3fbc8;
   0x21e1cde6; 0xc33707d6; 0xf4d50d87; 0x455a14ed;
   0xa9e3e905; 0xfcefa3f8; 0x676f02d9; 0x8d2a4c8a;
   0xfffa3942; 0x8771f681; 0x6d9d6122; 0xfde5380c;
   0xa4beea44; 0x4bdecfa9; 0xf6bb4b60; 0xbebfbc70;
   0x289b7ec6; 0xeaa127fa; 0xd4ef3085; 0x04881d05;
   0xd9d4d039; 0xe6db99e5; 0x1fa27cf8; 0xc4ac5665;
   0xf4292244; 0x432aff97; 0xab9423a7; 0xfc93a039;
   0x655b59c3; 0x8f0ccc92; 0xffeff47d; 0x85845dd1;
   0x6fa87e4f; 0xfe2ce6e0; 0xa3014314; 0x4e0811a1;
   0xf7537e82; 0xbd3af235; 0x2ad7d2bb; 0xeb86d391].

Definition shifts : list Z :=
  [7; 12; 17; 22; 7; 12; 17; 22; 7; 12; 17; 22; 7; 12; 17; 22;
   5; 9; 14; 20; 5; 9; 14; 20; 5; 9; 14; 20; 5; 9; 14; 20;
   4; 11; 16; 23; 4; 11; 16; 23; 4; 11; 16; 23; 4; 11; 16; 23;
   6; 10; 15; 21; 6; 10; 15; 21; 6; 10; 15; 21; 6; 10; 15; 21].

Record state : Type := mkState { sa : Z; sb : Z; sc : Z; sd : Z }.

Definition init : state :=
  mkState 0x67452301 0xefcdab89 0x98badcfe 0x10325476.

(** One of the 64 operations of a block; [m] holds the block's 16 words. *)
Definition step (m : list Z) (st : state) (i : nat) : state :=
  let '(mkState a b c d) := st in
  let iz := Z.of_nat i in
  let '(f, g) :=
    if (i <? 16)%nat then (Z.lor (Z.land b c) (Z.land (not32 b) d), iz)
    else if (i <? 32)%nat
      then (Z.lor (Z.land d b) (Z.land (not32 d) c), (5 * iz + 1) mod 16)
    else if (i <? 48)%nat then (Z.lxor (Z.lxor b c) d, (3 * iz + 5) mod 16)
    else (Z.lxor c (Z.lor b (not32 d)), (7 * iz) mod 16) in
  let f' := add32 (add32 (add32 f a) (default 0 (K !! i)))
                  (default 0 (m !! Z.to_nat g)) in
  mkState d (add32 b (rotl32 f' (default 0 (shifts !! i)))) b c.

Definition process_block (st : state) (m : list Z) : state :=
  let st' := foldl (step m) st (seq 0 64) in
  mkState (add32 (sa st) (sa st')) (add32 (sb st) (sb st'))
          (add32 (sc st) (sc st')) (add32 (sd st) (sd st')).

(** The little-endian bytes of a number, [n] of them. *)
Fixpoint le_bytes (n : nat) (x : Z) : list Z :=
  match n with
  | O => []
  | S n' => x mod 256 :: le_bytes n' (x / 256)
  end.

Definition le_word (bs : list Z) : Z :=
  foldr (λ b acc, b + 256 * acc) 0 bs.

(** Message padding: a 1 bit, zeros up to 56 mod 64, the bit length. *)
Definition pad (msg : list Z) : list Z :=
  let len := Z.of_nat (length msg) in
  let zeros := Z.to_nat ((55 - len) mod 64) in
  msg ++ [128] ++ replicate zeros 0 ++ le_bytes 8 ((8 * len) mod 2 ^ 64).

(** Cut a list in chunks of [n] elements ([fuel] bounds their number). *)
Fixpoint chunks {A} (fuel n : nat) (l : list A) : list (list A) :=
  match fuel, l with
  | O, _ | _, [] => []
  | S fuel', _ => take n l :: chunks fuel' n (drop n l)
  end.

Definition words_of_block (block : list Z) : list Z :=
  le_word <$> chunks 16 4 block.

Definition digest (msg : list Z) : state :=
  let padded := pad msg in
  foldl process_block init
        (words_of_block <$> chunks (length padded) 64 padded).

Definition hex2 (b : Z) : string :=
  String (PyRepr.hex_digit (Z.to_N (b / 16 mod 16)))
    (String (PyRepr.hex_digit (Z.to_N (b mod 16))) EmptyString).

Fixpoint hex_of_bytes (bs : list Z) : string :=
  match bs with
  | [] => EmptyString
  | b :: bs' => hex2 b +:+ hex_of_bytes bs'
  end.

Fixpoint bytes_of_string (s : string) : list Z :=
  match s with
  | EmptyString => []
  | String c s' => Z.of_N (N_of_ascii c) :: bytes_of_string s'
  end.

(** [hashlib.md5(s.encode('utf-8')).hexdigest()] on ASCII text. *)
Definition hexdigest (s : string) : string :=
  let st := digest (bytes_of_string s) in
  hex_of_bytes (le_bytes 4 (sa st) ++ le_bytes 4 (sb st) ++
                le_bytes 4 (sc st) ++ le_bytes 4 (sd st)).

End Md5.

(** ** Grouping, sorting and concatenation *)

Module Frame.

(** The positions of label [l] among the columns, counted from [i]. *)
Fixpoint locs (l : string) (cols : list string) (i : nat) : list nat :=
  match cols with
  | [] => []
  | c :: cols' =>
      if bool_decide (c = l) then i :: locs l cols' (S i) else locs l cols' (S i)
  end.

(** The position of a label that must name exactly one column. *)
Definition get_loc (l : string) (cols : list string) : result nat :=
  match locs l cols 0 with
  | [] => Raise (KeyError l)
  | [i] => Ok i
  | _ => Raise (ValueError "label is not unique")
  end.

Fixpoint get_locs (ls : list string) (cols : list string) : result (list nat) :=
  match ls with
  | [] => mret []
  | l :: ls' => i ← get_loc l cols; idx ← get_locs ls' cols; mret (i :: idx)
  end.

Definition cell_at (row : list cell) (i : nat) : cell :=
  default VMissing (row !! i).

Definition key_at (idx : list nat) (row : list cell) : list cell :=
  cell_at row <$> idx.

(** Python's [==] on cells: [True == 1] and [False == 0]. *)
Definition num_norm (c : cell) : cell :=
  match c with
  | VBool b => VInt (if b then 1 else 0)
  | _ => c
  end.

Definition py_eqb (a b : cell) : bool := bool_decide (num_norm a = num_norm b).

Definition key_eqb (k1 k2 : list cell) : bool :=
  bool_decide (num_norm <$> k1 = num_norm <$> k2).

(** The order of sorted factorization: numbers, then strings, then missing. *)
Definition cell_compare (a b : cell) : comparison :=
  match num_norm a, num_norm b with
  | VInt x, VInt y => Z.compare x y
  | VInt _, _ => Lt
  | VStr _, VInt _ => Gt
  | VStr s, VStr t => String.compare s t
  | VStr _, _ => Lt
  | VMissing, VMissing => Eq
  | VMissing, _ => Gt
  | VBool _, _ => Eq
  end.

Definition cell_leb (a b : cell) : bool :=
  match cell_compare a b with Gt => false | _ => true end.

Fixpoint key_compare (k1 k2 : list cell) : comparison :=
  match k1, k2 with
  | [], [] => Eq
  | [], _ :: _ => Lt
  | _ :: _, [] => Gt
  | a :: k1', b :: k2' =>
      match cell_compare a b with
      | Eq => key_compare k1' k2'
      | c => c
      end
  end.

Definition key_leb (k1 k2 : list cell) : bool :=
  match key_compare k1 k2 with Gt => false | _ => true end.

(** Stable insertion sort: an element goes in front of the first element
    that is not smaller than it. *)
Fixpoint insert_sorted {A} (leb : A → A → bool) (x : A) (l : list A) : list A :=
  match l with
  | [] => [x]
  | y :: l' => if leb x y then x :: l else y :: insert_sorted leb x l'
  end.

Fixpoint stable_sort {A} (leb : A → A → bool) (l : list A) : list A :=
  match l with
  | [] => []
  | x :: l' => insert_sorted leb x (stable_sort leb l')
  end.

(** Count one more row for key [k]: the group it equals, or a new group. *)
Fixpoint count_key (k : list cell) (groups : list (list cell * Z))
    : list (list cell * Z) :=
  match groups with
  | [] => [(k, 1)]
  | (k', n) :: groups' =>
      if key_eqb k k' then (k', n + 1) :: groups'
      else (k', n) :: count_key k groups'
  end.

Definition group_sizes (keys : list (list cell)) : list (list cell * Z) :=
  foldl (λ groups k, count_key k groups) [] keys.

Definition has_na (k : list cell) : bool := existsb Pandas.isna k.

(** [df.groupby(by_cols).size().reset_index(name=...)] when every label of
    [by_cols] is a column: rows with a missing key are left out, groups come
    sorted by key. *)
Definition group_by_columns (by_cols : list string) (name : string)
    (df : DataFrame) : result DataFrame :=
  idx ← get_locs by_cols (columns df);
  let keys := List.filter (λ k, negb (has_na k)) (key_at idx <$> rows df) in
  let groups := stable_sort (λ g1 g2, key_leb g1.1 g2.1) (group_sizes keys) in
  mret (mkDF (by_cols ++ [name]) ((λ g, g.1 ++ [VInt g.2]) <$> groups)).

(** The same call when the list has as many labels as the table has rows and
    one of them is no column: the list itself is then the grouping, one
    label per row, and the labels come back in an unnamed index, which
    [reset_index] calls [index] (or [level_0], if that name is taken). *)
Definition group_by_labels (by_cols : list string) (name : string)
    : DataFrame :=
  let keys := (λ l, [VStr l]) <$> by_cols in
  let groups := stable_sort (λ g1 g2, key_leb g1.1 g2.1) (group_sizes keys) in
  mkDF [if bool_decide (name = "index") then "level_0" else "index"; name]
       ((λ g, g.1 ++ [VInt g.2]) <$> groups).

(** [df.groupby(by_cols).size().reset_index(name=...)] *)
Definition groupby_size (by_cols : list string) (name : string) (df : DataFrame)
    : result DataFrame :=
  if bool_decide (length by_cols = shape0 df) &&
     negb (forallb (λ l, Pandas.has_label l (columns df)) by_cols)
  then mret (group_by_labels by_cols name)
  else group_by_columns by_cols name df.

(** Comparison on one sort key: missing values last in either direction. *)
Definition dir_compare (ascending : bool) (a b : cell) : comparison :=
  match Pandas.isna a, Pandas.isna b with
  | true, true => Eq
  | true, false => Gt
  | false, true => Lt
  | false, false => if ascending then cell_compare a b else cell_compare b a
  end.

Fixpoint rows_compare (order : list (nat * bool)) (r1 r2 : list cell) : comparison :=
  match order with
  | [] => Eq
  | (i, asc) :: order' =>
      match dir_compare asc (cell_at r1 i) (cell_at r2 i) with
      | Eq => rows_compare order' r1 r2
      | c => c
      end
  end.

Definition rows_leb (order : list (nat * bool)) (r1 r2 : list cell) : bool :=
  match rows_compare order r1 r2 with Gt => false | _ => true end.

(** [df.sort_values(by_cols, ascending)] on several columns: a stable
    lexicographic sort. *)
Definition sort_values_lex (by_cols : list string) (ascending : list bool)
    (df : DataFrame) : result DataFrame :=
  idx ← get_locs by_cols (columns df);
  mret (mkDF (columns df) (stable_sort (rows_leb (zip idx ascending)) (rows df))).

(** Keep the first row of every key. *)
Fixpoint keep_first (idx : list nat) (seen : list (list cell))
    (rs : list (list cell)) : list (list cell) :=
  match rs with
  | [] => []
  | r :: rs' =>
      if existsb (key_eqb (key_at idx r)) seen then keep_first idx seen rs'
      else r :: keep_first idx (key_at idx r :: seen) rs'
  end.

(** [df.drop_duplicates(subset, keep="first")] *)
Definition drop_duplicates (subset : list string) (df : DataFrame)
    : result DataFrame :=
  idx ← get_locs subset (columns df);
  mret (mkDF (columns df) (keep_first idx [] (rows df))).

(** [df[l] = v] for a scalar: overwrite the column, or append it. *)
Definition setitem_row (l : string) (v : cell) (cols : list string)
    (row : list cell) : list cell :=
  if Pandas.has_label l cols
  then Pandas.map_row (Pandas.on_labels [l] (λ _, v)) cols row
  else row ++ [v].

Definition setitem (l : string) (v : cell) (df : DataFrame) : DataFrame :=
  mkDF (if Pandas.has_label l (columns df) then columns df
        else columns df ++ [l])
       (setitem_row l v (columns df) <$> rows df).

(** [df[l] = values], one value per row. *)
Definition setitem_values (l : string) (values : list cell) (df : DataFrame)
    : DataFrame :=
  mkDF (if Pandas.has_label l (columns df) then columns df
        else columns df ++ [l])
       (zip_with (λ v r, setitem_row l v (columns df) r) values (rows df)).

(** [df.pop(l)]: the column leaves the table and is returned. *)
Definition pop (l : string) (df : DataFrame)
    : result (list cell * DataFrame) :=
  i ← get_loc l (columns df);
  mret ((λ r, cell_at r i) <$> rows df,
        mkDF (delete i (columns df)) (delete i <$> rows df)).

(** [df.insert(0, l, col)] *)
Definition insert0 (l : string) (col : list cell) (df : DataFrame) : DataFrame :=
  mkDF (l :: columns df) (zip_with cons col (rows df)).

(** The union of the column labels, in order of first appearance. *)
Definition union_columns (dfs : list DataFrame) : list string :=
  foldl (λ acc d, acc ++ List.filter (λ l, negb (Pandas.has_label l acc)) (columns d))
        [] dfs.

(** A row of a table with columns [cols], laid out on [target]. *)
Definition reindex_row (target cols : list string) (row : list cell)
    : list cell :=
  (λ l, match locs l cols 0 with
        | i :: _ => cell_at row i
        | [] => VMissing
        end) <$> target.

(** [pd.concat(dfs)]: rows stacked in the order of the list; columns are the
    union of the inputs' columns.  A column that one input lacks gets
    missing cells there; that pandas then holds its numbers as float64 is
    outside the model, and the statements are about inputs over the same
    columns. *)
Definition concat (dfs : list DataFrame) : result DataFrame :=
  match dfs with
  | [] => Raise (ValueError "No objects to concatenate")
  | d :: ds =>
      if forallb (λ d', bool_decide (columns d' = columns d)) ds
      then Ok (mkDF (columns d) (mjoin (rows <$> dfs)))
      else if forallb (λ d', bool_decide (NoDup (columns d'))) dfs
      then let target := union_columns dfs in
           Ok (mkDF target
                 (mjoin ((λ d', reindex_row target (columns d') <$> rows d')
                           <$> dfs)))
      else Raise InvalidIndexError
  end.

(** A sorting algorithm as the sort routine sees it: it may only compare. *)
Definition sort_algorithm : Type := ∀ A : Type, (A → A → bool) → list A → list A.

Definition stable_kind : sort_algorithm := λ A, stable_sort.

(** A second comparison sort, for statements that hold of every such
    algorithm: insertion behind the elements that are not larger.  It is not
    the algorithm of the library; that one is [Numpy.aquicksort] below. *)
Fixpoint insert_behind {A} (leb : A → A → bool) (x : A) (l : list A) : list A :=
  match l with
  | [] => [x]
  | y :: l' => if leb y x then y :: insert_behind leb x l' else x :: l
  end.

Fixpoint reversing_sort {A} (leb : A → A → bool) (l : list A) : list A :=
  match l with
  | [] => []
  | x :: l' => insert_behind leb x (reversing_sort leb l')
  end.

Definition reversing_kind : sort_algorithm := λ A, reversing_sort.

Definition is_str (c : cell) : bool :=
  match c with VStr _ => true | _ => false end.

Definition is_num (c : cell) : bool :=
  match c with VInt _ | VBool _ => true | _ => false end.

(** Keys that [<] can compare with each other. *)
Definition comparable (keys : list cell) : bool :=
  forallb is_str keys || forallb is_num keys.

(** [df.sort_values(by=[l])] on one column with the sort [kind]: the rows
    with a present key are sorted, the rows with a missing key follow in
    their order; keys that cannot be compared raise. *)
Definition sort_values (kind : sort_algorithm) (l : string) (df : DataFrame)
    : result DataFrame :=
  i ← get_loc l (columns df);
  let present := List.filter (λ r, negb (Pandas.isna (cell_at r i))) (rows df) in
  let absent := List.filter (λ r, Pandas.isna (cell_at r i)) (rows df) in
  if comparable ((λ r, cell_at r i) <$> present)
  then Ok (mkDF (columns df)
             (kind _ (λ r1 r2, cell_leb (cell_at r1 i) (cell_at r2 i)) present
              ++ absent))
  else Raise TypeError.

End Frame.

(** ** remove_dupes (src/main.py, lines 44-92)

    The duplicate count of line 67 is only logged and is left out. *)

Definition key_cols : list string := ["name"; "address"; "city"; "zip"].

Definition remove_dupes (df : DataFrame) (source : string) : result DataFrame :=
  df ← Frame.groupby_size key_cols "occurrences" df;
  df ← Frame.sort_values_lex ["occurrences"; "name"] [false; true] df;
  df ← Frame.drop_duplicates key_cols df;
  if bool_decide (source = "file1")
  then mret (Frame.setitem "file2" (VBool false)
               (Frame.setitem source (VBool true) df))
  else mret (Frame.setitem source (VBool true)
               (Frame.setitem "file1" (VBool false) df)).

(** ** combine_dataframes (src/main.py, lines 95-133)

    [kind] is the algorithm behind [sort_values]' default
    [kind="quicksort"]. *)

(** [lambda x: hashlib.md5(str(tuple(x)).encode('utf-8')).hexdigest()] *)
Definition row_id (x : list cell) : cell :=
  VStr (Md5.hexdigest (PyRepr.str_tuple x)).

Definition combine_dataframes (kind : Frame.sort_algorithm)
    (dataframes : list DataFrame) : result DataFrame :=
  df ← Frame.concat dataframes;
  df ← Frame.sort_values kind "name" df;
  let df := Frame.setitem_values "id" (row_id <$> rows df) df in
  '(col, df) ← Frame.pop "id" df;
  mret (Frame.insert0 "id" col df).

(** ** Vocabulary of the statements *)

(** The table [clean_data] returns for a caller whose table is the only
    object of the store. *)
Definition clean_table (d : DataFrame) : result DataFrame :=
  match clean_data 0%nat [d] with
  | (h, Ok r) =>
      match h !! r with
      | Some t => Ok t
      | None => Raise (Exception "dangling reference")
      end
  | (_, Raise e) => Raise e
  end.

(** The positional renaming of lines 160-161 as a function of the table. *)
Definition renamed (d : DataFrame) : result DataFrame :=
  c0 ← Pandas.column_label d 0;
  c1 ← Pandas.column_label d 1;
  c2 ← Pandas.column_label d 2;
  c3 ← Pandas.column_label d 3;
  mret (Pandas.rename (rename_dict c0 c1 c2 c3) d).

(** The three in-place steps: renaming, filling, lowercasing. *)
Definition updated_in_place (d : DataFrame) : result DataFrame :=
  d1 ← renamed d;
  Pandas.map_selected_res str_cols py_lower (Pandas.fillna fill_values d1).

(** The steps that work on the new table. *)
Definition finished (d3 : DataFrame) : result DataFrame :=
  t1 ← Pandas.map_selected_res ["name"] (λ c, Ok (str_replace_corp c))
         (Pandas.applymap py_strip d3);
  Pandas.map_selected_res str_cols (λ c, Ok (replace_symbols c)) t1.

(** At least four columns, and distinct labels once the first four are
    renamed. *)
Definition distinct_labels (d : DataFrame) : Prop :=
  ∃ d1, renamed d = Ok d1 ∧ NoDup (columns d1).

Definition str_or_missing (c : cell) : Prop :=
  match c with VStr _ | VMissing => True | _ => False end.

(** Every cell of the first three columns is a string or is missing. *)
Definition text_cells (d : DataFrame) : Prop :=
  ∀ row, row ∈ rows d → Forall str_or_missing (take 3 row).

(** The label a column gets from the [rename] call. *)
Definition renamer (c0 c1 c2 c3 l : string) : string :=
  default l (rename_dict c0 c1 c2 c3 !! l).

(** The cell that [fillna] leaves under label [l]. *)
Definition fill_cell (l : string) (c : cell) : cell :=
  if Pandas.isna c then
    if bool_decide (l ∈ str_cols) then VStr "not provided"
    else if bool_decide (l = "zip") then VInt 0 else c
  else c.

(** A table in normal form: the four names lead, no label is there twice,
    and every cell already is what the cleaning steps would make of it. *)
Definition trimmed_cell (c : cell) : bool :=
  match c with VStr s => Py.is_trimmed s | _ => true end.

Definition clean_text (l : string) (c : cell) : bool :=
  match c with
  | VStr s =>
      Py.is_lowercase s && Py.only_word_space s &&
      (if bool_decide (l = "name") then Py.no_match corp_pattern s else true)
  | _ => false
  end.

Definition cell_normal (l : string) (c : cell) : bool :=
  (if Pandas.has_label l str_cols then clean_text l c else true) &&
  (if bool_decide (l = "zip") then negb (Pandas.isna c) else true).

Definition normal_form (d : DataFrame) : Prop :=
  take 4 (columns d) = ["name"; "address"; "city"; "zip"] ∧
  NoDup (columns d) ∧
  ∀ row, row ∈ rows d →
    Forall (λ c, trimmed_cell c = true) row ∧
    ∀ i l c, columns d !! i = Some l → row !! i = Some c →
             cell_normal l c = true.

(** A normalized table as [remove_dupes] expects it: each of the four key
    columns is there once, and no key value is missing. *)
Definition normalized (df : DataFrame) : Prop :=
  ∃ idx, Frame.get_locs key_cols (columns df) = Ok idx ∧
         ∀ row, row ∈ rows df → Frame.has_na (Frame.key_at idx row) = false.

(** The (name, address, city, zip) tuples of a table, row by row. *)
Definition keys_of (df : DataFrame) : result (list (list cell)) :=
  idx ← Frame.get_locs key_cols (columns df);
  mret (Frame.key_at idx <$> rows df).

(** No two rows carry equal tuples (equal as Python compares them). *)
Definition distinct_keys (ks : list (list cell)) : Prop :=
  ∀ i j k1 k2, ks !! i = Some k1 → ks !! j = Some k2 → i ≠ j →
               Frame.key_eqb k1 k2 = false.

(** The cells of the column labelled [l]. *)
Definition column_cells (l : string) (df : DataFrame) : result (list cell) :=
  i ← Frame.get_loc l (columns df);
  mret ((λ r, Frame.cell_at r i) <$> rows df).

Definition zsum (ns : list Z) : Z := foldr Z.add 0 ns.

(** The number a cell counts for in a sum: [True] is 1, [False] is 0. *)
Definition int_of_cell (c : cell) : option Z :=
  match c with
  | VInt n => Some n
  | VBool b => Some (if b then 1 else 0)
  | _ => None
  end.

(** [Series.sum()] of a column of integers or booleans. *)
Definition sum_cells (cs : list cell) : option Z :=
  foldr (λ c acc, n ← int_of_cell c; s ← acc; Some (n + s)) (Some 0) cs.

(** The three table steps of [remove_dupes] before the source columns are
    added, and the adding of the source columns. *)
Definition grouped (df : DataFrame) : result DataFrame :=
  df ← Frame.groupby_size key_cols "occurrences" df;
  df ← Frame.sort_values_lex ["occurrences"; "name"] [false; true] df;
  Frame.drop_duplicates key_cols df.

Definition tag_source (source : string) (df : DataFrame) : DataFrame :=
  if bool_decide (source = "file1")
  then Frame.setitem "file2" (VBool false) (Frame.setitem source (VBool true) df)
  else Frame.setitem source (VBool true) (Frame.setitem "file1" (VBool false) df).

Definition row_of_group (g : list cell * Z) : list cell := g.1 ++ [VInt g.2].

Definition norm_key (k : list cell) : list cell := Frame.num_norm <$> k.

(** What is known of the algorithm behind [kind="quicksort"]: on a total
    preorder it returns its input rearranged and sorted. *)
Definition total_order {A} (leb : A → A → bool) : Prop :=
  ∀ x y, leb x y = true ∨ leb y x = true.

Definition transitive_order {A} (leb : A → A → bool) : Prop :=
  ∀ x y z, leb x y = true → leb y z = true → leb x z = true.

Definition comparison_sort (kind : Frame.sort_algorithm) : Prop :=
  ∀ (A : Type) (leb : A → A → bool),
    total_order leb → transitive_order leb →
    ∀ l, kind A leb l ≡ₚ l ∧ Sorted (λ x y, leb x y = true) (kind A leb l).

(** A stable algorithm keeps elements that compare equal in their order. *)
Definition stable_algorithm (kind : Frame.sort_algorithm) : Prop :=
  ∀ (A : Type) (leb : A → A → bool),
    total_order leb → transitive_order leb →
    ∀ l x, List.filter (λ y, leb x y && leb y x) (kind A leb l) =
           List.filter (λ y, leb x y && leb y x) l.

(** The order [sort_values] sorts the rows in: by the cell in column [i]. *)
Definition name_leb (i : nat) (r1 r2 : list cell) : bool :=
  Frame.cell_leb (Frame.cell_at r1 i) (Frame.cell_at r2 i).

(** The input of the merger: a non-empty list of tables over the same
    columns [cols], with rows as long as [cols], no [id] column yet, and a
    [name] column, at position [i], that holds text. *)
Record merge_input (cols : list string) (i : nat) (dfs : list DataFrame)
    : Prop := {
  mi_nonempty : dfs ≠ [];
  mi_columns : ∀ d, d ∈ dfs → columns d = cols;
  mi_rect : ∀ d r, d ∈ dfs → r ∈ rows d → length r = length cols;
  mi_no_id : "id" ∉ cols;
  mi_name : Frame.get_loc "name" cols = Ok i;
  mi_text : ∀ d r, d ∈ dfs → r ∈ rows d → ∃ s, Frame.cell_at r i = VStr s
}.

(** The rows of all inputs, stacked in the order of the list. *)
Definition stacked (dfs : list DataFrame) : list (list cell) :=
  mjoin (rows <$> dfs).

(** The rows of a merged table without their leading [id]. *)
Definition without_id (out : DataFrame) : list (list cell) :=
  tail <$> rows out.

(** The table is in non-decreasing order of its [name] column. *)
Definition sorted_by_name (out : DataFrame) : Prop :=
  ∃ j, Frame.get_loc "name" (columns out) = Ok j ∧
       Sorted (λ r1 r2, name_leb j r1 r2 = true) (rows out).

(** Rows of equal name stand in [body] in the order they have in [rows0]. *)
Definition same_order_of_equal_names (i : nat) (body rows0 : list (list cell))
    : Prop :=
  ∀ r, List.filter (λ r', name_leb i r r' && name_leb i r' r) body =
       List.filter (λ r', name_leb i r r' && name_leb i r' r) rows0.

(** All strings of [n] lowercase hexadecimal digits. *)
Definition hex_chars : list ascii :=
  ["0"; "1"; "2"; "3"; "4"; "5"; "6"; "7"; "8"; "9";
   "a"; "b"; "c"; "d"; "e"; "f"]%char.

Fixpoint hex_strings (n : nat) : list string :=
  match n with
  | O => [EmptyString]
  | S n' => s ← hex_strings n'; (λ c, String c s) <$> hex_chars
  end.

(** A deduplicated row of source [file1] with the given name. *)
Definition row_named (name : string) : list cell :=
  [VStr name; VStr "1 main st"; VStr "springfield"; VInt 11111; VInt 1;
   VBool true; VBool false].

(** ** Sample tables *)

Definition ex_raw : DataFrame :=
  mkDF ["Name"; "Addr"; "City"; "Zip"; "note"]
       [[VStr "  Acme LLC, Inc."; VStr "1 Main St."; VMissing;
         VStr "11111-0001"; VStr " x "];
        [VMissing; VStr "2 Elm #4"; VStr "Springfield"; VMissing; VMissing]].

Definition ex_normalized : DataFrame :=
  mkDF ["name"; "address"; "city"; "zip"]
       [[VStr "acme"; VStr "1 main st"; VStr "springfield"; VInt 11111];
        [VStr "bob"; VStr "2 elm 4"; VStr "springfield"; VInt 0];
        [VStr "acme"; VStr "1 main st"; VStr "springfield"; VInt 11111]].

Definition dedup_cols : list string :=
  ["name"; "address"; "city"; "zip"; "occurrences"; "file1"; "file2"].

Definition ex_file1 : DataFrame :=
  mkDF dedup_cols
       [[VStr "acme"; VStr "1 main st"; VStr "springfield"; VInt 11111;
         VInt 2; VBool true; VBool false];
        [VStr "bob"; VStr "2 elm 4"; VStr "springfield"; VInt 0;
         VInt 1; VBool true; VBool false]].

Definition ex_file2 : DataFrame :=
  mkDF dedup_cols
       [[VStr "acme"; VStr "1 main st"; VStr "springfield"; VInt 11111;
         VInt 1; VBool false; VBool true]].

(** [ex_raw] as [clean_data] leaves it for the caller, and the table it
    returns. *)
Definition ex_raw_updated : DataFrame :=
  mkDF ["name"; "address"; "city"; "zip"; "note"]
       [[VStr "  acme llc, inc."; VStr "1 main st."; VStr "not provided";
         VStr "11111-0001"; VStr " x "];
        [VStr "not provided"; VStr "2 elm #4"; VStr "springfield"; VInt 0;
         VMissing]].

Definition ex_raw_cleaned : DataFrame :=
  mkDF ["name"; "address"; "city"; "zip"; "note"]
       [[VStr "acme"; VStr "1 main st"; VStr "not provided";
         VStr "11111-0001"; VStr "x"];
        [VStr "not provided"; VStr "2 elm 4"; VStr "springfield"; VInt 0;
         VMissing]].

(** A name that ends in a symbol after a space. *)
Definition ex_symbol : DataFrame :=
  mkDF ["name"; "address"; "city"; "zip"]
       [[VStr "acme !"; VStr "1 main st"; VStr "springfield"; VInt 11111]].

(** [ex_symbol] after one cleaning, with the space that stood before the
    symbol now at the end of the name, and after a second cleaning. *)
Definition ex_symbol_cleaned : DataFrame :=
  mkDF ["name"; "address"; "city"; "zip"]
       [[VStr "acme "; VStr "1 main st"; VStr "springfield"; VInt 11111]].

Definition ex_symbol_again : DataFrame :=
  mkDF ["name"; "address"; "city"; "zip"]
       [[VStr "acme"; VStr "1 main st"; VStr "springfield"; VInt 11111]].

(** A numeric name. *)
Definition ex_numeric : DataFrame :=
  mkDF ["name"; "address"; "city"; "zip"]
       [[VInt 5; VStr "1 main st"; VStr "springfield"; VInt 11111]].

(** ** Text as a code: vocabulary for reading [str(tuple(...))] back *)

Fixpoint is_prefix (s1 s2 : string) : bool :=
  match s1, s2 with
  | EmptyString, _ => true
  | String c1 s1', String c2 s2' => bool_decide (c1 = c2) && is_prefix s1' s2'
  | String _ _, EmptyString => false
  end.

Definition all_ascii : list ascii := ascii_of_nat <$> seq 0 256.

(** No escape sequence starts another one, and none starts with the quote. *)
Definition escape_is_code (q : ascii) : bool :=
  forallb (λ c,
    forallb (λ d,
      bool_decide (c = d) ||
      negb (is_prefix (PyRepr.escape_char q c) (PyRepr.escape_char q d)))
      all_ascii &&
    match PyRepr.escape_char q c with
    | String x _ => negb (bool_decide (x = q))
    | EmptyString => false
    end) all_ascii.

(** The characters of a printed integer. *)
Definition is_num_char (c : ascii) : bool :=
  Py.between 48 57 c || bool_decide (c = "-"%char).

(** What follows a value inside a printed tuple: a comma or the bracket. *)
Definition continues (k : string) : bool :=
  match k with
  | String c _ => bool_decide (c = ","%char) || bool_decide (c = ")"%char)
  | EmptyString => false
  end.

(** The printed tuple after its first value: the other values, each behind
    its separator, and the closing bracket. *)
Fixpoint tuple_rest (vals : list cell) : string :=
  match vals with
  | [] => ")"
  | v :: vals' => ", " +:+ PyRepr.repr v +:+ tuple_rest vals'
  end.

(** ** read_source_files and main (src/main.py, lines 15-41 and 203-235)

    The files are seen through [read_csv] alone: a function from a path to
    the table [pd.read_csv(path, skipinitialspace=True)] builds from it, or
    to the exception it raises.  Log output is left out, and [main] ends
    with the table it hands to [to_csv]. *)

Module Str.

(** [s.split(sep)] for a separator of one character. *)
Fixpoint split (sep : ascii) (s : string) : list string :=
  match s with
  | EmptyString => [EmptyString]
  | String c s' =>
      if bool_decide (c = sep) then EmptyString :: split sep s'
      else match split sep s' with
           | p :: ps => String c p :: ps
           | [] => [String c EmptyString]
           end
  end.

End Str.

(** [l[i]] on a list *)
Definition getitem {A} (l : list A) (i : nat) : result A :=
  match l !! i with
  | Some x => Ok x
  | None => Raise IndexError
  end.

Definition SOURCE_FILES : list string := ["data/file1.csv"; "data/file2.csv"].

(** [file.split("/")[1].split(".")[0]] *)
Definition file_name (file : string) : result string :=
  part ← getitem (Str.split "/" file) 1;
  getitem (Str.split "." part) 0.

(** [d[k] = v] on a dict, kept in insertion order: a key that is there keeps
    its place and takes the new value. *)
Fixpoint dict_set {V} (k : string) (v : V) (d : list (string * V))
    : list (string * V) :=
  match d with
  | [] => [(k, v)]
  | (k', v') :: d' =>
      if bool_decide (k' = k) then (k', v) :: d' else (k', v') :: dict_set k v d'
  end.

(** The loop of lines 229-233 over the paths still to read. *)
Fixpoint read_files (read_csv : string → result DataFrame)
    (files : list string) (source_details : list (string * ref))
    : M (list (string * ref)) :=
  match files with
  | [] => mret source_details
  | file :: files' =>
      name ← lift (file_name file);
      d ← lift (read_csv file);
      r ← alloc d;
      read_files read_csv files' (dict_set name r source_details)
  end.

Definition read_source_files (read_csv : string → result DataFrame)
    : M (list (string * ref)) :=
  read_files read_csv SOURCE_FILES [].

(** The loop of lines 24-33 over the entries of [source_data] still to
    process; [finalized_dfs] grows at its end. *)
Fixpoint clean_and_dedupe (source_data : list (string * ref))
    (finalized_dfs : list DataFrame) : M (list DataFrame) :=
  match source_data with
  | [] => mret finalized_dfs
  | (file, r) :: source_data' =>
      clean_df ← clean_data r;
      d ← load clean_df;
      deduped_df ← lift (remove_dupes d file);
      clean_and_dedupe source_data' (finalized_dfs ++ [deduped_df])
  end.

Definition main (kind : Frame.sort_algorithm)
    (read_csv : string → result DataFrame) : M DataFrame :=
  source_data ← read_source_files read_csv;
  finalized_dfs ← clean_and_dedupe source_data [];
  lift (combine_dataframes kind finalized_dfs).

(** ** Vocabulary of the statements about the whole pipeline *)

(** Every row has one cell per column. *)
Definition rectangular (d : DataFrame) : Prop :=
  ∀ row, row ∈ rows d → length row = length (columns d).

(** The zip column holds text somewhere.  pandas then keeps it as a column
    of Python objects, and [fillna] writes the integer 0 into its gaps. *)
Definition text_zip (d : DataFrame) : Prop :=
  ∃ row s, row ∈ rows d ∧ row !! 3%nat = Some (VStr s).

(** [x.lower()] where it does not raise. *)
Definition lower_cell (c : cell) : cell :=
  match c with VStr s => VStr (Py.lower s) | _ => c end.

(** The cell the caller's table holds under label [l] after the in-place
    steps, and the cell of the returned table: the steps of [clean_data] in
    their order, on one cell. *)
Definition in_place_cell (l : string) (c : cell) : cell :=
  Pandas.on_labels str_cols lower_cell l (fill_cell l c).

Definition clean_cell (l : string) (c : cell) : cell :=
  Pandas.on_labels str_cols replace_symbols l
    (Pandas.on_labels ["name"] str_replace_corp l
       (py_strip (in_place_cell l c))).

(** The label of the second source column, and the row [remove_dupes] makes
    of a group: the key, its count, the [file1] flag and the other flag. *)
Definition other_label (source : string) : string :=
  if bool_decide (source = "file1") then "file2" else source.

Definition tagged_row (source : string) (g : list cell * Z) : list cell :=
  g.1 ++ [VInt g.2; VBool (bool_decide (source = "file1"));
          VBool (negb (bool_decide (source = "file1")))].

(** The keys of the rows that have no missing key value. *)
Definition complete_keys (idx : list nat) (df : DataFrame)
    : list (list cell) :=
  List.filter (λ k, negb (Frame.has_na k)) (Frame.key_at idx <$> rows df).

(** How many of [keys] equal [k] as Python compares them. *)
Definition count_equal (k : list cell) (keys : list (list cell)) : Z :=
  Z.of_nat (length (List.filter (Frame.key_eqb k) keys)).

(** The count that a list of groups holds for key [k], 0 if none. *)
Fixpoint group_count (k : list cell) (groups : list (list cell * Z)) : Z :=
  match groups with
  | [] => 0
  | (k', n) :: groups' =>
      if Frame.key_eqb k k' then n else group_count k groups'
  end.

(** The order of [sort_values(["occurrences", "name"],
    ascending=[False, True])] on rows that lead with the key and the
    count. *)
Definition occurrences_name_leb (r1 r2 : list cell) : bool :=
  Frame.rows_leb [(4%nat, false); (0%nat, true)] r1 r2.

(** A lowercase hexadecimal digit. *)
Definition is_hex_char (c : ascii) : bool := bool_decide (c ∈ hex_chars).

(** ** Sample files *)

(** A second raw table; its first two rows are one record, which is also
    the first record of [ex_raw]. *)
Definition ex_raw2 : DataFrame :=
  mkDF ["NAME"; "ADDRESS"; "CITY"; "ZIP"]
       [[VStr "ACME"; VStr "1 Main St"; VMissing; VStr "11111-0001"];
        [VStr "acme, inc."; VStr " 1 main st "; VMissing; VStr "11111-0001"];
        [VStr "Zeta Ltd"; VStr "9 Oak Ave"; VStr "Shelbyville";
         VStr "62701-0002"]].

(** A reader that finds the two source files, and one that finds none. *)
Definition ex_read_csv (path : string) : result DataFrame :=
  if bool_decide (path = "data/file1.csv") then Ok ex_raw
  else if bool_decide (path = "data/file2.csv") then Ok ex_raw2
  else Raise (Exception "no such file").

Definition ex_read_nothing (path : string) : result DataFrame :=
  Raise (Exception "no such file").

(** Tables at the edges: three columns only, no rows, no zip column, a key
    with a missing value, no name column, names of two types. *)
Definition ex_three_columns : DataFrame :=
  mkDF ["name"; "address"; "city"]
       [[VStr "acme"; VStr "1 main st"; VStr "springfield"]].

(** Four rows without a zip column: as many rows as [remove_dupes] has
    keys. *)
Definition ex_four_rows : DataFrame :=
  mkDF ["name"; "address"; "city"]
       [[VStr "acme"; VStr "1 main st"; VStr "springfield"];
        [VStr "bob"; VStr "2 elm 4"; VStr "springfield"];
        [VStr "cat"; VStr "3 oak 5"; VStr "shelbyville"];
        [VStr "dan"; VStr "4 ash 6"; VStr "shelbyville"]].

(** Numbers for names under the file's own headers, with gaps in address
    and city; and the table as a failed [clean_data] leaves it. *)
Definition ex_numbered : DataFrame :=
  mkDF ["Name"; "Addr"; "City"; "Zip"]
       [[VInt 5; VMissing; VStr "Springfield"; VInt 11111];
        [VInt 7; VStr "2 Elm #4"; VMissing; VInt 22222]].

Definition ex_numbered_updated : DataFrame :=
  mkDF ["name"; "address"; "city"; "zip"]
       [[VInt 5; VStr "not provided"; VStr "Springfield"; VInt 11111];
        [VInt 7; VStr "2 Elm #4"; VStr "not provided"; VInt 22222]].

Definition ex_no_rows : DataFrame := mkDF ["Name"; "Addr"; "City"; "Zip"] [].

Definition ex_incomplete : DataFrame :=
  mkDF ["name"; "address"; "city"; "zip"]
       [[VStr "acme"; VStr "1 main st"; VStr "springfield";
         VStr "11111-0001"];
        [VStr "bob"; VStr "2 elm 4"; VStr "springfield"; VMissing];
        [VStr "acme"; VStr "1 main st"; VStr "springfield";
         VStr "11111-0001"]].

Definition ex_no_name : DataFrame :=
  mkDF ["address"; "city"] [[VStr "1 main st"; VStr "springfield"]].

Definition ex_mixed_names : DataFrame :=
  mkDF ["name"; "zip"] [[VStr "acme"; VInt 11111]; [VInt 7; VInt 22222]].

(** A table that has been merged before. *)
Definition ex_merged : DataFrame :=
  mkDF ("id" :: dedup_cols)
       [[VStr "0c1f8f48ef88e5f5c17d7c26ca3c7429"; VStr "acme";
         VStr "1 main st"; VStr "springfield"; VInt 11111; VInt 2;
         VBool true; VBool false];
        [VStr "7ee6d360568f6efbfd8242a824885237"; VStr "bob"; VStr "2 elm 4";
         VStr "springfield"; VInt 0; VInt 1; VBool true; VBool false]].

(** ** The sort behind [kind="quicksort"]

    [sort_values] hands the present names to [ndarray.argsort] with the
    default [kind]; for an array of Python objects that is numpy's
    [npy_aquicksort]: quicksort on the median of three, insertion sort on
    ranges of at most 17 elements, heapsort once the depth limit is used up.
    The positions of the C code are positions of the list, and the list
    holds the elements in the order of the index array. *)

Module Numpy.

Section sort.
Context {A : Type} (less : A → A → bool).

(** The test [cmp(x, y) < 0] on the elements at two positions. *)
Definition less_at (a : list A) (i j : nat) : bool :=
  match a !! i, a !! j with
  | Some x, Some y => less x y
  | _, _ => false
  end.

(** [INTP_SWAP] of the elements at two positions. *)
Definition swap (a : list A) (i j : nat) : list A :=
  match a !! i, a !! j with
  | Some x, Some y => <[j := x]> (<[i := y]> a)
  | _, _ => a
  end.

(** [do ++pi while] the element at [pi] is less than the pivot [vp]. *)
Fixpoint scan_up (fuel : nat) (a : list A) (vp : A) (pi : nat) : nat :=
  match fuel with
  | O => pi
  | S fuel' =>
      match a !! S pi with
      | Some x => if less x vp then scan_up fuel' a vp (S pi) else S pi
      | None => S pi
      end
  end.

(** [do --pj while] the pivot [vp] is less than the element at [pj]. *)
Fixpoint scan_down (fuel : nat) (a : list A) (vp : A) (pj : nat) : nat :=
  match fuel with
  | O => pj
  | S fuel' =>
      match a !! Nat.pred pj with
      | Some x =>
          if less vp x then scan_down fuel' a vp (Nat.pred pj) else Nat.pred pj
      | None => Nat.pred pj
      end
  end.

(** The loop [for (;;)] of the partition; it returns the array and [pi]. *)
Fixpoint partition_loop (fuel : nat) (a : list A) (vp : A) (pi pj : nat)
    : list A * nat :=
  match fuel with
  | O => (a, pi)
  | S fuel' =>
      let pi := scan_up (length a) a vp pi in
      let pj := scan_down (length a) a vp pj in
      if (pj <=? pi)%nat then (a, pi)
      else partition_loop fuel' (swap a pi pj) vp pi pj
  end.

(** One partition of the range [pl..pr]: the median of three goes to
    [pr - 1], the range is split around it, and it lands at the returned
    position. *)
Definition partition (a : list A) (pl pr : nat) : list A * nat :=
  let pm := (pl + (pr - pl) / 2)%nat in
  let a := if less_at a pm pl then swap a pm pl else a in
  let a := if less_at a pr pm then swap a pr pm else a in
  let a := if less_at a pm pl then swap a pm pl else a in
  match a !! pm with
  | None => (a, pl)
  | Some vp =>
      let pj := (pr - 1)%nat in
      let a := swap a pm pj in
      let '(a, pi) := partition_loop (length a) a vp pl pj in
      (swap a pi (pr - 1), pi)
  end.

(** [while (pj > pl)] and [vi] is less than the element before [pj]: that
    element moves up one place; at the end [vi] is stored at [pj]. *)
Fixpoint shift_up (fuel : nat) (a : list A) (vi : A) (pl pj : nat) : list A :=
  match fuel with
  | O => <[pj := vi]> a
  | S fuel' =>
      if (pl <? pj)%nat then
        match a !! (pj - 1)%nat with
        | Some x =>
            if less vi x
            then shift_up fuel' (<[pj := x]> a) vi pl (pj - 1)%nat
            else <[pj := vi]> a
        | None => <[pj := vi]> a
        end
      else <[pj := vi]> a
  end.

(** [for (pi = pl + 1; pi <= pr; ++pi)]: the insertion sort of a range. *)
Fixpoint insertion_loop (fuel : nat) (a : list A) (pl pr pi : nat) : list A :=
  match fuel with
  | O => a
  | S fuel' =>
      if (pi <=? pr)%nat then
        match a !! pi with
        | Some vi =>
            insertion_loop fuel' (shift_up (length a) a vi pl pi) pl pr (S pi)
        | None => a
        end
      else a
  end.

Definition insertion_sort (a : list A) (pl pr : nat) : list A :=
  insertion_loop (length a) a pl pr (S pl).

(** [npy_aheapsort] on the [n] elements from position [base]; the C code
    counts them from 1, so its [a[j]] is the element at [base + j - 1]. *)
Fixpoint sift (fuel : nat) (a : list A) (base n : nat) (tmp : A) (i j : nat)
    : list A :=
  match fuel with
  | O => <[(base + i - 1)%nat := tmp]> a
  | S fuel' =>
      if (j <=? n)%nat then
        let j := if (j <? n)%nat && less_at a (base + j - 1)%nat (base + j)%nat
                 then S j else j in
        match a !! (base + j - 1)%nat with
        | Some aj =>
            if less tmp aj
            then sift fuel' (<[(base + i - 1)%nat := aj]> a) base n tmp j
                   (j + j)%nat
            else <[(base + i - 1)%nat := tmp]> a
        | None => <[(base + i - 1)%nat := tmp]> a
        end
      else <[(base + i - 1)%nat := tmp]> a
  end.

(** [for (l = n >> 1; l > 0; --l)] *)
Fixpoint heapify (fuel : nat) (a : list A) (base n l : nat) : list A :=
  match fuel with
  | O => a
  | S fuel' =>
      if (0 <? l)%nat then
        match a !! (base + l - 1)%nat with
        | Some tmp =>
            heapify fuel' (sift (length a) a base n tmp l (l + l)%nat)
              base n (l - 1)%nat
        | None => a
        end
      else a
  end.

(** [for (; n > 1;)] *)
Fixpoint extract (fuel : nat) (a : list A) (base n : nat) : list A :=
  match fuel with
  | O => a
  | S fuel' =>
      if (1 <? n)%nat then
        match a !! (base + n - 1)%nat, a !! base with
        | Some tmp, Some first =>
            let a := <[(base + n - 1)%nat := first]> a in
            extract fuel' (sift (length a) a base (n - 1)%nat tmp 1 2)
              base (n - 1)%nat
        | _, _ => a
        end
      else a
  end.

Definition aheapsort (a : list A) (base n : nat) : list A :=
  extract n (heapify n a base n (n / 2)%nat) base n.

(** The state of the outer loop: the array, the range at hand, the depth
    left, and the stack of ranges with their depths. *)
Record state : Type := mkState {
  arr : list A;
  pl : nat;
  pr : nat;
  cdepth : Z;
  stack : list (nat * nat * Z)
}.

(** [while ((pr - pl) > SMALL_QUICKSORT)]: partition, push the larger part,
    go on with the smaller one. *)
Fixpoint split_range (fuel : nat) (st : state) : state :=
  match fuel with
  | O => st
  | S fuel' =>
      if (16 <? pr st - pl st)%nat then
        let '(a, pi) := partition (arr st) (pl st) (pr st) in
        let d := cdepth st - 1 in
        if (pi - pl st <? pr st - pi)%nat
        then split_range fuel'
               (mkState a (pl st) (pi - 1)%nat d
                  ((S pi, pr st, d) :: stack st))
        else split_range fuel'
               (mkState a (S pi) (pr st) d
                  ((pl st, (pi - 1)%nat, d) :: stack st))
      else st
  end.

(** One turn of [while (1)]: the sorted array when the stack is empty, the
    next state otherwise. *)
Definition turn (st : state) : list A + state :=
  let st' :=
    if cdepth st <? 0
    then mkState (aheapsort (arr st) (pl st) (pr st - pl st + 1)%nat)
           (pl st) (pr st) (cdepth st) (stack st)
    else
      let st1 := split_range (length (arr st)) st in
      mkState (insertion_sort (arr st1) (pl st1) (pr st1))
        (pl st1) (pr st1) (cdepth st1) (stack st1) in
  match stack st' with
  | [] => inl (arr st')
  | (l, r, d) :: rest => inr (mkState (arr st') l r d rest)
  end.

Fixpoint run (fuel : nat) (st : state) : list A :=
  match fuel with
  | O => arr st
  | S fuel' =>
      match turn st with
      | inl a => a
      | inr st' => run fuel' st'
      end
  end.

(** [npy_aquicksort]; [npy_get_msb(num)] is the binary logarithm. *)
Definition aquicksort (a : list A) : list A :=
  run (S (length a))
    (mkState a 0 (length a - 1)
       (2 * Z.log2 (Z.of_nat (length a))) []).

End sort.

(** The algorithm as [sort_values] uses it: a key is less than another one
    when it is not the case that the other one is at most it. *)
Definition quicksort_kind : Frame.sort_algorithm :=
  λ A leb, aquicksort (λ x y, negb (leb y x)).

End Numpy.

(** A deduplicated table of eighteen records of one name, and the order
    their zips have after the merge. *)
Definition ex_eighteen : DataFrame :=
  mkDF dedup_cols
       ((λ z, [VStr "acme"; VStr "1 main st"; VStr "springfield"; VInt z;
               VInt 1; VBool true; VBool false]) <$>
        [10001; 10002; 10003; 10004; 10005; 10006; 10007; 10008; 10009;
         10010; 10011; 10012; 10013; 10014; 10015; 10016; 10017; 10018]).

Definition ex_eighteen_zips : list Z :=
  [10001; 10016; 10015; 10014; 10013; 10012; 10011; 10010; 10009; 10008;
   10007; 10006; 10005; 10004; 10003; 10002; 10017; 10018].
(** * Lemmas: the store and the shape of clean_data *)

Lemma insert_snoc_last (h : heap) (d d' : DataFrame) :
  <[length h := d']> (h ++ [d]) = h ++ [d'].
Proof.
  rewrite insert_app_r_alt by lia.
  replace (length h - length h)%nat with 0%nat by lia. reflexivity.
Qed.

Lemma lookup_snoc_last (h : heap) (d : DataFrame) :
  (h ++ [d]) !! length h = Some d.
Proof.
  rewrite lookup_app_r by lia.
  replace (length h - length h)%nat with 0%nat by lia. reflexivity.
Qed.

Lemma bind_ok {A B} (m : M A) (f : A → M B) (h h' : heap) (a : A) :
  m h = (h', Ok a) → (m ≫= f) h = f a h'.
Proof. intros H. unfold mbind, M_bind. rewrite H. reflexivity. Qed.

Lemma bind_raise {A B} (m : M A) (f : A → M B) (h h' : heap) (e : exn) :
  m h = (h', Raise e) → (m ≫= f) h = (h', Raise e).
Proof. intros H. unfold mbind, M_bind. rewrite H. reflexivity. Qed.

Lemma load_run (r : ref) (h : heap) (d : DataFrame) :
  h !! r = Some d → load r h = (h, Ok d).
Proof. intros H. unfold load. rewrite H. reflexivity. Qed.

Lemma lift_run {A} (x : result A) (h : heap) : lift x h = (h, x).
Proof. reflexivity. Qed.

Lemma modify_run (r : ref) (f : DataFrame → result DataFrame) (h : heap)
    (d : DataFrame) :
  h !! r = Some d →
  modify r f h =
    match f d with
    | Ok d' => (<[r := d']> h, Ok tt)
    | Raise e => (h, Raise e)
    end.
Proof.
  intros H. unfold modify.
  rewrite (bind_ok _ _ h h d) by (by apply load_run).
  unfold lift, store, mbind, M_bind. destruct (f d); reflexivity.
Qed.

(** What a run of [clean_data] does to the store, stage by stage. *)
Lemma clean_data_run (h : heap) (r : ref) (d : DataFrame) :
  h !! r = Some d →
  clean_data r h =
    match renamed d with
    | Raise e => (h, Raise e)
    | Ok d1 =>
        let d2 := Pandas.fillna fill_values d1 in
        match Pandas.map_selected_res str_cols py_lower d2 with
        | Raise e => (<[r := d2]> h, Raise e)
        | Ok d3 =>
            let h3 := <[r := d3]> h in
            let t0 := Pandas.applymap py_strip d3 in
            match Pandas.map_selected_res ["name"]
                    (λ c, Ok (str_replace_corp c)) t0 with
            | Raise e => (h3 ++ [t0], Raise e)
            | Ok t1 =>
                match Pandas.map_selected_res str_cols
                        (λ c, Ok (replace_symbols c)) t1 with
                | Raise e => (h3 ++ [t1], Raise e)
                | Ok t2 =>
                    match check_count (shape0 d) t2 with
                    | Raise e => (h3 ++ [t2], Raise e)
                    | Ok _ => (h3 ++ [t2], Ok (length h))
                    end
                end
            end
        end
    end.
Proof.
  intros Hr.
  assert (Hlt : (r < length h)%nat) by (eapply lookup_lt_Some; eauto).
  unfold clean_data, renamed.
  rewrite (bind_ok _ _ h h d) by (by apply load_run).
  destruct (Pandas.column_label d 0) as [c0|e] eqn:E0;
    [rewrite (bind_ok _ _ h h c0) by reflexivity
    |by rewrite (bind_raise _ _ h h e) by reflexivity].
  destruct (Pandas.column_label d 1) as [c1|e] eqn:E1;
    [rewrite (bind_ok _ _ h h c1) by reflexivity
    |by rewrite (bind_raise _ _ h h e) by reflexivity].
  destruct (Pandas.column_label d 2) as [c2|e] eqn:E2;
    [rewrite (bind_ok _ _ h h c2) by reflexivity
    |by rewrite (bind_raise _ _ h h e) by reflexivity].
  destruct (Pandas.column_label d 3) as [c3|e] eqn:E3;
    [rewrite (bind_ok _ _ h h c3) by reflexivity
    |by rewrite (bind_raise _ _ h h e) by reflexivity].
  cbn [mbind result_bind mret result_ret].
  set (d1 := Pandas.rename _ d).
  rewrite (bind_ok _ _ h (<[r:=d1]> h) tt) by (by rewrite (modify_run r _ h d)).
  set (d2 := Pandas.fillna fill_values d1).
  rewrite (bind_ok _ _ _ (<[r:=d2]> h) tt).
  2:{ rewrite (modify_run r _ _ d1) by (by apply list_lookup_insert_eq).
      cbn beta iota. by rewrite list_insert_insert_eq. }
  destruct (Pandas.map_selected_res str_cols py_lower d2) as [d3|e] eqn:E4.
  2:{ rewrite (bind_raise _ _ _ (<[r:=d2]> h) e); [done|].
      rewrite (modify_run r _ _ d2) by (by apply list_lookup_insert_eq).
      by rewrite E4. }
  rewrite (bind_ok _ _ _ (<[r:=d3]> h) tt).
  2:{ rewrite (modify_run r _ _ d2) by (by apply list_lookup_insert_eq).
      by rewrite E4, list_insert_insert_eq. }
  set (h3 := <[r:=d3]> h).
  assert (Hlen : length h3 = length h) by apply length_insert.
  rewrite (bind_ok _ _ h3 h3 d3)
    by (apply load_run; by apply list_lookup_insert_eq).
  set (t0 := Pandas.applymap py_strip d3).
  rewrite (bind_ok _ _ h3 (h3 ++ [t0]) (length h3)) by reflexivity.
  destruct (Pandas.map_selected_res ["name"] _ t0) as [t1|e] eqn:E5.
  2:{ rewrite (bind_raise _ _ _ (h3 ++ [t0]) e); [done|].
      rewrite (modify_run _ _ _ t0) by apply lookup_snoc_last.
      by rewrite E5. }
  rewrite (bind_ok _ _ _ (h3 ++ [t1]) tt).
  2:{ rewrite (modify_run _ _ _ t0) by apply lookup_snoc_last.
      by rewrite E5, insert_snoc_last. }
  destruct (Pandas.map_selected_res str_cols _ t1) as [t2|e] eqn:E6.
  2:{ rewrite (bind_raise _ _ _ (h3 ++ [t1]) e); [done|].
      rewrite (modify_run _ _ _ t1) by apply lookup_snoc_last.
      by rewrite E6. }
  rewrite (bind_ok _ _ _ (h3 ++ [t2]) tt).
  2:{ rewrite (modify_run _ _ _ t1) by apply lookup_snoc_last.
      by rewrite E6, insert_snoc_last. }
  rewrite (bind_ok _ _ _ (h3 ++ [t2]) t2)
    by (apply load_run, lookup_snoc_last).
  destruct (check_count (shape0 d) t2) as [[]|e] eqn:E7.
  - rewrite (bind_ok _ _ _ (h3 ++ [t2]) tt) by reflexivity.
    by rewrite Hlen.
  - by rewrite (bind_raise _ _ _ (h3 ++ [t2]) e) by reflexivity.
Qed.

(** * Lemmas: the cell-wise operations *)

Lemma map_row_lookup (f : string → cell → cell) (labels : list string)
    (row : list cell) (i : nat) :
  Pandas.map_row f labels row !! i =
    match labels !! i, row !! i with
    | Some l, Some c => Some (f l c)
    | _, o => o
    end.
Proof.
  revert row i. induction labels as [|l labels IH]; intros [|c row] [|i]; cbn;
    try reflexivity.
  - by destruct (_ !! _).
  - apply IH.
Qed.

Lemma map_row_length (f : string → cell → cell) (labels : list string)
    (row : list cell) :
  length (Pandas.map_row f labels row) = length row.
Proof.
  revert row. induction labels as [|l labels IH]; intros [|c row]; cbn; auto.
Qed.

Lemma map_row_id (f : string → cell → cell) (labels : list string)
    (row : list cell) :
  (∀ i l c, labels !! i = Some l → row !! i = Some c → f l c = c) →
  Pandas.map_row f labels row = row.
Proof.
  revert row. induction labels as [|l labels IH]; intros [|c row] H; cbn;
    try reflexivity.
  rewrite (H 0%nat l c) by reflexivity. f_equal.
  apply IH. intros i l' c' Hl Hc. apply (H (S i)); assumption.
Qed.

Lemma map_row_compose (f g : string → cell → cell) (labels : list string)
    (row : list cell) :
  Pandas.map_row f labels (Pandas.map_row g labels row) =
  Pandas.map_row (λ l c, f l (g l c)) labels row.
Proof.
  revert row. induction labels as [|l labels IH]; intros [|c row]; cbn;
    try reflexivity.
  by rewrite IH.
Qed.

Lemma map_row_ext (f g : string → cell → cell) (labels : list string)
    (row : list cell) :
  (∀ l c, f l c = g l c) →
  Pandas.map_row f labels row = Pandas.map_row g labels row.
Proof.
  intros H. revert row.
  induction labels as [|l labels IH]; intros [|c row]; cbn; try reflexivity.
  by rewrite H, IH.
Qed.

(** A cell-wise map that cannot raise is a plain map. *)
Lemma map_row_res_total (f : string → cell → cell) (labels : list string)
    (row : list cell) :
  Pandas.map_row_res (λ l c, Ok (f l c)) labels row =
  Ok (Pandas.map_row f labels row).
Proof.
  revert row. induction labels as [|l labels IH]; intros [|c row]; cbn;
    try reflexivity.
  by rewrite IH.
Qed.

Lemma map_rows_res_total (f : string → cell → cell) (labels : list string)
    (rs : list (list cell)) :
  Pandas.map_rows_res (λ l c, Ok (f l c)) labels rs =
  Ok (Pandas.map_row f labels <$> rs).
Proof.
  induction rs as [|r rs IH]; cbn; [reflexivity|].
  by rewrite map_row_res_total, IH.
Qed.

Lemma map_rows_res_ext (f g : string → cell → result cell)
    (labels : list string) (rs : list (list cell)) :
  (∀ l c, f l c = g l c) →
  Pandas.map_rows_res f labels rs = Pandas.map_rows_res g labels rs.
Proof.
  intros H. induction rs as [|r rs IH]; cbn; [reflexivity|].
  rewrite IH. f_equal.
  clear IH. revert r. induction labels as [|l labels IH]; intros [|c r]; cbn;
    try reflexivity.
  by rewrite H, IH.
Qed.

Lemma map_rows_res_length (f : string → cell → result cell)
    (labels : list string) (rs rs' : list (list cell)) :
  Pandas.map_rows_res f labels rs = Ok rs' → length rs' = length rs.
Proof.
  revert rs'. induction rs as [|r rs IH]; intros rs'; cbn.
  - by intros [= <-].
  - destruct (Pandas.map_row_res f labels r); cbn; [|done].
    destruct (Pandas.map_rows_res f labels rs); cbn; [|done].
    intros [= <-]. cbn. f_equal. by apply IH.
Qed.

(** When the map returns, [f] returned on every cell that has a label. *)
Lemma map_row_res_ok (f : string → cell → result cell) (labels : list string)
    (row row' : list cell) (i : nat) (l : string) (c : cell) :
  Pandas.map_row_res f labels row = Ok row' →
  labels !! i = Some l → row !! i = Some c → ∃ c', f l c = Ok c'.
Proof.
  revert row row' i. induction labels as [|l0 labels IH];
    intros [|c0 row] row' [|i]; cbn; try done.
  - intros H [= ->] [= ->]. destruct (f l c); [eauto|done].
  - destruct (f l0 c0); cbn; [|done].
    destruct (Pandas.map_row_res f labels row) eqn:E; cbn; [|done].
    intros _. by apply IH with (row' := a0).
Qed.

Lemma map_rows_res_ok (f : string → cell → result cell) (labels : list string)
    (rs rs' : list (list cell)) (row : list cell) (i : nat) (l : string)
    (c : cell) :
  Pandas.map_rows_res f labels rs = Ok rs' → row ∈ rs →
  labels !! i = Some l → row !! i = Some c → ∃ c', f l c = Ok c'.
Proof.
  revert rs'. induction rs as [|r rs IH]; intros rs'; cbn.
  - intros _ Hin. by apply elem_of_nil in Hin.
  - destruct (Pandas.map_row_res f labels r) eqn:E1; cbn; [|done].
    destruct (Pandas.map_rows_res f labels rs) eqn:E2; cbn; [|done].
    intros _ Hin Hl Hc. apply elem_of_cons in Hin as [->|Hin].
    + eapply map_row_res_ok; eauto.
    + eapply IH; eauto.
Qed.

(** Conversely the map returns when [f] returns on every labelled cell. *)
Lemma map_row_res_returns (f : string → cell → result cell)
    (labels : list string) (row : list cell) :
  (∀ i l c, labels !! i = Some l → row !! i = Some c → ∃ c', f l c = Ok c') →
  ∃ row', Pandas.map_row_res f labels row = Ok row'.
Proof.
  revert row. induction labels as [|l labels IH]; intros [|c row] H; cbn;
    eauto.
  destruct (H 0%nat l c) as [c' ->]; [done..|]. cbn.
  destruct (IH row) as [row' ->]; [|cbn; eauto].
  intros i l' c'' Hl Hc. by apply (H (S i)).
Qed.

Lemma map_rows_res_returns (f : string → cell → result cell)
    (labels : list string) (rs : list (list cell)) :
  (∀ row i l c, row ∈ rs → labels !! i = Some l → row !! i = Some c →
                ∃ c', f l c = Ok c') →
  ∃ rs', Pandas.map_rows_res f labels rs = Ok rs'.
Proof.
  induction rs as [|r rs IH]; intros H; cbn; eauto.
  destruct (map_row_res_returns f labels r) as [r' ->].
  { intros i l c. apply H. by left. }
  cbn. destruct IH as [rs' ->]; [|cbn; eauto].
  intros row i l c Hin. apply H. by right.
Qed.

Lemma map_selected_res_shape (sel : list string) (f : cell → result cell)
    (d d' : DataFrame) :
  Pandas.map_selected_res sel f d = Ok d' →
  columns d' = columns d ∧ shape0 d' = shape0 d.
Proof.
  unfold Pandas.map_selected_res.
  destruct (Pandas.missing_label sel (columns d)); [done|].
  destruct (Pandas.map_rows_res _ _ _) as [rs|] eqn:E; cbn; [|done].
  intros [= <-]. split; [done|]. unfold shape0. cbn.
  by eapply map_rows_res_length.
Qed.

Lemma map_selected_res_total (sel : list string) (f : cell → cell)
    (d : DataFrame) :
  Pandas.map_selected_res sel (λ c, Ok (f c)) d =
    match Pandas.missing_label sel (columns d) with
    | Some l => Raise (KeyError l)
    | None =>
        Ok (mkDF (columns d)
              (Pandas.map_row (Pandas.on_labels sel f) (columns d) <$> rows d))
    end.
Proof.
  unfold Pandas.map_selected_res.
  destruct (Pandas.missing_label sel (columns d)); [done|].
  rewrite (map_rows_res_ext _ (λ l c, Ok (Pandas.on_labels sel f l c))).
  - by rewrite map_rows_res_total.
  - intros l c. unfold Pandas.on_labels_res, Pandas.on_labels.
    by destruct (Pandas.has_label l sel).
Qed.

Lemma fillna1_shape (k : string) (v : cell) (d : DataFrame) :
  columns (Pandas.fillna1 k v d) = columns d ∧
  shape0 (Pandas.fillna1 k v d) = shape0 d.
Proof. unfold shape0. cbn. by rewrite length_fmap. Qed.

Lemma fillna_shape (values : list (string * cell)) (d : DataFrame) :
  columns (Pandas.fillna values d) = columns d ∧
  shape0 (Pandas.fillna values d) = shape0 d.
Proof.
  unfold Pandas.fillna. revert d.
  induction values as [|[k v] values IH]; intros d; cbn; [done|].
  destruct (IH (Pandas.fillna1 k v d)) as [-> ->]. apply fillna1_shape.
Qed.

Lemma renamed_rows (d d1 : DataFrame) :
  renamed d = Ok d1 → rows d1 = rows d.
Proof.
  unfold renamed.
  destruct (Pandas.column_label d 0); cbn; [|done].
  destruct (Pandas.column_label d 1); cbn; [|done].
  destruct (Pandas.column_label d 2); cbn; [|done].
  destruct (Pandas.column_label d 3); cbn; [|done].
  by intros [= <-].
Qed.

Lemma applymap_shape (f : cell → cell) (d : DataFrame) :
  columns (Pandas.applymap f d) = columns d ∧
  shape0 (Pandas.applymap f d) = shape0 d.
Proof. unfold shape0. cbn. by rewrite length_fmap. Qed.

Lemma check_count_spec (n : nat) (t : DataFrame) :
  check_count n t =
    if bool_decide (n = shape0 t) then Ok tt
    else Raise (Exception "The dataframe record count has changed!").
Proof.
  unfold check_count. repeat case_bool_decide; done.
Qed.

(** The stages of a run that returns. *)
Lemma clean_data_returns_inv (h h' : heap) (r r' : ref) (d : DataFrame) :
  h !! r = Some d → clean_data r h = (h', Ok r') →
  ∃ d3 t,
    updated_in_place d = Ok d3 ∧ finished d3 = Ok t ∧
    shape0 t = shape0 d ∧
    h' = <[r := d3]> h ++ [t] ∧ r' = length h.
Proof.
  intros Hr. rewrite (clean_data_run h r d Hr).
  unfold updated_in_place, finished, mbind, result_bind.
  destruct (renamed d) as [d1|]; [|congruence]. cbn zeta.
  destruct (Pandas.map_selected_res str_cols py_lower
              (Pandas.fillna fill_values d1)) as [d3|]; [|congruence].
  destruct (Pandas.map_selected_res ["name"] _ (Pandas.applymap py_strip d3))
    as [t1|] eqn:E1; [|congruence].
  destruct (Pandas.map_selected_res str_cols _ t1) as [t2|] eqn:E2;
    [|congruence].
  rewrite check_count_spec. case_bool_decide as Hn; [|congruence].
  intros [= <- <-]. exists d3, t2. rewrite E1, E2. by repeat split.
Qed.

Lemma updated_in_place_shape (d d3 : DataFrame) :
  updated_in_place d = Ok d3 → shape0 d3 = shape0 d.
Proof.
  unfold updated_in_place, mbind, result_bind.
  destruct (renamed d) as [d1|] eqn:E; [|done].
  intros H. apply map_selected_res_shape in H as [_ ->].
  destruct (fillna_shape fill_values d1) as [_ ->].
  unfold shape0. by rewrite (renamed_rows d d1).
Qed.

Lemma finished_shape (d3 t : DataFrame) :
  finished d3 = Ok t → columns t = columns d3 ∧ shape0 t = shape0 d3.
Proof.
  unfold finished, mbind, result_bind.
  destruct (Pandas.map_selected_res ["name"] _ _) as [t1|] eqn:E; [|done].
  intros H. apply map_selected_res_shape in H as [-> ->].
  apply map_selected_res_shape in E as [-> ->]. apply applymap_shape.
Qed.

(** A run returns as soon as its two halves do. *)
Lemma clean_data_returns (h : heap) (r : ref) (d d3 t : DataFrame) :
  h !! r = Some d → updated_in_place d = Ok d3 → finished d3 = Ok t →
  clean_data r h = (<[r := d3]> h ++ [t], Ok (length h)).
Proof.
  intros Hr H1 H2. rewrite (clean_data_run h r d Hr).
  pose proof (updated_in_place_shape _ _ H1) as S1.
  pose proof (finished_shape _ _ H2) as [_ S2].
  revert H1 H2. unfold updated_in_place, finished, mbind, result_bind.
  destruct (renamed d) as [d1|]; [|done]. cbn zeta.
  intros ->.
  destruct (Pandas.map_selected_res ["name"] _ _) as [t1|]; [|done].
  intros ->. rewrite check_count_spec.
  rewrite bool_decide_true by congruence. done.
Qed.

(** * Lemmas: renaming and filling *)

Lemma renamed_inv (d d1 : DataFrame) :
  renamed d = Ok d1 →
  ∃ c0 c1 c2 c3 rest,
    columns d = c0 :: c1 :: c2 :: c3 :: rest ∧
    columns d1 = renamer c0 c1 c2 c3 <$> columns d ∧
    rows d1 = rows d.
Proof.
  unfold renamed, Pandas.column_label, mbind, result_bind.
  destruct (columns d) as [|c0 [|c1 [|c2 [|c3 rest]]]] eqn:E; cbn; try done.
  intros [= <-]. exists c0, c1, c2, c3, rest. cbn. by rewrite E.
Qed.

Lemma renamed_returns (d : DataFrame) (c0 c1 c2 c3 : string)
    (rest : list string) :
  columns d = c0 :: c1 :: c2 :: c3 :: rest →
  renamed d = Ok (Pandas.rename (rename_dict c0 c1 c2 c3) d).
Proof.
  intros E. unfold renamed, Pandas.column_label, mbind, result_bind.
  by rewrite E.
Qed.

Lemma renamer_3 c0 c1 c2 c3 : renamer c0 c1 c2 c3 c3 = "zip".
Proof. unfold renamer, rename_dict. by rewrite lookup_insert_eq. Qed.

Lemma renamer_2 c0 c1 c2 c3 : c2 ≠ c3 → renamer c0 c1 c2 c3 c2 = "city".
Proof.
  intros. unfold renamer, rename_dict.
  rewrite lookup_insert_ne by done. by rewrite lookup_insert_eq.
Qed.

Lemma renamer_1 c0 c1 c2 c3 :
  c1 ≠ c2 → c1 ≠ c3 → renamer c0 c1 c2 c3 c1 = "address".
Proof.
  intros. unfold renamer, rename_dict.
  rewrite !lookup_insert_ne by done. by rewrite lookup_insert_eq.
Qed.

Lemma renamer_0 c0 c1 c2 c3 :
  c0 ≠ c1 → c0 ≠ c2 → c0 ≠ c3 → renamer c0 c1 c2 c3 c0 = "name".
Proof.
  intros. unfold renamer, rename_dict.
  rewrite !lookup_insert_ne by done. by rewrite lookup_insert_eq.
Qed.

Lemma renamer_other c0 c1 c2 c3 l :
  l ≠ c0 → l ≠ c1 → l ≠ c2 → l ≠ c3 → renamer c0 c1 c2 c3 l = l.
Proof.
  intros. unfold renamer, rename_dict.
  rewrite !lookup_insert_ne by done. by rewrite lookup_empty.
Qed.

(** With four distinct leading labels the renaming yields the four names. *)
Lemma renamed_take4 (d d1 : DataFrame) :
  NoDup (take 4 (columns d)) → renamed d = Ok d1 →
  take 4 (columns d1) = key_cols.
Proof.
  intros ND H. apply renamed_inv in H as (c0 & c1 & c2 & c3 & rest & E & E1 & _).
  rewrite E1, E. rewrite E in ND. cbn in ND |- *.
  rewrite take_0 in ND |- *.
  apply NoDup_cons in ND as [N0 ND]. apply NoDup_cons in ND as [N1 ND].
  apply NoDup_cons in ND as [N2 _].
  rewrite renamer_0, renamer_1, renamer_2, renamer_3
    by (intros ->;
        first [solve [apply N0; rewrite !elem_of_cons; auto]
              |solve [apply N1; rewrite !elem_of_cons; auto]
              |solve [apply N2; rewrite !elem_of_cons; auto]]).
  reflexivity.
Qed.

(** Distinct labels after the renaming: the table starts with the four
    names, and no later label repeats one of them. *)
Lemma distinct_labels_inv (d : DataFrame) :
  distinct_labels d →
  ∃ d1 rest,
    renamed d = Ok d1 ∧ columns d1 = key_cols ++ rest ∧
    (∀ l, l ∈ rest → l ∉ key_cols) ∧ rows d1 = rows d.
Proof.
  intros (d1 & H & ND). exists d1.
  destruct (renamed_inv _ _ H) as (c0 & c1 & c2 & c3 & rest & E & E1 & Er).
  rewrite E in E1. cbn in E1. rewrite E1 in ND.
  exists (renamer c0 c1 c2 c3 <$> rest).
  rewrite renamer_3 in E1, ND.
  destruct (decide (c2 = c3)) as [->|n23].
  { rewrite renamer_3 in ND. apply NoDup_cons in ND as [_ ND].
    apply NoDup_cons in ND as [_ ND]. apply NoDup_cons in ND as [ND _].
    exfalso. apply ND. by left. }
  rewrite renamer_2 in E1, ND by done.
  destruct (decide (c1 = c3)) as [->|n13].
  { rewrite renamer_3 in ND. apply NoDup_cons in ND as [_ ND].
    apply NoDup_cons in ND as [ND _]. exfalso. apply ND. right. by left. }
  destruct (decide (c1 = c2)) as [->|n12].
  { rewrite renamer_2 in ND by done. apply NoDup_cons in ND as [_ ND].
    apply NoDup_cons in ND as [ND _]. exfalso. apply ND. by left. }
  rewrite renamer_1 in E1, ND by done.
  destruct (decide (c0 = c3)) as [->|n03].
  { rewrite renamer_3 in ND. apply NoDup_cons in ND as [ND _].
    exfalso. apply ND. right. right. by left. }
  destruct (decide (c0 = c2)) as [->|n02].
  { rewrite renamer_2 in ND by done. apply NoDup_cons in ND as [ND _].
    exfalso. apply ND. right. by left. }
  destruct (decide (c0 = c1)) as [->|n01].
  { rewrite renamer_1 in ND by done. apply NoDup_cons in ND as [ND _].
    exfalso. apply ND. by left. }
  rewrite renamer_0 in E1, ND by done.
  repeat split; [done|done| |done].
  intros l Hl Hk.
  apply NoDup_cons in ND as [N0 ND]. apply NoDup_cons in ND as [N1 ND].
  apply NoDup_cons in ND as [N2 ND]. apply NoDup_cons in ND as [N3 _].
  unfold key_cols in Hk. rewrite !elem_of_cons, elem_of_nil in Hk.
  destruct Hk as [->|[->|[->|[->|[]]]]];
    first [by apply N0; do 3 right|by apply N1; do 2 right
          |by apply N2; right|by apply N3].
Qed.

Lemma fillna_rows (d : DataFrame) :
  rows (Pandas.fillna fill_values d) =
  Pandas.map_row fill_cell (columns d) <$> rows d.
Proof.
  unfold Pandas.fillna, fill_values. cbn.
  rewrite <- !list_fmap_compose.
  apply list_fmap_ext. intros _ row _. cbn.
  rewrite !map_row_compose. apply map_row_ext.
  intros l c. unfold Pandas.on_labels, Pandas.has_label, fill_cell, str_cols.
  destruct c; cbn; try by repeat case_bool_decide.
  repeat case_bool_decide;
    repeat match goal with
    | H : _ ∈ _ :: _ |- _ => apply elem_of_cons in H as [H|H]
    | H : _ ∈ [] |- _ => by apply elem_of_nil in H
    | H : _ ∉ _ :: _ |- _ => apply not_elem_of_cons in H as [? H]
    end; subst; done.
Qed.

Lemma fillna_columns (d : DataFrame) :
  columns (Pandas.fillna fill_values d) = columns d.
Proof. apply fillna_shape. Qed.

Lemma missing_label_none (sel cols : list string) :
  sel ⊆ cols → Pandas.missing_label sel cols = None.
Proof.
  intros H. unfold Pandas.missing_label.
  destruct (List.find _ sel) as [l|] eqn:E; [|done].
  apply find_some in E as [Hin Hl]. apply list_elem_of_In, H in Hin.
  unfold Pandas.has_label in Hl. by rewrite bool_decide_true in Hl.
Qed.

Lemma missing_label_some (sel cols : list string) (l : string) :
  Pandas.missing_label sel cols = Some l → l ∈ sel ∧ l ∉ cols.
Proof.
  unfold Pandas.missing_label. intros E.
  apply find_some in E as [Hin Hl]. split; [by apply list_elem_of_In|].
  unfold Pandas.has_label in Hl. by case_bool_decide.
Qed.

(** * Lemmas: when the in-place half of clean_data returns *)

Lemma py_lower_raises (sel : list string) (labels : list string)
    (rs : list (list cell)) (e : exn) :
  Pandas.map_rows_res (Pandas.on_labels_res sel py_lower) labels rs = Raise e →
  e = AttributeError.
Proof.
  assert (Hrow : ∀ row, Pandas.map_row_res (Pandas.on_labels_res sel py_lower)
                          labels row = Raise e → e = AttributeError).
  { induction labels as [|l labels IH]; intros [|c row]; cbn; try done.
    unfold mbind, mret, result_bind, result_ret.
    unfold Pandas.on_labels_res at 1.
    destruct (Pandas.map_row_res _ labels row) eqn:E;
      destruct (Pandas.has_label l sel); destruct c; cbn;
      first [congruence | intros [= <-]; by apply (IH row)]. }
  induction rs as [|r rs IH]; cbn; [done|].
  unfold mbind, mret, result_bind, result_ret.
  destruct (Pandas.map_row_res _ labels r) eqn:E1.
  - destruct (Pandas.map_rows_res _ labels rs) eqn:E2; [done|].
    intros [= <-]. by apply IH.
  - intros [= <-]. by apply (Hrow r).
Qed.

Lemma key_cols_lookup_str (rest : list string) (i : nat) (l : string) :
  (∀ l, l ∈ rest → l ∉ key_cols) →
  (key_cols ++ rest) !! i = Some l → l ∈ str_cols → (i < 3)%nat.
Proof.
  intros Hrest Hl Hs.
  destruct i as [|[|[|[|i]]]]; try lia; cbn in Hl.
  - injection Hl as <-. unfold str_cols in Hs.
    rewrite !elem_of_cons, elem_of_nil in Hs.
    destruct Hs as [|[|[|[]]]]; discriminate.
  - exfalso. apply list_elem_of_lookup_2 in Hl. apply (Hrest l Hl).
    unfold str_cols in Hs. unfold key_cols.
    rewrite !elem_of_cons, elem_of_nil in Hs. rewrite !elem_of_cons. tauto.
Qed.

(** On a table of text with distinct labels the in-place half returns. *)
Lemma updated_in_place_returns (d : DataFrame) :
  distinct_labels d → text_cells d → ∃ d3, updated_in_place d = Ok d3.
Proof.
  intros Hd Ht.
  destruct (distinct_labels_inv d Hd) as (d1 & rest & E & Ec & Hrest & Er).
  unfold updated_in_place, mbind, result_bind. rewrite E.
  unfold Pandas.map_selected_res.
  rewrite fillna_columns, Ec, missing_label_none.
  2:{ intros l Hl. unfold str_cols in Hl. unfold key_cols. cbn.
      rewrite !elem_of_cons, elem_of_nil in Hl. rewrite !elem_of_cons. tauto. }
  destruct (map_rows_res_returns (Pandas.on_labels_res str_cols py_lower)
              (key_cols ++ rest) (rows (Pandas.fillna fill_values d1)))
    as [rs' ->]; [|cbn; eauto].
  intros row i l c Hrow Hl Hc.
  unfold Pandas.on_labels_res, Pandas.has_label. case_bool_decide as Hs; [|eauto].
  pose proof (key_cols_lookup_str rest i l Hrest Hl Hs) as Hi.
  rewrite fillna_rows, Ec, Er in Hrow.
  apply list_elem_of_fmap in Hrow as (row0 & -> & Hrow0).
  rewrite map_row_lookup, Hl in Hc.
  destruct (row0 !! i) as [c0|] eqn:E0; [|done]. injection Hc as <-.
  assert (Hc0 : str_or_missing c0).
  { specialize (Ht row0 Hrow0). eapply Forall_lookup_1; [exact Ht|].
    rewrite lookup_take_lt; [exact E0|lia]. }
  unfold fill_cell. destruct c0; cbn in Hc0 |- *; try done; [eauto|].
  rewrite bool_decide_true by done. cbn. eauto.
Qed.

Lemma finished_returns (d3 : DataFrame) :
  "name" ∈ columns d3 → "address" ∈ columns d3 → "city" ∈ columns d3 →
  ∃ t, finished d3 = Ok t.
Proof.
  intros Hn Ha Hc. unfold finished, mbind, result_bind.
  rewrite map_selected_res_total. cbn [columns Pandas.applymap].
  rewrite missing_label_none.
  2:{ intros l Hl. apply list_elem_of_singleton in Hl. by subst. }
  rewrite map_selected_res_total. cbn [columns].
  rewrite missing_label_none; [eauto|].
  intros l Hl. unfold str_cols in Hl.
  rewrite !elem_of_cons, elem_of_nil in Hl.
  destruct Hl as [->|[->|[->|[]]]]; done.
Qed.

Lemma updated_in_place_columns (d d1 d3 : DataFrame) :
  renamed d = Ok d1 → updated_in_place d = Ok d3 → columns d3 = columns d1.
Proof.
  intros E. unfold updated_in_place, mbind, result_bind. rewrite E.
  intros H. apply map_selected_res_shape in H as [-> _]. apply fillna_columns.
Qed.

(** * Statements about clean_data *)

(** C1. A run of [clean_data] that returns hands back a table with as many
    rows as the caller's table had; the final test raises exactly when the
    two counts differ; and on a table of text with at least four columns and
    distinct labels the run does return. *)
Theorem clean_data_preserves_row_count (h : heap) (r : ref) (d : DataFrame) :
  h !! r = Some d →
  (∀ h' r', clean_data r h = (h', Ok r') →
            ∃ t, h' !! r' = Some t ∧ shape0 t = shape0 d) ∧
  (∀ t, shape0 t ≠ shape0 d →
        check_count (shape0 d) t =
        Raise (Exception "The dataframe record count has changed!")) ∧
  (distinct_labels d → text_cells d →
   ∃ h' r' t, clean_data r h = (h', Ok r') ∧ h' !! r' = Some t ∧
              shape0 t = shape0 d).
Proof.
  intros Hr. split; [|split].
  - intros h' r' Hrun.
    destruct (clean_data_returns_inv h h' r r' d Hr Hrun)
      as (d3 & t & _ & _ & Hs & -> & ->).
    exists t. split; [|done].
    rewrite <- (length_insert h r d3). apply lookup_snoc_last.
  - intros t Ht. rewrite check_count_spec.
    by rewrite bool_decide_false by congruence.
  - intros Hd Ht.
    destruct (updated_in_place_returns d Hd Ht) as [d3 H3].
    destruct (distinct_labels_inv d Hd) as (d1 & rest & E & Ec & _ & _).
    pose proof (updated_in_place_columns d d1 d3 E H3) as Hc3.
    destruct (finished_returns d3) as [t Hfin].
    1-3: rewrite Hc3, Ec; unfold key_cols; cbn; rewrite !elem_of_cons; tauto.
    exists (<[r := d3]> h ++ [t]), (length h), t.
    split; [by apply (clean_data_returns h r d d3 t)|]. split.
    + rewrite <- (length_insert h r d3). apply lookup_snoc_last.
    + destruct (finished_shape d3 t Hfin) as [_ ->].
      by apply updated_in_place_shape.
Qed.

(** C9 (as the code has it). A run that returns hands back a new object and
    leaves every other object of the store alone, but the caller's table is
    updated in place: it now is the input with its first four columns
    renamed, its missing name, address, city and zip values filled and its
    three text columns lowercased.  The later steps (strip, suffix removal,
    symbol removal) touch the new table only. *)
Theorem clean_data_updates_caller_table (h h' : heap) (r r' : ref)
    (d : DataFrame) :
  h !! r = Some d → clean_data r h = (h', Ok r') →
  ∃ d3 t,
    updated_in_place d = Ok d3 ∧ finished d3 = Ok t ∧
    h' !! r = Some d3 ∧
    r' ≠ r ∧ h !! r' = None ∧ h' !! r' = Some t ∧
    ∀ r0, r0 ≠ r → r0 ≠ r' → h' !! r0 = h !! r0.
Proof.
  intros Hr Hrun.
  assert (Hlt : (r < length h)%nat) by (eapply lookup_lt_Some; eauto).
  destruct (clean_data_returns_inv h h' r r' d Hr Hrun)
    as (d3 & t & H3 & Hfin & _ & -> & ->).
  exists d3, t. repeat split; try done.
  - rewrite lookup_app_l by (rewrite length_insert; lia).
    by apply list_lookup_insert_eq.
  - lia.
  - by apply lookup_ge_None_2.
  - rewrite <- (length_insert h r d3). apply lookup_snoc_last.
  - intros r0 Hne Hne'.
    destruct (decide (r0 < length h)%nat) as [Hlt0|Hge].
    + rewrite lookup_app_l by (rewrite length_insert; lia).
      by apply list_lookup_insert_ne.
    + rewrite lookup_ge_None_2 by (rewrite length_app, length_insert; cbn; lia).
      symmetry. apply lookup_ge_None_2. lia.
Qed.

(** C10. With distinctly labelled leading columns, one cell of the first
    three columns that is neither a string nor missing makes [clean_data]
    raise instead of returning a table: [AttributeError] from the
    lowercasing step, or [IndexError] from the renaming when the table has
    fewer than four columns. *)
Theorem clean_data_rejects_non_text (h : heap) (r : ref) (d : DataFrame)
    (row : list cell) (i : nat) (c : cell) :
  h !! r = Some d → NoDup (take 4 (columns d)) →
  row ∈ rows d → (i < 3)%nat → row !! i = Some c → ¬ str_or_missing c →
  ∃ h' e, clean_data r h = (h', Raise e) ∧ length h' = length h ∧
          ((4 ≤ length (columns d))%nat → e = AttributeError) ∧
          ((length (columns d) < 4)%nat → e = IndexError).
Proof.
  intros Hr ND Hrow Hi Hc Hnot.
  destruct (decide (4 ≤ length (columns d))%nat) as [Hlen|Hlen].
  2:{ rewrite (clean_data_run h r d Hr).
      exists h, IndexError. unfold renamed, Pandas.column_label.
      destruct (columns d) as [|c0 [|c1 [|c2 [|c3 rest]]]] eqn:Ecols;
        cbn in Hlen |- *; try (repeat split; (done || lia)). }
  cut (∃ h', clean_data r h = (h', Raise AttributeError) ∧
             length h' = length h).
  { intros (h' & H1 & H2). exists h', AttributeError.
    repeat split; [done..|lia]. }
  rewrite (clean_data_run h r d Hr).
  destruct (columns d) as [|c0 [|c1 [|c2 [|c3 rest]]]] eqn:Ecols;
    cbn in Hlen; try lia.
  pose proof (renamed_returns d c0 c1 c2 c3 rest Ecols) as E.
  rewrite E. cbn zeta.
  set (d1 := Pandas.rename (rename_dict c0 c1 c2 c3) d) in *.
  assert (E4 : take 4 (columns d1) = key_cols)
    by (apply (renamed_take4 d d1); [by rewrite Ecols|done]).
  assert (Hl : ∃ l, columns d1 !! i = Some l ∧ l ∈ str_cols).
  { assert (Hk : take 4 (columns d1) !! i = columns d1 !! i)
      by (apply lookup_take_lt; lia).
    rewrite E4 in Hk. rewrite <- Hk.
    destruct i as [|[|[|i]]]; try lia; cbn; eexists; (split; [done|]);
      unfold str_cols; rewrite !elem_of_cons; tauto. }
  destruct Hl as (l & Hl & Hs).
  unfold Pandas.map_selected_res at 1.
  rewrite fillna_columns.
  destruct (Pandas.missing_label str_cols (columns d1)) as [l'|] eqn:Em.
  { exfalso. apply missing_label_some in Em as [Hin Hout].
    apply Hout. rewrite <- (take_drop 4 (columns d1)), E4.
    apply elem_of_app. left. unfold str_cols in Hin. unfold key_cols.
    rewrite !elem_of_cons, elem_of_nil in Hin. rewrite !elem_of_cons. tauto. }
  destruct (Pandas.map_rows_res _ _ _) as [rs'|e] eqn:Erows;
    cbn [mbind result_bind mret result_ret].
  - exfalso.
    destruct (map_rows_res_ok _ _ _ _
                (Pandas.map_row fill_cell (columns d1) row) i l c Erows)
      as [c' Hc']; [| done | |].
    + rewrite fillna_rows. apply list_elem_of_fmap. exists row.
      split; [done|]. by rewrite (renamed_rows d d1 E).
    + rewrite map_row_lookup, Hl, Hc. f_equal. unfold fill_cell.
      by destruct c.
    + unfold Pandas.on_labels_res, Pandas.has_label in Hc'.
      rewrite bool_decide_true in Hc' by done. by destruct c.
  - apply py_lower_raises in Erows as ->.
    eexists. split; [reflexivity|]. by rewrite length_insert.
Qed.

(** * Lemmas: text that is already clean *)

Lemma lower_id (s : string) : Py.is_lowercase s = true → Py.lower s = s.
Proof.
  induction s as [|c s IH]; cbn; [done|].
  intros [Hc Hs]%andb_true_iff. rewrite IH by done.
  unfold Py.lower_char. apply negb_true_iff in Hc. by rewrite Hc.
Qed.

Lemma rstrip_id (s : string) : Py.ends_with_space s = false → Py.rstrip s = s.
Proof.
  induction s as [|c s IH]; [done|].
  destruct s as [|c' s'].
  - cbn. by intros ->.
  - intros H. change (Py.ends_with_space (String c' s') = false) in H.
    change (Py.rstrip (String c (String c' s')))
      with (match Py.rstrip (String c' s') with
            | EmptyString =>
                if Py.is_space c then EmptyString else String c EmptyString
            | r => String c r
            end).
    by rewrite (IH H).
Qed.

Lemma strip_id (s : string) : Py.is_trimmed s = true → Py.strip s = s.
Proof.
  unfold Py.strip. destruct s as [|c s]; [done|].
  unfold Py.is_trimmed. intros [Hc Hs]%andb_true_iff.
  apply negb_true_iff in Hc, Hs. cbn [Py.lstrip]. rewrite Hc.
  by apply rstrip_id.
Qed.

Lemma re_sub_alt_id (pats : list string) (s : string) :
  Py.no_match pats s = true → Py.re_sub_alt pats s = s.
Proof.
  unfold Py.re_sub_alt. induction s as [|c s IH]; [done|].
  cbn [Py.no_match Py.re_sub_alt_from].
  intros [Hm Hs]%andb_true_iff. apply bool_decide_eq_true in Hm.
  rewrite Hm, IH by done. done.
Qed.

Lemma remove_symbols_id (s : string) :
  Py.only_word_space s = true → Py.remove_symbols s = s.
Proof.
  induction s as [|c s IH]; cbn; [done|].
  intros [Hc Hs]%andb_true_iff. by rewrite Hc, IH.
Qed.

Lemma renamer_std (l : string) : renamer "name" "address" "city" "zip" l = l.
Proof.
  unfold renamer, rename_dict. rewrite !lookup_insert, lookup_empty.
  repeat case_decide; by subst.
Qed.

Lemma map_rows_res_id (f : string → cell → result cell) (labels : list string)
    (rs : list (list cell)) :
  (∀ row i l c, row ∈ rs → labels !! i = Some l → row !! i = Some c →
                f l c = Ok c) →
  Pandas.map_rows_res f labels rs = Ok rs.
Proof.
  assert (Hrow : ∀ row,
    (∀ i l c, labels !! i = Some l → row !! i = Some c → f l c = Ok c) →
    Pandas.map_row_res f labels row = Ok row).
  { induction labels as [|l labels IH]; intros [|c row] H; cbn; try done.
    rewrite (H 0%nat l c) by done. cbn.
    rewrite IH; [done|]. intros i l' c' Hl Hc. by apply (H (S i)). }
  induction rs as [|r rs IH]; intros H; cbn; [done|].
  rewrite Hrow by (intros i l c; apply H; by left). cbn.
  rewrite IH; [done|]. intros row i l c Hin. apply H. by right.
Qed.

Lemma map_rows_id (f : string → cell → cell) (labels : list string)
    (rs : list (list cell)) :
  (∀ row i l c, row ∈ rs → labels !! i = Some l → row !! i = Some c →
                f l c = c) →
  Pandas.map_row f labels <$> rs = rs.
Proof.
  intros H. induction rs as [|r rs IH]; cbn; [done|].
  rewrite map_row_id by (intros i l c; apply H; by left).
  f_equal. apply IH. intros row i l c Hin. apply H. by right.
Qed.

Lemma df_ext (d1 d2 : DataFrame) :
  columns d1 = columns d2 → rows d1 = rows d2 → d1 = d2.
Proof. destruct d1, d2. cbn. by intros -> ->. Qed.

Section normal_form.
Variable d : DataFrame.
Hypothesis Hnf : normal_form d.

Lemma normal_cell (row : list cell) (i : nat) (l : string) (c : cell) :
  row ∈ rows d → columns d !! i = Some l → row !! i = Some c →
  cell_normal l c = true.
Proof. intros Hrow. destruct Hnf as (_ & _ & H). by apply H. Qed.

Lemma normal_renamed : renamed d = Ok d.
Proof.
  destruct Hnf as [H4 _].
  destruct (columns d) as [|c0 [|c1 [|c2 [|c3 rest]]]] eqn:E; try done.
  cbn in H4. injection H4 as -> -> -> ->.
  rewrite (renamed_returns d _ _ _ _ rest E). f_equal.
  apply df_ext; [|done]. cbn [columns Pandas.rename].
  change (renamer "name" "address" "city" "zip" <$> columns d = columns d).
  rewrite <- (list_fmap_id (columns d)) at 2.
  apply list_fmap_ext. intros _ l _. apply renamer_std.
Qed.

Lemma normal_filled : Pandas.fillna fill_values d = d.
Proof.
  apply df_ext; [apply fillna_columns|].
  rewrite fillna_rows. apply map_rows_id. intros row i l c Hrow Hl Hc.
  pose proof (normal_cell row i l c Hrow Hl Hc) as Hn.
  unfold cell_normal, Pandas.has_label in Hn.
  apply andb_true_iff in Hn as [H1 H2].
  unfold fill_cell. destruct c; try done. cbn.
  case_bool_decide; [by rewrite bool_decide_true in H1|].
  case_bool_decide; done.
Qed.

Lemma normal_updated_in_place : updated_in_place d = Ok d.
Proof.
  unfold updated_in_place, mbind, result_bind.
  rewrite normal_renamed, normal_filled.
  unfold Pandas.map_selected_res.
  destruct Hnf as [H4 _].
  rewrite missing_label_none.
  2:{ intros l Hl. rewrite <- (take_drop 4 (columns d)), H4.
      apply elem_of_app. left. unfold str_cols in Hl.
      rewrite !elem_of_cons, elem_of_nil in Hl. rewrite !elem_of_cons.
      tauto. }
  rewrite map_rows_res_id; [cbn; f_equal; by apply df_ext|].
  intros row i l c Hrow Hl Hc.
  pose proof (normal_cell row i l c Hrow Hl Hc) as Hn.
  unfold cell_normal in Hn. apply andb_true_iff in Hn as [H1 _].
  unfold Pandas.on_labels_res. destruct (Pandas.has_label l str_cols); [|done].
  destruct c; try done. cbn in H1 |- *.
  apply andb_true_iff in H1 as [H1 _]. apply andb_true_iff in H1 as [H1 _].
  by rewrite lower_id.
Qed.

Lemma normal_stripped : Pandas.applymap py_strip d = d.
Proof.
  apply df_ext; [done|]. cbn [rows Pandas.applymap].
  assert (Hrows : ∀ row, row ∈ rows d →
                         Forall (λ c, trimmed_cell c = true) row).
  { intros row Hrow. destruct Hnf as (_ & _ & H). by apply H. }
  revert Hrows. generalize (rows d). intros rs Hrows.
  induction rs as [|r rs IH]; cbn; [done|].
  f_equal.
  - specialize (Hrows r ltac:(by left)).
    induction Hrows as [|c r Hc Hr IHr]; cbn; [done|].
    rewrite IHr. f_equal. destruct c; try done. cbn in Hc |- *.
    by rewrite strip_id.
  - apply IH. intros row Hrow. apply Hrows. by right.
Qed.

Lemma normal_finished : finished d = Ok d.
Proof.
  unfold finished, mbind, result_bind. rewrite normal_stripped.
  destruct Hnf as [H4 _].
  assert (Hsub : ∀ l, l ∈ str_cols → l ∈ columns d).
  { intros l Hl. rewrite <- (take_drop 4 (columns d)), H4.
    apply elem_of_app. left. unfold str_cols in Hl.
    rewrite !elem_of_cons, elem_of_nil in Hl. rewrite !elem_of_cons.
    tauto. }
  rewrite map_selected_res_total, missing_label_none.
  2:{ intros l Hl. apply list_elem_of_singleton in Hl. subst.
      apply Hsub. by left. }
  rewrite map_rows_id.
  2:{ intros row i l c Hrow Hl Hc.
      pose proof (normal_cell row i l c Hrow Hl Hc) as Hn.
      unfold Pandas.on_labels, Pandas.has_label.
      destruct (decide (l = "name")) as [->|Hname].
      - rewrite bool_decide_true by (by left).
        unfold cell_normal, Pandas.has_label in Hn.
        apply andb_true_iff in Hn as [H1 _].
        rewrite bool_decide_true in H1 by (by left).
        destruct c; try done. cbn in H1 |- *.
        apply andb_true_iff in H1 as [_ H1].
        by rewrite re_sub_alt_id.
      - rewrite bool_decide_false; [done|].
        by intros ->%list_elem_of_singleton. }
  rewrite map_selected_res_total. cbn [columns].
  rewrite missing_label_none by done.
  cbn [rows]. rewrite map_rows_id; [f_equal; by apply df_ext|].
  intros row i l c Hrow Hl Hc.
  pose proof (normal_cell row i l c Hrow Hl Hc) as Hn.
  unfold cell_normal in Hn. apply andb_true_iff in Hn as [H1 _].
  unfold Pandas.on_labels. destruct (Pandas.has_label l str_cols); [|done].
  destruct c; try done. cbn in H1 |- *.
  apply andb_true_iff in H1 as [H1 _]. apply andb_true_iff in H1 as [_ H1].
  by rewrite remove_symbols_id.
Qed.
End normal_form.

(** [clean_data] changes nothing on a table in normal form: the four names
    lead and no label is there twice, name, address and city hold lowercase
    text of word characters and spaces only, the name holds none of the three
    suffixes, no zip is missing and every text cell is trimmed.  The returned
    table equals the input, and the caller's table is left as it was. *)
Theorem clean_data_keeps_normal_form (h : heap) (r : ref) (d : DataFrame) :
  h !! r = Some d → normal_form d →
  clean_data r h = (h ++ [d], Ok (length h)) ∧ clean_table d = Ok d.
Proof.
  intros Hr Hnf. split.
  - rewrite (clean_data_returns h r d d d Hr);
      [|by apply normal_updated_in_place|by apply normal_finished].
    by rewrite list_insert_id.
  - unfold clean_table.
    rewrite (clean_data_returns [d] 0%nat d d d);
      [done|done|by apply normal_updated_in_place|by apply normal_finished].
Qed.

(** * Lemmas: sorting and grouping *)

Lemma insert_sorted_perm {A} (leb : A → A → bool) (x : A) (l : list A) :
  Frame.insert_sorted leb x l ≡ₚ x :: l.
Proof.
  induction l as [|y l IH]; cbn; [done|].
  destruct (leb x y); [done|]. rewrite IH. apply Permutation_swap.
Qed.

Lemma stable_sort_perm {A} (leb : A → A → bool) (l : list A) :
  Frame.stable_sort leb l ≡ₚ l.
Proof.
  induction l as [|x l IH]; cbn; [done|].
  by rewrite insert_sorted_perm, IH.
Qed.

Lemma key_eqb_true (k1 k2 : list cell) :
  Frame.key_eqb k1 k2 = true ↔ norm_key k1 = norm_key k2.
Proof. unfold Frame.key_eqb. apply bool_decide_eq_true. Qed.

Lemma key_eqb_false (k1 k2 : list cell) :
  Frame.key_eqb k1 k2 = false ↔ norm_key k1 ≠ norm_key k2.
Proof. unfold Frame.key_eqb. apply bool_decide_eq_false. Qed.

Lemma count_key_fst (k : list cell) (gs : list (list cell * Z)) :
  (Frame.count_key k gs).*1 =
    if bool_decide (norm_key k ∈ norm_key <$> gs.*1) then gs.*1
    else gs.*1 ++ [k].
Proof.
  induction gs as [|[k' n] gs IH]; cbn.
  - rewrite bool_decide_false; [done|]. apply not_elem_of_nil.
  - destruct (Frame.key_eqb k k') eqn:E.
    + apply key_eqb_true in E. rewrite bool_decide_true; [done|].
      rewrite E. by left.
    + apply key_eqb_false in E. cbn. rewrite IH.
      case_bool_decide as H1.
      * rewrite bool_decide_true; [done|]. by right.
      * rewrite bool_decide_false; [done|].
        intros [?|?]%elem_of_cons; done.
Qed.

Lemma zsum_cons (n : Z) (ns : list Z) : zsum (n :: ns) = n + zsum ns.
Proof. reflexivity. Qed.

Lemma count_key_sum (k : list cell) (gs : list (list cell * Z)) :
  zsum (Frame.count_key k gs).*2 = zsum gs.*2 + 1.
Proof.
  induction gs as [|[k' n] gs IH]; [done|].
  cbn [Frame.count_key]. destruct (Frame.key_eqb k k'); [cbn; lia|].
  rewrite !fmap_cons, !zsum_cons, IH. cbn. lia.
Qed.

Lemma count_key_pos (k : list cell) (gs : list (list cell * Z)) :
  Forall (λ g, 1 ≤ g.2) gs → Forall (λ g, 1 ≤ g.2) (Frame.count_key k gs).
Proof.
  induction 1 as [|[k' n] gs Hn Hgs IH]; cbn.
  - by repeat constructor.
  - cbn in Hn. destruct (Frame.key_eqb k k'); constructor; cbn; (lia || done).
Qed.

Lemma count_key_nodup (k : list cell) (gs : list (list cell * Z)) :
  NoDup (norm_key <$> gs.*1) →
  NoDup (norm_key <$> (Frame.count_key k gs).*1).
Proof.
  intros ND. rewrite count_key_fst. case_bool_decide as H; [done|].
  rewrite fmap_app. cbn. apply NoDup_app. split; [done|].
  split; [|apply NoDup_singleton].
  intros x Hx ->%list_elem_of_singleton. done.
Qed.

Lemma count_key_elem (k : list cell) (gs : list (list cell * Z))
    (k' : list cell) :
  k' ∈ (Frame.count_key k gs).*1 → k' ∈ gs.*1 ∨ k' = k.
Proof.
  rewrite count_key_fst. case_bool_decide; [by left|].
  intros [?|H1]%elem_of_app; [by left|].
  apply list_elem_of_singleton in H1. by right.
Qed.

(** The groups of a list of keys: distinct keys, positive sizes that add up
    to the number of keys, and no key that is not in the list. *)
Lemma group_sizes_spec (keys : list (list cell)) :
  NoDup (norm_key <$> (Frame.group_sizes keys).*1) ∧
  Forall (λ g, 1 ≤ g.2) (Frame.group_sizes keys) ∧
  zsum (Frame.group_sizes keys).*2 = Z.of_nat (length keys) ∧
  ∀ k, k ∈ (Frame.group_sizes keys).*1 → k ∈ keys.
Proof.
  unfold Frame.group_sizes.
  cut (∀ gs,
    NoDup (norm_key <$> gs.*1) → Forall (λ g, 1 ≤ g.2) gs →
    let gs' := foldl (λ groups k, Frame.count_key k groups) gs keys in
    NoDup (norm_key <$> gs'.*1) ∧ Forall (λ g, 1 ≤ g.2) gs' ∧
    zsum gs'.*2 = zsum gs.*2 + Z.of_nat (length keys) ∧
    ∀ k, k ∈ gs'.*1 → k ∈ gs.*1 ∨ k ∈ keys).
  { intros H. destruct (H [] ltac:(constructor) ltac:(constructor))
      as (H1 & H2 & H3 & H4).
    repeat split; [done|done|by rewrite H3|].
    intros k Hk. destruct (H4 k Hk) as [Hn|]; [|done].
    by apply elem_of_nil in Hn. }
  induction keys as [|k keys IH]; intros gs ND Hpos; cbn [foldl length].
  - repeat split; [done|done|cbn; lia|]. intros k Hk. by left.
  - destruct (IH (Frame.count_key k gs)) as (H1 & H2 & H3 & H4).
    { by apply count_key_nodup. }
    { by apply count_key_pos. }
    repeat split; [done|done| |].
    + cbn zeta. rewrite H3, count_key_sum. lia.
    + intros k' Hk'. destruct (H4 k' Hk') as [Hc|Hc].
      * apply count_key_elem in Hc as [?| ->]; [by left|right; by left].
      * right. by right.
Qed.

Lemma existsb_key_eqb_false (k : list cell) (seen : list (list cell)) :
  norm_key k ∉ norm_key <$> seen → existsb (Frame.key_eqb k) seen = false.
Proof.
  induction seen as [|s seen IH]; cbn; [done|].
  intros H. apply not_elem_of_cons in H as [H1 H2].
  rewrite IH by done. rewrite orb_false_r. by apply key_eqb_false.
Qed.

(** Rows with distinct keys all survive [drop_duplicates]. *)
Lemma keep_first_id (idx : list nat) (seen : list (list cell))
    (rs : list (list cell)) :
  NoDup ((λ r, norm_key (Frame.key_at idx r)) <$> rs) →
  (∀ r, r ∈ rs → norm_key (Frame.key_at idx r) ∉ norm_key <$> seen) →
  Frame.keep_first idx seen rs = rs.
Proof.
  revert seen. induction rs as [|r rs IH]; intros seen ND Hseen; cbn; [done|].
  cbn in ND. apply NoDup_cons in ND as [Hr ND].
  rewrite existsb_key_eqb_false by (apply Hseen; by left).
  f_equal. apply IH; [done|].
  intros r' Hr'. cbn. intros [E|H]%elem_of_cons.
  - apply Hr. rewrite <- E. apply list_elem_of_fmap. by exists r'.
  - revert H. apply Hseen. by right.
Qed.

Lemma distinct_keys_of_nodup (ks : list (list cell)) :
  NoDup (norm_key <$> ks) → distinct_keys ks.
Proof.
  intros ND i j k1 k2 Hi Hj Hne. apply key_eqb_false. intros E.
  apply Hne. eapply (NoDup_lookup _ i j (norm_key k1)); [exact ND| |].
  - by rewrite list_lookup_fmap, Hi.
  - by rewrite list_lookup_fmap, Hj, E.
Qed.

Lemma get_locs_length (ls cols : list string) (idx : list nat) :
  Frame.get_locs ls cols = Ok idx → length idx = length ls.
Proof.
  revert idx. induction ls as [|l ls IH]; intros idx; cbn.
  - by intros [= <-].
  - unfold mbind, result_bind, mret, result_ret.
    destruct (Frame.get_loc l cols); [|done].
    destruct (Frame.get_locs ls cols); [|done].
    intros [= <-]. cbn. f_equal. by apply IH.
Qed.

Lemma zsum_perm (l1 l2 : list Z) : l1 ≡ₚ l2 → zsum l1 = zsum l2.
Proof. unfold zsum. induction 1; cbn in *; lia. Qed.

(** * Lemmas: the table steps of remove_dupes *)

Lemma stable_sort_fmap {A B} (f : A → B) (leb : B → B → bool) (l : list A) :
  Frame.stable_sort leb (f <$> l) =
  f <$> Frame.stable_sort (λ x y, leb (f x) (f y)) l.
Proof.
  induction l as [|x l IH]; cbn; [done|]. rewrite IH.
  generalize (Frame.stable_sort (λ x y, leb (f x) (f y)) l). intros l'.
  induction l' as [|y l' IH']; cbn; [done|].
  destruct (leb (f x) (f y)); cbn; [done|]. by rewrite IH'.
Qed.

Lemma locs_in (l : string) (cols : list string) (k : nat) :
  Frame.locs l cols k ≠ [] → l ∈ cols.
Proof.
  revert k. induction cols as [|c cols IH]; intros k; cbn; [done|].
  case_bool_decide as E.
  - intros _. subst. by left.
  - intros H. right. by apply (IH (S k)).
Qed.

Lemma get_locs_has_labels (ls cols : list string) (idx : list nat) :
  Frame.get_locs ls cols = Ok idx →
  forallb (λ l, Pandas.has_label l cols) ls = true.
Proof.
  revert idx. induction ls as [|l ls IH]; intros idx; [done|].
  cbn [Frame.get_locs forallb]. unfold mbind, result_bind.
  destruct (Frame.get_loc l cols) as [i|] eqn:El; [|done].
  destruct (Frame.get_locs ls cols) as [idx'|]; [|done].
  intros _. rewrite (IH idx' eq_refl), andb_true_r.
  unfold Pandas.has_label. apply bool_decide_eq_true.
  apply (locs_in l cols 0). unfold Frame.get_loc in El.
  by destruct (Frame.locs l cols 0).
Qed.

(** Where every key is a column, [groupby] groups by the columns. *)
Lemma groupby_size_columns (by_cols : list string) (name : string)
    (df : DataFrame) (idx : list nat) :
  Frame.get_locs by_cols (columns df) = Ok idx →
  Frame.groupby_size by_cols name df = Frame.group_by_columns by_cols name df.
Proof.
  intros H. unfold Frame.groupby_size.
  by rewrite (get_locs_has_labels _ _ _ H), andb_false_r.
Qed.

(** Where the list of keys is taken for the grouping itself, the sort that
    follows finds no [name] column. *)
Lemma grouped_by_labels (df : DataFrame) :
  (bool_decide (length key_cols = shape0 df) &&
   negb (forallb (λ l, Pandas.has_label l (columns df)) key_cols)) = true →
  grouped df = Raise (KeyError "name").
Proof.
  intros H. unfold grouped, Frame.groupby_size. rewrite H. reflexivity.
Qed.

Lemma remove_dupes_unfold (df : DataFrame) (source : string) :
  remove_dupes df source =
    match grouped df with
    | Ok g => Ok (tag_source source g)
    | Raise e => Raise e
    end.
Proof.
  unfold remove_dupes, grouped, tag_source, mbind, result_bind, mret, result_ret.
  destruct (Frame.groupby_size _ _ _) as [g|]; [|done].
  destruct (Frame.sort_values_lex _ _ _) as [s|]; [|done].
  destruct (Frame.drop_duplicates _ _) as [d|]; [|done].
  by case_bool_decide.
Qed.

Lemma key_at_row_of_group (g : list cell * Z) :
  length g.1 = 4%nat → Frame.key_at [0; 1; 2; 3]%nat (row_of_group g) = g.1.
Proof.
  destruct g as [[|a [|b [|c [|z [|]]]]] n]; cbn; try done.
Qed.

(** What [grouped] yields: one row per group of the complete keys. *)
Lemma grouped_spec (df : DataFrame) (idx : list nat) :
  Frame.get_locs key_cols (columns df) = Ok idx →
  ∃ groups,
    grouped df =
      Ok (mkDF (key_cols ++ ["occurrences"]) (row_of_group <$> groups)) ∧
    groups ≡ₚ Frame.group_sizes
                (List.filter (λ k, negb (Frame.has_na k))
                   (Frame.key_at idx <$> rows df)) ∧
    Forall (λ g, length g.1 = 4%nat) groups.
Proof.
  intros Hidx.
  set (keys := List.filter (λ k, negb (Frame.has_na k))
                 (Frame.key_at idx <$> rows df)).
  set (gs0 := Frame.stable_sort (λ g1 g2, Frame.key_leb g1.1 g2.1)
                (Frame.group_sizes keys)).
  set (gs1 := Frame.stable_sort
                (λ g1 g2, Frame.rows_leb [(4%nat, false); (0%nat, true)]
                            (row_of_group g1) (row_of_group g2)) gs0).
  assert (Hperm : gs1 ≡ₚ Frame.group_sizes keys).
  { unfold gs1, gs0. by rewrite !stable_sort_perm. }
  destruct (group_sizes_spec keys) as (Hnd & _ & _ & Hin).
  assert (Hlen : Forall (λ g, length g.1 = 4%nat) gs1).
  { apply Forall_forall. intros g Hg.
    assert (Hk : g.1 ∈ keys).
    { apply Hin. rewrite <- Hperm. apply list_elem_of_fmap. by exists g. }
    unfold keys in Hk. apply list_elem_of_In, filter_In in Hk as [Hk _].
    apply list_elem_of_In, list_elem_of_fmap in Hk as (row & -> & _).
    unfold Frame.key_at. rewrite length_fmap.
    by rewrite (get_locs_length _ _ _ Hidx). }
  exists gs1. split; [|done].
  unfold grouped. rewrite (groupby_size_columns _ _ _ _ Hidx).
  unfold Frame.group_by_columns, mbind, result_bind, mret, result_ret.
  rewrite Hidx. fold keys. fold gs0.
  unfold Frame.sort_values_lex, mbind, result_bind, mret, result_ret.
  change (Frame.get_locs ["occurrences"; "name"]
            (columns (mkDF (key_cols ++ ["occurrences"])
                        ((λ g, g.1 ++ [VInt g.2]) <$> gs0))))
    with (@Ok (list nat) [4; 0]%nat).
  cbn [columns rows zip zip_with].
  unfold Frame.drop_duplicates, mbind, result_bind, mret, result_ret.
  change (Frame.get_locs key_cols
            (columns (mkDF (key_cols ++ ["occurrences"]) _)))
    with (@Ok (list nat) [0; 1; 2; 3]%nat).
  cbn [columns rows]. f_equal. f_equal.
  change (λ g : list cell * Z, g.1 ++ [VInt g.2]) with row_of_group.
  rewrite stable_sort_fmap. fold gs1.
  apply keep_first_id.
  - rewrite <- list_fmap_compose.
    rewrite (list_fmap_ext _ (norm_key ∘ fst) gs1).
    + rewrite list_fmap_compose. by rewrite Hperm.
    + intros i g Hg.
      change (norm_key (Frame.key_at [0; 1; 2; 3]%nat (row_of_group g)) =
              norm_key g.1).
      rewrite key_at_row_of_group; [done|].
      eapply Forall_lookup_1 in Hlen; eauto.
  - intros r _. cbn. apply not_elem_of_nil.
Qed.

(** * Lemmas: labels, positions and item assignment *)

Lemma locs_elem (l : string) (cols : list string) (k i : nat) :
  i ∈ Frame.locs l cols k ↔ (k ≤ i)%nat ∧ cols !! (i - k)%nat = Some l.
Proof.
  revert k. induction cols as [|c cols IH]; intros k; cbn.
  - split; [by intros ?%elem_of_nil|by intros [_ ?]].
  - case_bool_decide as Hc.
    + rewrite elem_of_cons, IH. subst c. split.
      * intros [->|[Hle Hl]].
        -- split; [lia|]. by replace (k - k)%nat with 0%nat by lia.
        -- split; [lia|]. by replace (i - k)%nat with (S (i - S k)) by lia.
      * intros [Hle Hl]. destruct (decide (i = k)) as [->|Hne]; [by left|].
        right. split; [lia|].
        by replace (i - k)%nat with (S (i - S k)) in Hl by lia.
    + rewrite IH. split.
      * intros [Hle Hl]. split; [lia|].
        by replace (i - k)%nat with (S (i - S k)) by lia.
      * intros [Hle Hl]. destruct (decide (i = k)) as [->|Hne].
        -- replace (k - k)%nat with 0%nat in Hl by lia. cbn in Hl. congruence.
        -- split; [lia|].
           by replace (i - k)%nat with (S (i - S k)) in Hl by lia.
Qed.

Lemma get_loc_lookup (l : string) (cols : list string) (i : nat) :
  Frame.get_loc l cols = Ok i → cols !! i = Some l.
Proof.
  unfold Frame.get_loc.
  destruct (Frame.locs l cols 0) as [|j [|]] eqn:E; try done.
  intros [= ->].
  assert (Hi : i ∈ Frame.locs l cols 0) by (rewrite E; by left).
  apply locs_elem in Hi as [_ Hi]. by rewrite Nat.sub_0_r in Hi.
Qed.

Lemma locs_app (l : string) (cols cols' : list string) (k : nat) :
  Frame.locs l (cols ++ cols') k =
  Frame.locs l cols k ++ Frame.locs l cols' (k + length cols).
Proof.
  revert k. induction cols as [|c cols IH]; intros k; cbn.
  - by rewrite Nat.add_0_r.
  - rewrite IH. replace (S k + length cols)%nat with (k + S (length cols))%nat
      by lia.
    by case_bool_decide.
Qed.

Lemma get_loc_snoc (l l' : string) (cols : list string) :
  l' ≠ l → Frame.get_loc l (cols ++ [l']) = Frame.get_loc l cols.
Proof.
  intros Hne. unfold Frame.get_loc. rewrite locs_app. cbn.
  rewrite bool_decide_false by done. by rewrite app_nil_r.
Qed.

Lemma get_locs_snoc (ls : list string) (l' : string) (cols : list string) :
  l' ∉ ls → Frame.get_locs ls (cols ++ [l']) = Frame.get_locs ls cols.
Proof.
  induction ls as [|l ls IH]; cbn; [done|].
  intros [H1 H2]%not_elem_of_cons. by rewrite get_loc_snoc, IH.
Qed.

Lemma get_locs_lookup (ls cols : list string) (idx : list nat) :
  Frame.get_locs ls cols = Ok idx →
  ∀ i, i ∈ idx → ∃ l, l ∈ ls ∧ cols !! i = Some l.
Proof.
  revert idx. induction ls as [|l ls IH]; intros idx; cbn.
  - intros [= <-] i Hi. by apply elem_of_nil in Hi.
  - unfold mbind, result_bind, mret, result_ret.
    destruct (Frame.get_loc l cols) as [j|] eqn:Ej; [|done].
    destruct (Frame.get_locs ls cols) as [js|] eqn:Ejs; [|done].
    intros [= <-] i [->|Hi]%elem_of_cons.
    + exists l. split; [by left|]. by apply get_loc_lookup.
    + destruct (IH js eq_refl i Hi) as (l' & Hl' & Hc).
      exists l'. split; [by right|done].
Qed.

Lemma setitem_row_cell (l : string) (v : cell) (cols : list string)
    (r : list cell) (i : nat) (l' : string) :
  cols !! i = Some l' → l' ≠ l → (i < length r)%nat →
  Frame.cell_at (Frame.setitem_row l v cols r) i = Frame.cell_at r i.
Proof.
  intros Hc Hne Hlt. unfold Frame.setitem_row, Frame.cell_at.
  destruct (Pandas.has_label l cols).
  - rewrite map_row_lookup, Hc. destruct (r !! i); [|done]. cbn.
    unfold Pandas.on_labels, Pandas.has_label.
    rewrite bool_decide_false; [done|].
    by intros ->%list_elem_of_singleton.
  - by rewrite lookup_app_l.
Qed.

Lemma setitem_row_length (l : string) (v : cell) (cols : list string)
    (r : list cell) :
  (length r ≤ length (Frame.setitem_row l v cols r))%nat.
Proof.
  unfold Frame.setitem_row. destruct (Pandas.has_label l cols).
  - by rewrite map_row_length.
  - rewrite length_app. lia.
Qed.

(** Item assignment under label [l] leaves the columns under other labels
    where and as they were. *)
Lemma setitem_keeps (l : string) (v : cell) (d : DataFrame)
    (ls : list string) (idx : list nat) :
  l ∉ ls → Frame.get_locs ls (columns d) = Ok idx →
  (∀ r i, r ∈ rows d → i ∈ idx → (i < length r)%nat) →
  Frame.get_locs ls (columns (Frame.setitem l v d)) = Ok idx ∧
  (∀ i, i ∈ idx →
        (λ r, Frame.cell_at r i) <$> rows (Frame.setitem l v d) =
        (λ r, Frame.cell_at r i) <$> rows d) ∧
  (∀ r i, r ∈ rows (Frame.setitem l v d) → i ∈ idx → (i < length r)%nat).
Proof.
  intros Hl Hidx Hlen. split; [|split].
  - cbn. destruct (Pandas.has_label l (columns d)); [done|].
    by rewrite get_locs_snoc.
  - intros i Hi. cbn. rewrite <- list_fmap_compose.
    apply list_fmap_ext. intros j r Hr. cbn.
    destruct (get_locs_lookup _ _ _ Hidx i Hi) as (l' & Hl' & Hc).
    apply (setitem_row_cell l v _ r i l' Hc).
    + by intros ->.
    + apply Hlen; [|done]. by eapply list_elem_of_lookup_2.
  - intros r i Hr Hi. cbn in Hr.
    apply list_elem_of_fmap in Hr as (r0 & -> & Hr0).
    pose proof (setitem_row_length l v (columns d) r0).
    pose proof (Hlen r0 i Hr0 Hi). lia.
Qed.

Lemma key_at_ext (idx : list nat) (rs rs' : list (list cell)) :
  (∀ i, i ∈ idx →
        (λ r, Frame.cell_at r i) <$> rs' = (λ r, Frame.cell_at r i) <$> rs) →
  length rs' = length rs →
  Frame.key_at idx <$> rs' = Frame.key_at idx <$> rs.
Proof.
  intros H Hlen. apply list_eq. intros j.
  rewrite !list_lookup_fmap.
  destruct (rs' !! j) as [r'|] eqn:E', (rs !! j) as [r|] eqn:E; cbn.
  - f_equal. unfold Frame.key_at. apply list_fmap_ext.
    intros k i Hi. apply list_elem_of_lookup_2 in Hi.
    specialize (H i Hi). apply (f_equal (λ l, l !! j)) in H.
    rewrite !list_lookup_fmap, E, E' in H. cbn in H. congruence.
  - apply lookup_lt_Some in E'. apply lookup_ge_None in E. lia.
  - apply lookup_lt_Some in E. apply lookup_ge_None in E'. lia.
  - done.
Qed.

Lemma setitem_shape (l : string) (v : cell) (d : DataFrame) :
  shape0 (Frame.setitem l v d) = shape0 d.
Proof. unfold shape0. cbn. by rewrite length_fmap. Qed.

(** The two assignments of the source columns, for labels in [ls] that are
    neither the source nor the other source column. *)
Lemma tag_source_keeps (source : string) (d : DataFrame) (ls : list string)
    (idx : list nat) :
  source ∉ ls → "file1" ∉ ls → "file2" ∉ ls →
  Frame.get_locs ls (columns d) = Ok idx →
  (∀ r i, r ∈ rows d → i ∈ idx → (i < length r)%nat) →
  Frame.get_locs ls (columns (tag_source source d)) = Ok idx ∧
  (∀ i, i ∈ idx →
        (λ r, Frame.cell_at r i) <$> rows (tag_source source d) =
        (λ r, Frame.cell_at r i) <$> rows d) ∧
  shape0 (tag_source source d) = shape0 d.
Proof.
  intros Hs H1 H2 Hidx Hlen. unfold tag_source.
  case_bool_decide as Hf.
  - destruct (setitem_keeps source (VBool true) d ls idx Hs Hidx Hlen)
      as (Ha & Hb & Hc).
    destruct (setitem_keeps "file2" (VBool false) _ ls idx H2 Ha Hc)
      as (Ha' & Hb' & _).
    split; [done|]. split; [|by rewrite !setitem_shape].
    intros i Hi. by rewrite Hb', Hb.
  - destruct (setitem_keeps "file1" (VBool false) d ls idx H1 Hidx Hlen)
      as (Ha & Hb & Hc).
    destruct (setitem_keeps source (VBool true) _ ls idx Hs Ha Hc)
      as (Ha' & Hb' & _).
    split; [done|]. split; [|by rewrite !setitem_shape].
    intros i Hi. by rewrite Hb', Hb.
Qed.

(** * Statements about remove_dupes *)

Lemma grouped_needs_keys (df g : DataFrame) :
  grouped df = Ok g → ∃ idx, Frame.get_locs key_cols (columns df) = Ok idx.
Proof.
  destruct (bool_decide (length key_cols = shape0 df) &&
            negb (forallb (λ l, Pandas.has_label l (columns df)) key_cols))
    eqn:E.
  - by rewrite (grouped_by_labels df E).
  - unfold grouped, Frame.groupby_size. rewrite E.
    unfold Frame.group_by_columns, mbind, result_bind.
    destruct (Frame.get_locs key_cols (columns df)); [eauto|done].
Qed.

Lemma row_of_group_length (g : list cell * Z) :
  length g.1 = 4%nat → length (row_of_group g) = 5%nat.
Proof. intros H. unfold row_of_group. rewrite length_app, H. done. Qed.

Lemma grouped_rows_long (groups : list (list cell * Z)) (r : list cell)
    (i : nat) :
  Forall (λ g, length g.1 = 4%nat) groups →
  r ∈ row_of_group <$> groups → (i < 5)%nat → (i < length r)%nat.
Proof.
  intros Hlen (g & -> & Hg)%list_elem_of_fmap Hi.
  rewrite row_of_group_length; [done|].
  eapply Forall_forall in Hlen; eauto.
Qed.

Lemma keys_of_grouped (groups : list (list cell * Z)) :
  Forall (λ g, length g.1 = 4%nat) groups →
  Frame.key_at [0; 1; 2; 3]%nat <$> (row_of_group <$> groups) = groups.*1.
Proof.
  intros Hlen. rewrite <- list_fmap_compose. apply list_fmap_ext.
  intros i g Hg. cbn. apply key_at_row_of_group.
  eapply Forall_lookup_1 in Hlen; eauto.
Qed.

Lemma occurrences_of_grouped (groups : list (list cell * Z)) :
  Forall (λ g, length g.1 = 4%nat) groups →
  (λ r, Frame.cell_at r 4) <$> (row_of_group <$> groups) = VInt <$> groups.*2.
Proof.
  intros Hlen. rewrite <- !list_fmap_compose. apply list_fmap_ext.
  intros i g Hg. cbn. eapply Forall_lookup_1 in Hlen; eauto.
  by destruct g as [[|a [|b [|c [|z [|]]]]] n].
Qed.

(** C2. No two rows of the output of [remove_dupes] carry the same
    (name, address, city, zip) tuple, and [remove_dupes] returns on every
    table that has the four key columns.  The source identifier names a
    file, [file1] or [file2] as [main] passes it; the statement holds for
    every identifier that is not itself one of the four key labels. *)
Theorem remove_dupes_keys_unique (df : DataFrame) (source : string) :
  source ∉ key_cols →
  (∀ out, remove_dupes df source = Ok out →
          ∃ ks, keys_of out = Ok ks ∧ distinct_keys ks) ∧
  (∀ idx, Frame.get_locs key_cols (columns df) = Ok idx →
          ∃ out, remove_dupes df source = Ok out).
Proof.
  intros Hs. split.
  - intros out. rewrite remove_dupes_unfold.
    destruct (grouped df) as [g|] eqn:Eg; [|done]. intros [= <-].
    destruct (grouped_needs_keys df g Eg) as [idx Hidx].
    destruct (grouped_spec df idx Hidx) as (groups & Eg' & Hperm & Hlen).
    assert (g = mkDF (key_cols ++ ["occurrences"]) (row_of_group <$> groups))
      as -> by congruence.
    destruct (tag_source_keeps source
                (mkDF (key_cols ++ ["occurrences"]) (row_of_group <$> groups))
                key_cols [0; 1; 2; 3]%nat) as (Ha & Hb & Hc); try done.
    { unfold key_cols. rewrite !elem_of_cons, elem_of_nil.
      intros [|[|[|[|[]]]]]; discriminate. }
    { unfold key_cols. rewrite !elem_of_cons, elem_of_nil.
      intros [|[|[|[|[]]]]]; discriminate. }
    { intros r i Hr Hi. apply (grouped_rows_long groups r i Hlen Hr).
      rewrite !elem_of_cons, elem_of_nil in Hi.
      destruct Hi as [->|[->|[->|[->|[]]]]]; lia. }
    exists groups.*1. split.
    + unfold keys_of, mbind, result_bind, mret, result_ret. rewrite Ha.
      f_equal. rewrite (key_at_ext _ _ _ Hb Hc). cbn [rows].
      by apply keys_of_grouped.
    + apply distinct_keys_of_nodup.
      destruct (group_sizes_spec
                  (List.filter (λ k, negb (Frame.has_na k))
                     (Frame.key_at idx <$> rows df))) as (Hnd & _).
      by rewrite Hperm.
  - intros idx Hidx. rewrite remove_dupes_unfold.
    destruct (grouped_spec df idx Hidx) as (groups & -> & _). eauto.
Qed.

Lemma filter_all {A} (p : A → bool) (l : list A) :
  (∀ x, x ∈ l → p x = true) → List.filter p l = l.
Proof.
  induction l as [|x l IH]; intros H; cbn; [done|].
  rewrite (H x) by (by left). f_equal. apply IH. intros y Hy. apply H.
  by right.
Qed.

Lemma sum_cells_ints (ns : list Z) : sum_cells (VInt <$> ns) = Some (zsum ns).
Proof.
  induction ns as [|n ns IH]; [done|].
  rewrite fmap_cons. unfold sum_cells in *. cbn [foldr]. rewrite IH. done.
Qed.

(** C3. On a normalized table the [occurrences] column of the output of
    [remove_dupes] holds integers that are at least 1 and add up to the row
    count of the input.  The source identifier names a file, [file1] or
    [file2] as [main] passes it; the statement holds for every identifier
    other than the label [occurrences]. *)
Theorem remove_dupes_occurrences_sum (df : DataFrame) (source : string) :
  normalized df → source ≠ "occurrences" →
  ∃ out ns,
    remove_dupes df source = Ok out ∧
    column_cells "occurrences" out = Ok (VInt <$> ns) ∧
    Forall (λ n, 1 ≤ n) ns ∧
    sum_cells (VInt <$> ns) = Some (Z.of_nat (shape0 df)).
Proof.
  intros (idx & Hidx & Hna) Hs.
  destruct (grouped_spec df idx Hidx) as (groups & Eg & Hperm & Hlen).
  rewrite filter_all in Hperm.
  2:{ intros k (row & -> & Hrow)%list_elem_of_fmap.
      by rewrite (Hna row Hrow). }
  destruct (group_sizes_spec (Frame.key_at idx <$> rows df))
    as (_ & Hpos & Hsum & _).
  destruct (tag_source_keeps source
              (mkDF (key_cols ++ ["occurrences"]) (row_of_group <$> groups))
              ["occurrences"] [4%nat]) as (Ha & Hb & Hc); try done.
  { by intros ->%list_elem_of_singleton. }
  { by intros ?%list_elem_of_singleton. }
  { by intros ?%list_elem_of_singleton. }
  { intros r i Hr ->%list_elem_of_singleton.
    apply (grouped_rows_long groups r 4 Hlen Hr). lia. }
  exists (tag_source source
            (mkDF (key_cols ++ ["occurrences"]) (row_of_group <$> groups))),
         groups.*2.
  split; [by rewrite remove_dupes_unfold, Eg|]. split; [|split].
  - unfold column_cells, mbind, result_bind, mret, result_ret.
    revert Ha. cbn [Frame.get_locs]. unfold mbind, result_bind, mret, result_ret.
    destruct (Frame.get_loc "occurrences" _) as [i|]; [|done].
    intros [= ->]. f_equal. rewrite Hb by (by left). cbn [rows].
    by apply occurrences_of_grouped.
  - apply Forall_fmap. by rewrite Hperm.
  - rewrite sum_cells_ints. f_equal.
    rewrite (zsum_perm _ (Frame.group_sizes (Frame.key_at idx <$> rows df)).*2)
      by (by rewrite Hperm).
    rewrite Hsum, length_fmap. done.
Qed.

(** * Lemmas: the order on cells *)

Lemma ascii_compare_spec (a b : ascii) :
  CompareSpec (a = b) (N_of_ascii a < N_of_ascii b)%N
              (N_of_ascii b < N_of_ascii a)%N (Ascii.compare a b).
Proof.
  unfold Ascii.compare.
  destruct (N.compare_spec (N_of_ascii a) (N_of_ascii b)) as [E| |];
    constructor; try done.
  by rewrite <- (ascii_N_embedding a), <- (ascii_N_embedding b), E.
Qed.

Lemma string_compare_refl (s : string) : String.compare s s = Eq.
Proof.
  induction s as [|c s IH]; cbn; [done|].
  destruct (ascii_compare_spec c c); (done || lia).
Qed.

Lemma string_compare_trans (c : comparison) (s1 s2 s3 : string) :
  String.compare s1 s2 ≠ Gt → String.compare s2 s3 ≠ Gt →
  String.compare s1 s3 ≠ Gt.
Proof.
  revert s2 s3. induction s1 as [|c1 s1 IH]; intros [|c2 s2] [|c3 s3]; cbn;
    try done.
  destruct (ascii_compare_spec c1 c2), (ascii_compare_spec c2 c3),
    (ascii_compare_spec c1 c3); subst; try done; try lia.
  apply IH.
Qed.

Lemma string_compare_total (s1 s2 : string) :
  String.compare s1 s2 ≠ Gt ∨ String.compare s2 s1 ≠ Gt.
Proof.
  rewrite (String.compare_antisym s1 s2).
  destruct (String.compare s2 s1); cbn; auto.
Qed.

Lemma cell_leb_total : total_order Frame.cell_leb.
Proof.
  intros a b. unfold Frame.cell_leb, Frame.cell_compare.
  destruct (Frame.num_norm a) as [s| x| |] eqn:Ea,
           (Frame.num_norm b) as [t| y| |] eqn:Eb; auto.
  - destruct (string_compare_total s t) as [H|H];
      [left|right]; by destruct (String.compare _ _).
  - rewrite (Z.compare_antisym x y). destruct (x ?= y); cbn; auto.
Qed.

Lemma num_norm_not_bool (a : cell) (b : bool) : Frame.num_norm a ≠ VBool b.
Proof. by destruct a. Qed.

Lemma cell_leb_trans : transitive_order Frame.cell_leb.
Proof.
  intros a b c. unfold Frame.cell_leb, Frame.cell_compare.
  pose proof (num_norm_not_bool a) as Na.
  pose proof (num_norm_not_bool b) as Nb.
  pose proof (num_norm_not_bool c) as Nc.
  destruct (Frame.num_norm a) as [s| x|ba|],
           (Frame.num_norm b) as [t| y|bb|],
           (Frame.num_norm c) as [u| z|bc|]; try done;
    try (exfalso; first [by eapply Na|by eapply Nb|by eapply Nc]).
  - intros H1 H2.
    pose proof (string_compare_trans Eq s t u) as H3.
    destruct (String.compare s t), (String.compare t u),
      (String.compare s u); try done; exfalso; by apply H3.
  - destruct (Z.compare_spec x y), (Z.compare_spec y z),
      (Z.compare_spec x z); try done; lia.
Qed.

Lemma name_leb_total (i : nat) : total_order (name_leb i).
Proof. intros r1 r2. apply cell_leb_total. Qed.

Lemma name_leb_trans (i : nat) : transitive_order (name_leb i).
Proof. intros r1 r2 r3. apply cell_leb_trans. Qed.

(** * Lemmas: the two insertion sorts *)

Lemma insert_sorted_sorted {A} (leb : A → A → bool) (x : A) (l : list A) :
  total_order leb →
  Sorted (λ x y, leb x y = true) l →
  Sorted (λ x y, leb x y = true) (Frame.insert_sorted leb x l).
Proof.
  intros Htot. induction 1 as [|y l Hl IH Hd]; cbn.
  - by repeat constructor.
  - destruct (leb x y) eqn:E.
    + constructor; [by constructor|by constructor].
    + constructor; [done|].
      destruct (Htot x y) as [?|Hyx]; [congruence|].
      destruct Hd as [|z l Hyz]; cbn; [by constructor|].
      destruct (leb x z); by constructor.
Qed.

Lemma stable_sort_sorted {A} (leb : A → A → bool) (l : list A) :
  total_order leb →
  Sorted (λ x y, leb x y = true) (Frame.stable_sort leb l).
Proof.
  intros Htot. induction l as [|x l IH]; cbn; [constructor|].
  by apply insert_sorted_sorted.
Qed.

Lemma stable_kind_sorts : comparison_sort Frame.stable_kind.
Proof.
  intros A leb Htot _ l. split.
  - apply stable_sort_perm.
  - by apply stable_sort_sorted.
Qed.

Lemma insert_behind_perm {A} (leb : A → A → bool) (x : A) (l : list A) :
  Frame.insert_behind leb x l ≡ₚ x :: l.
Proof.
  induction l as [|y l IH]; cbn; [done|].
  destruct (leb y x); [|done]. rewrite IH. apply Permutation_swap.
Qed.

Lemma insert_behind_sorted {A} (leb : A → A → bool) (x : A) (l : list A) :
  total_order leb →
  Sorted (λ x y, leb x y = true) l →
  Sorted (λ x y, leb x y = true) (Frame.insert_behind leb x l).
Proof.
  intros Htot. induction 1 as [|y l Hl IH Hd]; cbn.
  - by repeat constructor.
  - destruct (leb y x) eqn:E.
    + constructor; [done|].
      destruct Hd as [|z l Hyz]; cbn; [by constructor|].
      destruct (leb z x); by constructor.
    + destruct (Htot x y) as [Hxy|?]; [|congruence].
      constructor; [by constructor|by constructor].
Qed.

Lemma reversing_kind_sorts : comparison_sort Frame.reversing_kind.
Proof.
  intros A leb Htot _ l. split.
  - induction l as [|x l IH]; cbn; [done|].
    by rewrite insert_behind_perm, IH.
  - induction l as [|x l IH]; cbn; [constructor|].
    by apply insert_behind_sorted.
Qed.

(** * Lemmas: the steps of combine_dataframes *)

Lemma elem_of_stacked (dfs : list DataFrame) (r : list cell) :
  r ∈ stacked dfs ↔ ∃ d, d ∈ dfs ∧ r ∈ rows d.
Proof.
  unfold stacked. rewrite list_elem_of_join. split.
  - intros (rs & Hr & (d & -> & Hd)%list_elem_of_fmap). eauto.
  - intros (d & Hd & Hr). exists (rows d). split; [done|].
    apply list_elem_of_fmap. eauto.
Qed.

Lemma stacked_length (dfs : list DataFrame) :
  length (stacked dfs) = sum_list (shape0 <$> dfs).
Proof.
  unfold stacked. by rewrite length_join, <- list_fmap_compose.
Qed.

Lemma locs_nil (l : string) (cols : list string) (k : nat) :
  l ∉ cols → Frame.locs l cols k = [].
Proof.
  revert k. induction cols as [|c cols IH]; intros k; cbn; [done|].
  intros [H1 H2]%not_elem_of_cons. rewrite bool_decide_false by done.
  by apply IH.
Qed.

Lemma delete_last {A} (l : list A) (x : A) : delete (length l) (l ++ [x]) = l.
Proof.
  induction l as [|y l IH]; [done|].
  change (y :: delete (length l) (l ++ [x]) = y :: l). by rewrite IH.
Qed.

Lemma zip_with_fmap_diag {A B C} (f : B → A → C) (g : A → B) (l : list A) :
  zip_with f (g <$> l) l = (λ x, f (g x) x) <$> l.
Proof. induction l as [|x l IH]; cbn; [done|]. by rewrite IH. Qed.

Section merge.
Variables (cols : list string) (i : nat) (dfs : list DataFrame).
Hypothesis Hin : merge_input cols i dfs.

Lemma concat_aligned : Frame.concat dfs = Ok (mkDF cols (stacked dfs)).
Proof.
  destruct Hin as [Hne Hcols _ _ _ _].
  destruct dfs as [|d ds]; [done|]. unfold Frame.concat.
  assert (Hd : columns d = cols) by (apply Hcols; by left).
  rewrite (proj2 (forallb_forall _ ds)); [by rewrite Hd|].
  intros d' Hd'. apply bool_decide_eq_true. rewrite Hd. apply Hcols.
  right. by apply list_elem_of_In.
Qed.

Lemma stacked_text (r : list cell) :
  r ∈ stacked dfs → ∃ s, Frame.cell_at r i = VStr s.
Proof.
  intros (d & Hd & Hr)%elem_of_stacked. by apply (mi_text _ _ _ Hin d).
Qed.

Lemma stacked_rect (r : list cell) :
  r ∈ stacked dfs → length r = length cols.
Proof.
  intros (d & Hd & Hr)%elem_of_stacked. by apply (mi_rect _ _ _ Hin d).
Qed.

Lemma sort_values_stacked (kind : Frame.sort_algorithm) :
  Frame.sort_values kind "name" (mkDF cols (stacked dfs)) =
  Ok (mkDF cols (kind _ (name_leb i) (stacked dfs))).
Proof.
  unfold Frame.sort_values, mbind, result_bind. cbn [columns rows].
  rewrite (mi_name _ _ _ Hin).
  rewrite (filter_all _ (stacked dfs)).
  2:{ intros r Hr. destruct (stacked_text r Hr) as [s ->]. done. }
  assert (Hnone : List.filter (λ r, Pandas.isna (Frame.cell_at r i))
                    (stacked dfs) = []).
  { pose proof stacked_text as Ht. revert Ht.
    generalize (stacked dfs). intros l Ht.
    induction l as [|r l IH]; cbn; [done|].
    destruct (Ht r ltac:(by left)) as [s ->]. cbn. apply IH.
    intros r' Hr'. apply Ht. by right. }
  rewrite Hnone, app_nil_r.
  assert (Hcmp : Frame.comparable
                   ((λ r, Frame.cell_at r i) <$> stacked dfs) = true).
  { unfold Frame.comparable. apply orb_true_iff. left.
    apply forallb_forall. intros c Hc.
    apply list_elem_of_In, list_elem_of_fmap in Hc as (r & -> & Hr).
    by destruct (stacked_text r Hr) as [s ->]. }
  by rewrite Hcmp.
Qed.

Lemma add_id (body : list (list cell)) :
  (∀ r, r ∈ body → length r = length cols) →
  (let df := Frame.setitem_values "id" (row_id <$> body) (mkDF cols body) in
   '(col, df) ← Frame.pop "id" df; mret (Frame.insert0 "id" col df)) =
  Ok (mkDF ("id" :: cols) ((λ r, row_id r :: r) <$> body)).
Proof.
  intros Hrect. cbn zeta.
  pose proof (mi_no_id _ _ _ Hin) as Hid.
  unfold Frame.setitem_values. cbn [columns rows].
  unfold Pandas.has_label. rewrite bool_decide_false by done.
  rewrite zip_with_fmap_diag.
  unfold Frame.pop, mbind, result_bind, mret, result_ret. cbn [columns rows].
  unfold Frame.get_loc. rewrite locs_app, (locs_nil "id" cols) by done.
  cbn [Frame.locs app]. rewrite bool_decide_true by done.
  rewrite !Nat.add_0_l, delete_last.
  unfold Frame.insert0. cbn [columns rows]. f_equal. f_equal.
  rewrite <- !list_fmap_compose.
  apply list_eq. intros j.
  rewrite lookup_zip_with, !list_lookup_fmap.
  destruct (body !! j) as [r|] eqn:E; cbn; [|done].
  assert (Hr : length r = length cols)
    by (apply Hrect; by eapply list_elem_of_lookup_2).
  unfold Frame.setitem_row, Pandas.has_label.
  rewrite bool_decide_false by done.
  unfold Frame.cell_at. rewrite <- Hr, delete_last.
  rewrite lookup_app_r by lia.
  replace (length r - length r)%nat with 0%nat by lia. done.
Qed.

(** The merged table, given the sorting algorithm. *)
Lemma combine_spec (kind : Frame.sort_algorithm) :
  comparison_sort kind →
  combine_dataframes kind dfs =
  Ok (mkDF ("id" :: cols)
        ((λ r, row_id r :: r) <$> kind _ (name_leb i) (stacked dfs))).
Proof.
  intros Hk. unfold combine_dataframes.
  rewrite concat_aligned. cbn [mbind result_bind].
  rewrite sort_values_stacked. cbn [mbind result_bind rows].
  apply add_id. intros r Hr. apply stacked_rect.
  destruct (Hk _ (name_leb i) (name_leb_total i) (name_leb_trans i)
              (stacked dfs)) as [Hp _].
  by rewrite <- Hp.
Qed.
End merge.

(** * Lemmas: the digest is one of finitely many strings *)

Lemma hex_strings_cons (n : nat) (c : ascii) (s : string) :
  c ∈ hex_chars → s ∈ hex_strings n → String c s ∈ hex_strings (S n).
Proof.
  intros Hc Hs. change (hex_strings (S n))
    with (hex_strings n ≫= λ s, (λ c, String c s) <$> hex_chars).
  apply list_elem_of_bind. exists s. split; [|done].
  apply list_elem_of_fmap. by exists c.
Qed.

Lemma hex_digit_char (n : N) : PyRepr.hex_digit n ∈ hex_chars.
Proof.
  unfold PyRepr.hex_digit. generalize (N.to_nat n). intros k.
  unfold hex_chars.
  do 16 (destruct k as [|k];
         [cbn; rewrite !elem_of_cons; tauto|]).
  cbn. by left.
Qed.

Lemma hex_of_bytes_strings (bs : list Z) :
  Md5.hex_of_bytes bs ∈ hex_strings (length bs + length bs).
Proof.
  induction bs as [|b bs IH].
  - by left.
  - change (Md5.hex_of_bytes (b :: bs))
      with (String (PyRepr.hex_digit (Z.to_N (b / 16 mod 16)))
              (String (PyRepr.hex_digit (Z.to_N (b mod 16)))
                 (Md5.hex_of_bytes bs))).
    replace (length (b :: bs) + length (b :: bs))%nat
      with (S (S (length bs + length bs))) by (cbn [length]; lia).
    apply hex_strings_cons; [apply hex_digit_char|].
    apply hex_strings_cons; [apply hex_digit_char|done].
Qed.

Lemma le_bytes_length (n : nat) (x : Z) : length (Md5.le_bytes n x) = n.
Proof. revert x. induction n as [|n IH]; intros x; cbn; [done|]. by rewrite IH. Qed.

(** Every digest is one of the [16^32] strings of 32 hexadecimal digits. *)
Lemma hexdigest_strings (s : string) :
  Md5.hexdigest s ∈ hex_strings (16 + 16).
Proof.
  unfold Md5.hexdigest.
  match goal with |- Md5.hex_of_bytes ?bs ∈ _ =>
    assert (Hlen : length bs = 16%nat)
      by (rewrite !length_app, !le_bytes_length; done);
    pose proof (hex_of_bytes_strings bs) as H; by rewrite Hlen in H
  end.
Qed.

(** A function from a list without repetition into a shorter list takes
    some value twice. *)
Lemma repeated_value {A B} `{EqDecision B} (f : A → B) (l : list A) :
  NoDup l → ¬ NoDup (f <$> l) →
  ∃ x y, x ∈ l ∧ y ∈ l ∧ x ≠ y ∧ f x = f y.
Proof.
  induction l as [|x l IH]; intros ND Hn.
  - exfalso. apply Hn. constructor.
  - apply NoDup_cons in ND as [Hx ND].
    destruct (decide (f x ∈ f <$> l)) as [Hin|Hout].
    + apply list_elem_of_fmap in Hin as (y & Hxy & Hy).
      exists x, y. repeat split; [by left|by right| |done].
      by intros ->.
    + destruct IH as (a & b & Ha & Hb & Hab & Hf); [done| |].
      * intros ND'. apply Hn. rewrite fmap_cons. by apply NoDup_cons.
      * exists a, b. repeat split; [by right|by right|done|done].
Qed.

Lemma pigeonhole {A B} `{EqDecision B} (f : A → B) (l : list A)
    (cod : list B) :
  NoDup l → (∀ x, x ∈ l → f x ∈ cod) → (length cod < length l)%nat →
  ∃ x y, x ∈ l ∧ y ∈ l ∧ x ≠ y ∧ f x = f y.
Proof.
  intros ND Hcod Hlen. apply repeated_value; [done|]. intros ND'.
  assert (Hsub : f <$> l ⊆+ cod).
  { apply NoDup_submseteq; [done|].
    intros y (x & -> & Hx)%list_elem_of_fmap. by apply Hcod. }
  apply submseteq_length in Hsub. rewrite length_fmap in Hsub. lia.
Qed.

(** Two rows that differ in the name alone and have the same [id]. *)
Lemma id_collision :
  ∃ n1 n2 : nat,
    n1 ≠ n2 ∧ row_id (row_named (pretty n1)) = row_id (row_named (pretty n2)).
Proof.
  set (cod := hex_strings (16 + 16)).
  destruct (pigeonhole
              (λ n : nat, Md5.hexdigest (PyRepr.str_tuple (row_named (pretty n))))
              (seq 0 (S (length cod))) cod)
    as (n1 & n2 & _ & _ & Hne & Heq).
  - apply NoDup_seq.
  - intros n _. apply hexdigest_strings.
  - rewrite length_seq. lia.
  - exists n1, n2. split; [done|]. unfold row_id. by rewrite Heq.
Qed.

(** * Lemmas: row counts along combine_dataframes, for any tables *)

Lemma concat_shape (dfs : list DataFrame) (d : DataFrame) :
  Frame.concat dfs = Ok d → shape0 d = sum_list (shape0 <$> dfs).
Proof.
  unfold Frame.concat. destruct dfs as [|d0 ds]; [done|].
  destruct (forallb _ ds).
  - intros E.
    assert (d = mkDF (columns d0) (mjoin (rows <$> d0 :: ds))) as ->
      by congruence.
    unfold shape0. cbn [rows].
    by rewrite length_join, <- list_fmap_compose.
  - destruct (forallb _ (d0 :: ds)); [|done].
    set (target := Frame.union_columns (d0 :: ds)).
    intros E.
    assert (d = mkDF target
                  (mjoin ((λ d', Frame.reindex_row target (columns d')
                                   <$> rows d') <$> d0 :: ds))) as ->
      by congruence.
    unfold shape0. cbn [rows].
    rewrite length_join, <- list_fmap_compose. f_equal.
    apply list_fmap_ext. intros j d' _. cbn. by rewrite length_fmap.
Qed.

Lemma filter_split_length {A} (p : A → bool) (l : list A) :
  (length (List.filter (λ x, negb (p x)) l) + length (List.filter p l))%nat
  = length l.
Proof.
  induction l as [|x l IH]; cbn; [done|]. destruct (p x); cbn; lia.
Qed.

Lemma sort_values_shape (kind : Frame.sort_algorithm) (l : string)
    (d d' : DataFrame) :
  comparison_sort kind → Frame.sort_values kind l d = Ok d' →
  shape0 d' = shape0 d.
Proof.
  intros Hk. unfold Frame.sort_values, mbind, result_bind.
  destruct (Frame.get_loc l (columns d)) as [i|]; [|done].
  destruct (Frame.comparable _); [|done].
  intros [= <-]. unfold shape0. cbn [rows]. rewrite length_app.
  destruct (Hk _ (name_leb i) (name_leb_total i) (name_leb_trans i)
              (List.filter (λ r, negb (Pandas.isna (Frame.cell_at r i)))
                 (rows d))) as [Hp _].
  unfold name_leb in Hp. rewrite Hp.
  apply (filter_split_length (λ r, Pandas.isna (Frame.cell_at r i))).
Qed.

Lemma add_id_shape (d out : DataFrame) :
  (let df := Frame.setitem_values "id" (row_id <$> rows d) d in
   '(col, df) ← Frame.pop "id" df; mret (Frame.insert0 "id" col df)) = Ok out →
  shape0 out = shape0 d.
Proof.
  cbn zeta. unfold Frame.pop, mbind, result_bind, mret, result_ret.
  destruct (Frame.get_loc "id" _) as [i|]; [|done].
  intros [= <-]. unfold shape0, Frame.insert0, Frame.setitem_values.
  cbn [rows]. rewrite length_zip_with, !length_fmap, length_zip_with.
  rewrite length_fmap. lia.
Qed.

(** Whatever the tables, a merge that returns has as many rows as its
    inputs together. *)
Lemma combine_shape (kind : Frame.sort_algorithm) (dfs : list DataFrame)
    (out : DataFrame) :
  comparison_sort kind → combine_dataframes kind dfs = Ok out →
  shape0 out = sum_list (shape0 <$> dfs).
Proof.
  intros Hk. unfold combine_dataframes.
  destruct (Frame.concat dfs) as [d|] eqn:E1; [|done].
  cbn [mbind result_bind].
  destruct (Frame.sort_values kind "name" d) as [d'|] eqn:E2; [|done].
  cbn [mbind result_bind]. intros E3.
  rewrite (add_id_shape d' out E3), (sort_values_shape _ _ _ _ Hk E2).
  by apply concat_shape.
Qed.

(** * Lemmas: the text of a row can be read back *)

Lemma string_app_nil (b : string) : EmptyString +:+ b = b.
Proof. reflexivity. Qed.

Lemma string_app_cons (x : ascii) (a b : string) :
  String x a +:+ b = String x (a +:+ b).
Proof. reflexivity. Qed.

Lemma string_app_assoc (a b c : string) : (a +:+ b) +:+ c = a +:+ (b +:+ c).
Proof.
  induction a as [|x a IH]; [by rewrite !string_app_nil|].
  by rewrite !string_app_cons, IH.
Qed.

Lemma elem_of_all_ascii (c : ascii) : c ∈ all_ascii.
Proof.
  unfold all_ascii. apply list_elem_of_fmap. exists (nat_of_ascii c).
  split; [by rewrite ascii_nat_embedding|].
  apply elem_of_seq. pose proof (nat_ascii_bounded c). lia.
Qed.

Lemma app_eq_prefix (a b r1 r2 : string) :
  a +:+ r1 = b +:+ r2 → is_prefix a b = true ∨ is_prefix b a = true.
Proof.
  revert b. induction a as [|x a IH]; intros [|y b];
    rewrite ?string_app_nil, ?string_app_cons; cbn [is_prefix]; auto.
  intros [= -> H]. rewrite !bool_decide_true by done. cbn [andb].
  by apply IH.
Qed.

Lemma escape_is_code_squote : escape_is_code PyRepr.squote = true.
Proof. vm_compute. reflexivity. Qed.

Lemma escape_is_code_dquote : escape_is_code PyRepr.dquote = true.
Proof. vm_compute. reflexivity. Qed.

Section escape.
Variable q : ascii.
Hypothesis Hq : escape_is_code q = true.

Lemma escape_char_prefix (c d : ascii) :
  is_prefix (PyRepr.escape_char q c) (PyRepr.escape_char q d) = true → c = d.
Proof.
  intros Hp. unfold escape_is_code in Hq.
  rewrite forallb_forall in Hq.
  specialize (Hq c ltac:(apply list_elem_of_In, elem_of_all_ascii)).
  apply andb_true_iff in Hq as [Hq' _]. rewrite forallb_forall in Hq'.
  specialize (Hq' d ltac:(apply list_elem_of_In, elem_of_all_ascii)).
  rewrite Hp in Hq'. cbn in Hq'. rewrite orb_false_r in Hq'.
  by apply bool_decide_eq_true in Hq'.
Qed.

Lemma escape_char_head (c : ascii) :
  ∃ x rest, PyRepr.escape_char q c = String x rest ∧ x ≠ q.
Proof.
  unfold escape_is_code in Hq. rewrite forallb_forall in Hq.
  specialize (Hq c ltac:(apply list_elem_of_In, elem_of_all_ascii)).
  apply andb_true_iff in Hq as [_ Hq'].
  destruct (PyRepr.escape_char q c) as [|x rest]; [done|].
  exists x, rest. split; [done|].
  apply negb_true_iff, bool_decide_eq_false in Hq'. done.
Qed.

Lemma escape_char_code (c d : ascii) (r1 r2 : string) :
  PyRepr.escape_char q c +:+ r1 = PyRepr.escape_char q d +:+ r2 →
  c = d ∧ r1 = r2.
Proof.
  intros H. assert (c = d) as ->.
  { destruct (app_eq_prefix _ _ _ _ H) as [Hp|Hp].
    - by apply escape_char_prefix.
    - symmetry. by apply escape_char_prefix. }
  split; [done|]. by apply (inj (String.app _)) in H.
Qed.

(** The escaped body of a string ends at the first bare quote. *)
Lemma escape_code (s t k1 k2 : string) :
  PyRepr.escape q s +:+ String q k1 = PyRepr.escape q t +:+ String q k2 →
  s = t ∧ k1 = k2.
Proof.
  revert t. induction s as [|c s IH]; intros [|d t]; cbn [PyRepr.escape].
  - rewrite !string_app_nil. by intros [= ->].
  - rewrite string_app_assoc, string_app_nil.
    destruct (escape_char_head d) as (x & rest & -> & Hx).
    rewrite string_app_cons. intros [= <- _]. done.
  - rewrite string_app_assoc, string_app_nil.
    destruct (escape_char_head c) as (x & rest & -> & Hx).
    rewrite string_app_cons. intros [= -> _]. done.
  - rewrite !string_app_assoc. intros H.
    apply escape_char_code in H as [-> H].
    apply IH in H as [-> ->]. done.
Qed.
End escape.

Lemma quote_of_cases (s : string) :
  PyRepr.quote_of s = PyRepr.squote ∨ PyRepr.quote_of s = PyRepr.dquote.
Proof. unfold PyRepr.quote_of. destruct (_ && _); auto. Qed.

Lemma quote_of_code (s : string) : escape_is_code (PyRepr.quote_of s) = true.
Proof.
  destruct (quote_of_cases s) as [-> | ->];
    [apply escape_is_code_squote|apply escape_is_code_dquote].
Qed.

Lemma repr_str_code (s t k1 k2 : string) :
  PyRepr.repr_str s +:+ k1 = PyRepr.repr_str t +:+ k2 → s = t ∧ k1 = k2.
Proof.
  unfold PyRepr.repr_str. cbn zeta.
  rewrite !string_app_cons, !string_app_assoc, !string_app_cons,
    !string_app_nil.
  intros [= Hq H]. rewrite <- Hq in H.
  by apply (escape_code _ (quote_of_code s)) in H.
Qed.

(** Characters of printed integers. *)
Lemma pretty_N_char_num (x : N) : is_num_char (pretty_N_char x) = true.
Proof. unfold pretty_N_char. by repeat case_match. Qed.

Lemma pretty_N_go_num (x : N) (s : string) :
  Py.all_chars is_num_char s = true →
  Py.all_chars is_num_char (pretty_N_go x s) = true.
Proof.
  revert s. induction (N.lt_wf_0 x) as [x _ IH]; intros s Hs.
  assert (x = 0 ∨ 0 < x)%N as [->|?] by lia.
  - by rewrite pretty_N_go_0.
  - rewrite pretty_N_go_step by done. apply IH.
    { by apply N.div_lt. }
    cbn [Py.all_chars]. by rewrite pretty_N_char_num.
Qed.

Lemma pretty_N_go_nonempty (x : N) (s : string) :
  s ≠ EmptyString → pretty_N_go x s ≠ EmptyString.
Proof.
  revert s. induction (N.lt_wf_0 x) as [x _ IH]; intros s Hs.
  assert (x = 0 ∨ 0 < x)%N as [->|?] by lia.
  - by rewrite pretty_N_go_0.
  - rewrite pretty_N_go_step by done. apply IH; [by apply N.div_lt|done].
Qed.

Lemma pretty_N_num (x : N) :
  Py.all_chars is_num_char (pretty x) = true ∧ pretty x ≠ EmptyString.
Proof.
  unfold pretty, pretty_N. case_decide; [done|]. split.
  - by apply pretty_N_go_num.
  - assert (0 < x)%N by lia. rewrite pretty_N_go_step by done.
    by apply pretty_N_go_nonempty.
Qed.

Lemma pretty_Z_num (n : Z) :
  Py.all_chars is_num_char (pretty n) = true ∧ pretty n ≠ EmptyString.
Proof.
  destruct n as [|p|p]; [done|apply (pretty_N_num (N.pos p))|].
  destruct (pretty_N_num (N.pos p)) as [H1 H2].
  change (pretty (Z.neg p)) with ("-" +:+ pretty (N.pos p)).
  rewrite string_app_cons, string_app_nil. split; [|done].
  cbn [Py.all_chars]. by rewrite H1.
Qed.

Lemma continues_not_num (k : string) :
  continues k = true → ∃ c k', k = String c k' ∧ is_num_char c = false.
Proof.
  destruct k as [|c k']; [done|]. cbn. intros H. exists c, k'.
  split; [done|].
  apply orb_true_iff in H as [H|H]; apply bool_decide_eq_true in H; by subst.
Qed.

(** A run of number characters ends where the next character says so. *)
Lemma num_run_code (a b k1 k2 : string) :
  Py.all_chars is_num_char a = true → Py.all_chars is_num_char b = true →
  continues k1 = true → continues k2 = true →
  a +:+ k1 = b +:+ k2 → a = b ∧ k1 = k2.
Proof.
  intros Ha Hb (c1 & k1' & -> & Hc1)%continues_not_num
               (c2 & k2' & -> & Hc2)%continues_not_num.
  revert b Hb. induction a as [|x a IH]; intros [|y b] Hb;
    rewrite ?string_app_nil, ?string_app_cons.
  - done.
  - intros [= -> _]. cbn in Hb. by rewrite Hc1 in Hb.
  - intros [= -> _]. cbn in Ha. by rewrite Hc2 in Ha.
  - intros [= -> H]. cbn in Ha, Hb.
    apply andb_true_iff in Ha as [_ Ha]. apply andb_true_iff in Hb as [_ Hb].
    destruct (IH Ha b Hb H) as [-> ?]. done.
Qed.

Lemma string_head_num (s : string) :
  Py.all_chars is_num_char s = true → s ≠ EmptyString →
  ∃ c s', s = String c s' ∧ is_num_char c = true.
Proof.
  destruct s as [|c s']; [done|]. cbn. intros [H _]%andb_true_iff _. eauto.
Qed.

(** One printed value, followed by the rest of the tuple, can be read back. *)
Lemma repr_code (a b : cell) (k1 k2 : string) :
  continues k1 = true → continues k2 = true →
  PyRepr.repr a +:+ k1 = PyRepr.repr b +:+ k2 → a = b ∧ k1 = k2.
Proof.
  intros Hk1 Hk2.
  assert (Hstr : ∀ s, ∃ q r, PyRepr.repr_str s = String q r ∧
                 (q = PyRepr.squote ∨ q = PyRepr.dquote)).
  { intros s. eexists _, _. split; [reflexivity|apply quote_of_cases]. }
  assert (Hnum : ∀ n : Z, ∃ c r, pretty n = String c r ∧ is_num_char c = true).
  { intros n. destruct (pretty_Z_num n) as [H1 H2].
    by apply string_head_num. }
  destruct a as [s|n|[]|], b as [t|m|[]|]; cbn [PyRepr.repr].
  all: try (intros H; apply repr_str_code in H as [-> ->]; done).
  all: try (intros H; apply num_run_code in H as [H ->];
            [by apply (inj pretty) in H; subst
            |apply pretty_Z_num|apply pretty_Z_num|done|done]).
  all: try (intros H; by apply (inj (String.app _)) in H as ->).
  all: try (destruct (Hstr s) as (q & r & -> & [-> | ->]));
       try (destruct (Hstr t) as (q' & r' & -> & [-> | ->]));
       try (destruct (Hnum n) as (c & r0 & -> & Hc));
       try (destruct (Hnum m) as (c' & r0' & -> & Hc'));
       rewrite ?string_app_cons; intros [= ? ?]; subst; try done.
Qed.

Lemma tuple_rest_continues (l : list cell) : continues (tuple_rest l) = true.
Proof. by destruct l. Qed.

Lemma join_tuple_rest (x : cell) (l : list cell) :
  PyRepr.join ", " (PyRepr.repr <$> x :: l) +:+ ")" =
  PyRepr.repr x +:+ tuple_rest l.
Proof.
  revert x. induction l as [|y l IH]; intros x; [done|].
  change (PyRepr.join ", " (PyRepr.repr <$> x :: y :: l))
    with (PyRepr.repr x +:+ ", " +:+ PyRepr.join ", " (PyRepr.repr <$> y :: l)).
  rewrite !string_app_assoc, IH. done.
Qed.

Lemma tuple_rest_inj (l1 l2 : list cell) :
  tuple_rest l1 = tuple_rest l2 → l1 = l2.
Proof.
  revert l2. induction l1 as [|x l1 IH]; intros [|y l2]; try done.
  cbn [tuple_rest]. rewrite !string_app_cons, !string_app_nil.
  intros [= H]. apply repr_code in H as [-> H];
    [|apply tuple_rest_continues..].
  by rewrite (IH _ H).
Qed.

Lemma repr_head (v : cell) :
  ∃ c r, PyRepr.repr v = String c r ∧ c ≠ ")"%char.
Proof.
  destruct v as [s|n|[]|]; cbn [PyRepr.repr]; try by eexists _, _.
  - eexists _, _. split; [reflexivity|].
    by destruct (quote_of_cases s) as [-> | ->].
  - destruct (pretty_Z_num n) as [H1 H2].
    destruct (string_head_num _ H1 H2) as (c & r & -> & Hc).
    exists c, r. split; [done|]. by intros ->.
Qed.

Lemma str_tuple_rest (x : cell) (l : list cell) :
  PyRepr.str_tuple (x :: l) =
  String "(" (PyRepr.repr x +:+ match l with [] => ",)" | _ => tuple_rest l end).
Proof.
  destruct l as [|y l]; [done|].
  unfold PyRepr.str_tuple. by rewrite string_app_cons, string_app_nil,
    join_tuple_rest.
Qed.

(** The text of a row names its values: [str(tuple(...))] can be read back. *)
Lemma str_tuple_inj (v1 v2 : list cell) :
  PyRepr.str_tuple v1 = PyRepr.str_tuple v2 → v1 = v2.
Proof.
  assert (Hk : ∀ l, continues match l with [] => ",)" | _ => tuple_rest l end
                    = true) by (by intros [|? ?]).
  assert (Hnil : ∀ x l, PyRepr.str_tuple [] ≠ PyRepr.str_tuple (x :: l)).
  { intros x l. rewrite str_tuple_rest.
    destruct (repr_head x) as (c & r & -> & Hc).
    rewrite string_app_cons. intros [= E]. done. }
  destruct v1 as [|x l1], v2 as [|y l2]; [done| | |].
  - intros H. by apply Hnil in H.
  - intros H. symmetry in H. by apply Hnil in H.
  - rewrite !str_tuple_rest. intros [= H].
    apply repr_code in H as [-> H]; [|apply Hk..]. f_equal.
    destruct l1 as [|a l1], l2 as [|b l2]; try done.
    by apply tuple_rest_inj.
Qed.

(** * Lemmas: stability of the insertion sort *)

Lemma filter_insert_sorted {A} (leb : A → A → bool) (x z : A) (l : list A) :
  transitive_order leb →
  List.filter (λ y, leb z y && leb y z) (Frame.insert_sorted leb x l) =
  List.filter (λ y, leb z y && leb y z) (x :: l).
Proof.
  intros Htr. induction l as [|y l IH]; [done|].
  cbn [Frame.insert_sorted]. destruct (leb x y) eqn:Exy; [done|].
  cbn [List.filter] in IH |- *. rewrite IH.
  destruct (leb z x && leb x z) eqn:Ex, (leb z y && leb y z) eqn:Ey; try done.
  apply andb_true_iff in Ex as [_ Hxz]. apply andb_true_iff in Ey as [Hzy _].
  by rewrite (Htr x z y Hxz Hzy) in Exy.
Qed.

Lemma stable_kind_stable : stable_algorithm Frame.stable_kind.
Proof.
  intros A leb _ Htr l z. unfold Frame.stable_kind.
  induction l as [|x l IH]; [done|].
  cbn [Frame.stable_sort]. rewrite filter_insert_sorted by done.
  cbn [List.filter]. by rewrite IH.
Qed.

Lemma locs_shift (l : string) (cols : list string) (k : nat) :
  Frame.locs l cols (S k) = S <$> Frame.locs l cols k.
Proof.
  revert k. induction cols as [|c cols IH]; intros k; cbn; [done|].
  rewrite IH. by case_bool_decide.
Qed.

Lemma get_loc_cons (l l' : string) (cols : list string) (i : nat) :
  l' ≠ l → Frame.get_loc l cols = Ok i → Frame.get_loc l (l' :: cols) = Ok (S i).
Proof.
  intros Hne. unfold Frame.get_loc. cbn [Frame.locs].
  rewrite bool_decide_false by done. rewrite locs_shift.
  destruct (Frame.locs l cols 0) as [|j [|]]; cbn; try done.
  by intros [= ->].
Qed.

Lemma tail_with_id (body : list (list cell)) :
  tail <$> ((λ r, row_id r :: r) <$> body) = body.
Proof.
  rewrite <- list_fmap_compose. rewrite <- (list_fmap_id body) at 2.
  by apply list_fmap_ext.
Qed.

(** * Statements about combine_dataframes *)

(** C7. The merger does not merge rows.  Whatever the tables, a merge that
    returns has as many rows as its inputs together; and on the aligned
    tables of the deduplicator it returns, its rows without their [id] being
    a rearrangement of the stacked input rows, so that a key that two sources
    have stays on two rows. *)
Theorem combine_keeps_every_row (kind : Frame.sort_algorithm)
    (cols : list string) (i : nat) (dfs : list DataFrame) :
  comparison_sort kind →
  (∀ out, combine_dataframes kind dfs = Ok out →
          shape0 out = sum_list (shape0 <$> dfs)) ∧
  (merge_input cols i dfs →
   ∃ out,
     combine_dataframes kind dfs = Ok out ∧
     without_id out ≡ₚ stacked dfs ∧
     shape0 out = sum_list (shape0 <$> dfs)).
Proof.
  intros Hk. split; [intros out; by apply combine_shape|].
  intros Hin. eexists. split; [by apply (combine_spec cols i)|].
  destruct (Hk _ (name_leb i) (name_leb_total i) (name_leb_trans i)
              (stacked dfs)) as [Hp _].
  unfold without_id. cbn [rows]. rewrite tail_with_id. split; [done|].
  unfold shape0. cbn [rows]. rewrite length_fmap, Hp. apply stacked_length.
Qed.

(** C8. Merging an empty list of tables raises; nothing is returned. *)
Theorem combine_nothing_raises (kind : Frame.sort_algorithm) :
  combine_dataframes kind [] = Raise (ValueError "No objects to concatenate").
Proof. reflexivity. Qed.

(** C5 (as the code has it). The merged table is in non-decreasing order of
    [name] and is a rearrangement of the stacked input rows.  Rows of equal
    name keep the order of the stacked inputs when the algorithm behind
    [sort_values] is stable; the call leaves the default [kind], numpy's
    quicksort ([Numpy.quicksort_kind]), which is not. *)
Theorem combine_sorted_by_name (kind : Frame.sort_algorithm)
    (cols : list string) (i : nat) (dfs : list DataFrame) :
  comparison_sort kind → merge_input cols i dfs →
  ∃ out,
    combine_dataframes kind dfs = Ok out ∧
    sorted_by_name out ∧
    without_id out ≡ₚ stacked dfs ∧
    (stable_algorithm kind →
     same_order_of_equal_names i (without_id out) (stacked dfs)).
Proof.
  intros Hk Hin. eexists. split; [by apply (combine_spec cols i)|].
  destruct (Hk _ (name_leb i) (name_leb_total i) (name_leb_trans i)
              (stacked dfs)) as [Hp Hs].
  unfold without_id. cbn [rows]. rewrite tail_with_id.
  split; [|split; [done|]].
  - exists (S i). cbn [columns rows]. split.
    + apply get_loc_cons; [done|]. apply (mi_name _ _ _ Hin).
    + eapply Sorted_fmap; [|exact Hs]. by intros r1 r2.
  - intros Hst r.
    apply (Hst _ (name_leb i) (name_leb_total i) (name_leb_trans i)).
Qed.

(** C4 (as the code has it). The [id] of a merged row is the MD5 digest of
    the text of the row's other values and of nothing else: whatever the
    run, the inputs and the row's place, rows with the same values get the
    same [id].  A changed value changes the digested text; the [id] then
    differs unless the two texts collide under MD5. *)
Theorem combine_id_from_values (kind1 kind2 : Frame.sort_algorithm)
    (cols1 cols2 : list string) (i1 i2 : nat) (dfs1 dfs2 : list DataFrame) :
  comparison_sort kind1 → comparison_sort kind2 →
  merge_input cols1 i1 dfs1 → merge_input cols2 i2 dfs2 →
  ∃ out1 out2,
    combine_dataframes kind1 dfs1 = Ok out1 ∧
    combine_dataframes kind2 dfs2 = Ok out2 ∧
    (∀ r, r ∈ rows out1 →
          r = VStr (Md5.hexdigest (PyRepr.str_tuple (tail r))) :: tail r) ∧
    (∀ r1 r2, r1 ∈ rows out1 → r2 ∈ rows out2 →
              tail r1 = tail r2 → r1 = r2) ∧
    (∀ r1 r2, r1 ∈ rows out1 → r2 ∈ rows out2 → head r1 ≠ head r2 →
              PyRepr.str_tuple (tail r1) ≠ PyRepr.str_tuple (tail r2)) ∧
    (∀ r1 r2, r1 ∈ rows out1 → r2 ∈ rows out2 → tail r1 ≠ tail r2 →
              PyRepr.str_tuple (tail r1) ≠ PyRepr.str_tuple (tail r2)).
Proof.
  intros Hk1 Hk2 Hin1 Hin2. eexists. eexists.
  split; [by apply (combine_spec cols1 i1)|].
  split; [by apply (combine_spec cols2 i2)|].
  cbn [rows].
  assert (Hrow : ∀ (kind : Frame.sort_algorithm) i dfs r,
    r ∈ (λ r, row_id r :: r) <$> kind _ (name_leb i) (stacked dfs) →
    r = row_id (tail r) :: tail r).
  { intros kind i dfs r (r0 & -> & _)%list_elem_of_fmap. done. }
  split; [|split; [|split]].
  - intros r Hr. by apply Hrow in Hr.
  - intros r1 r2 Hr1%Hrow Hr2%Hrow E. rewrite Hr1, Hr2. by rewrite E.
  - intros r1 r2 Hr1%Hrow Hr2%Hrow Hne E. apply Hne.
    rewrite Hr1, Hr2. cbn. unfold row_id. by rewrite E.
  - intros r1 r2 _ _ Hne E. by apply str_tuple_inj in E.
Qed.

(** * The sample tables *)

Ltac elem_cases H :=
  repeat (apply elem_of_cons in H as [->|H]); [..|by apply elem_of_nil in H].

Ltac decide_by_computation :=
  apply (bool_decide_unpack _); vm_compute; exact I.

Lemma ex_normalized_ok : normalized ex_normalized.
Proof.
  exists [0; 1; 2; 3]%nat. split; [reflexivity|].
  intros row Hrow. cbn in Hrow. elem_cases Hrow; reflexivity.
Qed.

Lemma ex_normalized_normal : normal_form ex_normalized.
Proof.
  split; [reflexivity|]. split; [decide_by_computation|].
  intros row Hrow. cbn in Hrow. elem_cases Hrow.
  all: split; [by repeat constructor|].
  all: intros [|[|[|[|i]]]] l c Hl Hc; cbn in Hl, Hc; try done.
  all: injection Hl as <-; injection Hc as <-; reflexivity.
Qed.

Lemma ex_merge_input : merge_input dedup_cols 0 [ex_file1; ex_file2].
Proof.
  split.
  - done.
  - intros d Hd. elem_cases Hd; reflexivity.
  - intros d r Hd Hr. elem_cases Hd; cbn in Hr; elem_cases Hr; reflexivity.
  - decide_by_computation.
  - reflexivity.
  - intros d r Hd Hr. elem_cases Hd; cbn in Hr; elem_cases Hr; cbn; eauto.
Qed.

Lemma ex_raw_distinct_labels : distinct_labels ex_raw.
Proof.
  eexists. split; [reflexivity|]. decide_by_computation.
Qed.

Lemma ex_raw_text_cells : text_cells ex_raw.
Proof.
  intros row Hrow. cbn in Hrow. elem_cases Hrow; by repeat constructor.
Qed.

(** * Where the claims fail *)

(** C9, refuted: after [clean_data] the caller's table is not the table the
    caller passed; [ex_raw] has become [ex_raw_updated]. *)
Lemma clean_data_changes_caller_table :
  ¬ (∀ (h h' : heap) (r : ref) (d : DataFrame) (res : result ref),
       h !! r = Some d → clean_data r h = (h', res) → h' !! r = Some d).
Proof.
  intros H.
  assert (E : clean_data 0%nat [ex_raw] =
              ([ex_raw_updated; ex_raw_cleaned], Ok 1%nat))
    by (vm_compute; reflexivity).
  specialize (H [ex_raw] _ 0%nat ex_raw _ eq_refl E).
  vm_compute in H. discriminate H.
Qed.

(** C6, the code at a failing input.  The docstring of [clean_data] has it
    remove unnecessary whitespace, and the claim has a second pass change
    nothing.  Whitespace is stripped before the symbols are removed: the raw
    name [acme !] of [ex_symbol] comes back as [acme] with a space behind
    it, and a second pass over that table strips the space, so it returns
    another table than the first pass did. *)
Theorem clean_data_leaves_trailing_space :
  clean_table ex_symbol = Ok ex_symbol_cleaned ∧
  clean_table ex_symbol_cleaned = Ok ex_symbol_again ∧
  ex_symbol_again ≠ ex_symbol_cleaned ∧
  ∃ row, rows ex_symbol_cleaned !! 0%nat = Some row ∧
         row !! 0%nat = Some (VStr "acme ") ∧ Py.is_trimmed "acme " = false.
Proof.
  split; [vm_compute; reflexivity|]. split; [vm_compute; reflexivity|].
  split; [discriminate|]. eexists. split; [reflexivity|]. split; reflexivity.
Qed.

Lemma ex_eighteen_input : merge_input dedup_cols 0 [ex_eighteen].
Proof.
  split.
  - done.
  - intros d Hd. elem_cases Hd; reflexivity.
  - intros d r Hd Hr. elem_cases Hd; cbn in Hr; elem_cases Hr; reflexivity.
  - decide_by_computation.
  - reflexivity.
  - intros d r Hd Hr. elem_cases Hd; cbn in Hr; elem_cases Hr; cbn; eauto.
Qed.

(** The merge of [ex_eighteen] under the default [kind]: the one partition
    step of the quicksort exchanges the second record with the sixteenth,
    the third with the fifteenth and so on. *)
Example merge_of_eighteen :
  ∃ out,
    combine_dataframes Numpy.quicksort_kind [ex_eighteen] = Ok out ∧
    (λ r, Frame.cell_at r 4) <$> rows out = VInt <$> ex_eighteen_zips.
Proof.
  destruct (combine_dataframes Numpy.quicksort_kind [ex_eighteen])
    as [out|e] eqn:E; vm_compute in E; [|discriminate E].
  injection E as <-. eexists. split; [reflexivity|]. vm_compute. reflexivity.
Qed.

(** C5, refuted: under the default [kind], numpy's quicksort, the eighteen
    records of [ex_eighteen], all of one name, do not come out in the order
    they went in. *)
Lemma quicksort_moves_equal_names :
  ¬ (∀ (cols : list string) (i : nat) (dfs : list DataFrame)
       (out : DataFrame),
       merge_input cols i dfs →
       combine_dataframes Numpy.quicksort_kind dfs = Ok out →
       sorted_by_name out ∧
       same_order_of_equal_names i (without_id out) (stacked dfs)).
Proof.
  intros H.
  destruct (combine_dataframes Numpy.quicksort_kind [ex_eighteen])
    as [out|e] eqn:E; [|vm_compute in E; discriminate E].
  destruct (H dedup_cols 0%nat [ex_eighteen] out ex_eighteen_input E)
    as [_ Hs].
  vm_compute in E. injection E as <-.
  specialize (Hs (row_named "acme")).
  vm_compute in Hs. discriminate Hs.
Qed.

Lemma pretty_named_input (n1 n2 : nat) :
  merge_input dedup_cols 0
    [mkDF dedup_cols [row_named (pretty n1); row_named (pretty n2)]].
Proof.
  split.
  - done.
  - intros d Hd. elem_cases Hd; reflexivity.
  - intros d r Hd Hr. elem_cases Hd; cbn in Hr; elem_cases Hr; reflexivity.
  - decide_by_computation.
  - reflexivity.
  - intros d r Hd Hr. elem_cases Hd; cbn in Hr; elem_cases Hr; cbn; eauto.
Qed.

(** C4, refuted in its last part: digests are 32 hexadecimal digits, names
    are without number, so two rows that differ in the name alone share
    their [id]. *)
Lemma changed_value_may_keep_id :
  ¬ (∀ (kind : Frame.sort_algorithm) (cols : list string) (i : nat)
       (dfs : list DataFrame) (out : DataFrame) (r1 r2 : list cell),
       comparison_sort kind → merge_input cols i dfs →
       combine_dataframes kind dfs = Ok out →
       r1 ∈ rows out → r2 ∈ rows out →
       tail r1 ≠ tail r2 → head r1 ≠ head r2).
Proof.
  intros H. destruct id_collision as (n1 & n2 & Hne & Hid).
  pose proof (pretty_named_input n1 n2) as Hin.
  pose proof (combine_spec _ _ _ Hin _ stable_kind_sorts) as Hout.
  destruct (stable_kind_sorts _ (name_leb 0) (name_leb_total 0)
              (name_leb_trans 0)
              (stacked [mkDF dedup_cols
                          [row_named (pretty n1); row_named (pretty n2)]]))
    as [Hp _].
  set (body := Frame.stable_kind _ _ _) in *.
  assert (H1 : row_named (pretty n1) ∈ body) by (rewrite Hp; by left).
  assert (H2 : row_named (pretty n2) ∈ body)
    by (rewrite Hp; right; by left).
  apply (H _ _ _ _ _
           (row_id (row_named (pretty n1)) :: row_named (pretty n1))
           (row_id (row_named (pretty n2)) :: row_named (pretty n2))
           stable_kind_sorts Hin Hout).
  - cbn [rows]. apply list_elem_of_fmap. by exists (row_named (pretty n1)).
  - cbn [rows]. apply list_elem_of_fmap. by exists (row_named (pretty n2)).
  - cbn [tail]. unfold row_named. intros [= E]. by apply (inj pretty) in E.
  - cbn [head]. by rewrite Hid.
Qed.

(** * The statements at the sample tables *)

Lemma clean_data_preserves_row_count_witness :
  [ex_raw] !! 0%nat = Some ex_raw ∧
  (∀ h' r', clean_data 0%nat [ex_raw] = (h', Ok r') →
            ∃ t, h' !! r' = Some t ∧ shape0 t = shape0 ex_raw) ∧
  (∀ t, shape0 t ≠ shape0 ex_raw →
        check_count (shape0 ex_raw) t =
        Raise (Exception "The dataframe record count has changed!")) ∧
  (distinct_labels ex_raw → text_cells ex_raw →
   ∃ h' r' t, clean_data 0%nat [ex_raw] = (h', Ok r') ∧ h' !! r' = Some t ∧
              shape0 t = shape0 ex_raw).
Proof.
  split; [reflexivity|].
  apply (clean_data_preserves_row_count [ex_raw] 0%nat ex_raw). reflexivity.
Defined.

Lemma clean_data_updates_caller_table_witness :
  [ex_raw] !! 0%nat = Some ex_raw ∧
  clean_data 0%nat [ex_raw] = ([ex_raw_updated; ex_raw_cleaned], Ok 1%nat) ∧
  ∃ d3 t,
    updated_in_place ex_raw = Ok d3 ∧ finished d3 = Ok t ∧
    [ex_raw_updated; ex_raw_cleaned] !! 0%nat = Some d3 ∧
    1%nat ≠ 0%nat ∧ [ex_raw] !! 1%nat = None ∧
    [ex_raw_updated; ex_raw_cleaned] !! 1%nat = Some t ∧
    ∀ r0, r0 ≠ 0%nat → r0 ≠ 1%nat →
          [ex_raw_updated; ex_raw_cleaned] !! r0 = [ex_raw] !! r0.
Proof.
  split; [reflexivity|]. split; [vm_compute; reflexivity|].
  apply (clean_data_updates_caller_table [ex_raw] _ 0%nat 1%nat ex_raw).
  - reflexivity.
  - vm_compute. reflexivity.
Defined.

Lemma clean_data_rejects_non_text_witness :
  [ex_numeric] !! 0%nat = Some ex_numeric ∧
  NoDup (take 4 (columns ex_numeric)) ∧
  ([VInt 5; VStr "1 main st"; VStr "springfield"; VInt 11111]
     ∈ rows ex_numeric) ∧
  (0 < 3)%nat ∧
  ([VInt 5; VStr "1 main st"; VStr "springfield"; VInt 11111] !! 0%nat
     = Some (VInt 5)) ∧
  ¬ str_or_missing (VInt 5) ∧
  ∃ h' e, clean_data 0%nat [ex_numeric] = (h', Raise e) ∧
          length h' = length [ex_numeric] ∧
          ((4 ≤ length (columns ex_numeric))%nat → e = AttributeError) ∧
          ((length (columns ex_numeric) < 4)%nat → e = IndexError).
Proof.
  assert (ND : NoDup (take 4 (columns ex_numeric)))
    by (apply (bool_decide_unpack _); vm_compute; exact I).
  assert (Hin : [VInt 5; VStr "1 main st"; VStr "springfield"; VInt 11111]
                  ∈ rows ex_numeric) by (by left).
  assert (Hn : ¬ str_or_missing (VInt 5)) by (simpl; tauto).
  repeat (split; [first [reflexivity | lia | assumption]|]).
  apply (clean_data_rejects_non_text [ex_numeric] 0%nat ex_numeric
           [VInt 5; VStr "1 main st"; VStr "springfield"; VInt 11111]
           0%nat (VInt 5)); first [reflexivity | lia | assumption].
Defined.

Lemma clean_data_keeps_normal_form_witness :
  [ex_normalized] !! 0%nat = Some ex_normalized ∧
  normal_form ex_normalized ∧
  clean_data 0%nat [ex_normalized] =
    ([ex_normalized; ex_normalized], Ok 1%nat) ∧
  clean_table ex_normalized = Ok ex_normalized.
Proof.
  split; [reflexivity|]. split; [exact ex_normalized_normal|].
  apply (clean_data_keeps_normal_form [ex_normalized] 0%nat ex_normalized).
  - reflexivity.
  - exact ex_normalized_normal.
Defined.

Lemma remove_dupes_keys_unique_witness :
  ("file1" ∉ key_cols) ∧
  (∀ out, remove_dupes ex_normalized "file1" = Ok out →
          ∃ ks, keys_of out = Ok ks ∧ distinct_keys ks) ∧
  (∀ idx, Frame.get_locs key_cols (columns ex_normalized) = Ok idx →
          ∃ out, remove_dupes ex_normalized "file1" = Ok out).
Proof.
  assert (Hs : "file1" ∉ key_cols)
    by (apply (bool_decide_unpack _); vm_compute; exact I).
  split; [exact Hs|].
  apply (remove_dupes_keys_unique ex_normalized "file1"). exact Hs.
Defined.

Lemma remove_dupes_occurrences_sum_witness :
  normalized ex_normalized ∧ "file1" ≠ "occurrences" ∧
  ∃ out ns,
    remove_dupes ex_normalized "file1" = Ok out ∧
    column_cells "occurrences" out = Ok (VInt <$> ns) ∧
    Forall (λ n, 1 ≤ n) ns ∧
    sum_cells (VInt <$> ns) = Some (Z.of_nat (shape0 ex_normalized)).
Proof.
  assert (Hs : "file1" ≠ "occurrences") by discriminate.
  split; [exact ex_normalized_ok|]. split; [exact Hs|].
  apply (remove_dupes_occurrences_sum ex_normalized "file1").
  - exact ex_normalized_ok.
  - exact Hs.
Defined.

Lemma combine_keeps_every_row_witness :
  comparison_sort Frame.stable_kind ∧
  (∀ out, combine_dataframes Frame.stable_kind [ex_file1; ex_file2] = Ok out →
          shape0 out = sum_list (shape0 <$> [ex_file1; ex_file2])) ∧
  (merge_input dedup_cols 0 [ex_file1; ex_file2] →
   ∃ out,
     combine_dataframes Frame.stable_kind [ex_file1; ex_file2] = Ok out ∧
     without_id out ≡ₚ stacked [ex_file1; ex_file2] ∧
     shape0 out = sum_list (shape0 <$> [ex_file1; ex_file2])).
Proof.
  split; [exact stable_kind_sorts|].
  apply (combine_keeps_every_row Frame.stable_kind dedup_cols 0%nat).
  exact stable_kind_sorts.
Defined.

Lemma combine_sorted_by_name_witness :
  comparison_sort Frame.stable_kind ∧
  merge_input dedup_cols 0 [ex_file1; ex_file2] ∧
  ∃ out,
    combine_dataframes Frame.stable_kind [ex_file1; ex_file2] = Ok out ∧
    sorted_by_name out ∧
    without_id out ≡ₚ stacked [ex_file1; ex_file2] ∧
    (stable_algorithm Frame.stable_kind →
     same_order_of_equal_names 0 (without_id out)
       (stacked [ex_file1; ex_file2])).
Proof.
  split; [exact stable_kind_sorts|]. split; [exact ex_merge_input|].
  apply (combine_sorted_by_name Frame.stable_kind dedup_cols 0%nat).
  - exact stable_kind_sorts.
  - exact ex_merge_input.
Defined.

Lemma combine_id_from_values_witness :
  comparison_sort Frame.stable_kind ∧
  comparison_sort Frame.reversing_kind ∧
  merge_input dedup_cols 0 [ex_file1; ex_file2] ∧
  ∃ out1 out2,
    combine_dataframes Frame.stable_kind [ex_file1; ex_file2] = Ok out1 ∧
    combine_dataframes Frame.reversing_kind [ex_file1; ex_file2] = Ok out2 ∧
    (∀ r, r ∈ rows out1 →
          r = VStr (Md5.hexdigest (PyRepr.str_tuple (tail r))) :: tail r) ∧
    (∀ r1 r2, r1 ∈ rows out1 → r2 ∈ rows out2 →
              tail r1 = tail r2 → r1 = r2) ∧
    (∀ r1 r2, r1 ∈ rows out1 → r2 ∈ rows out2 → head r1 ≠ head r2 →
              PyRepr.str_tuple (tail r1) ≠ PyRepr.str_tuple (tail r2)) ∧
    (∀ r1 r2, r1 ∈ rows out1 → r2 ∈ rows out2 → tail r1 ≠ tail r2 →
              PyRepr.str_tuple (tail r1) ≠ PyRepr.str_tuple (tail r2)).
Proof.
  split; [exact stable_kind_sorts|]. split; [exact reversing_kind_sorts|].
  split; [exact ex_merge_input|].
  apply (combine_id_from_values Frame.stable_kind Frame.reversing_kind
           dedup_cols dedup_cols 0%nat 0%nat).
  - exact stable_kind_sorts.
  - exact reversing_kind_sorts.
  - exact ex_merge_input.
  - exact ex_merge_input.
Defined.

(** The sample run of the merger, evaluated. *)
Example combine_sample :
  combine_dataframes Frame.stable_kind [ex_file1; ex_file2] =
  Ok (mkDF ("id" :: dedup_cols)
        [[VStr "0c1f8f48ef88e5f5c17d7c26ca3c7429"; VStr "acme";
          VStr "1 main st"; VStr "springfield"; VInt 11111; VInt 2;
          VBool true; VBool false];
         [VStr "918aaddc0a80f9ba37ff5fe82e3689ef"; VStr "acme";
          VStr "1 main st"; VStr "springfield"; VInt 11111; VInt 1;
          VBool false; VBool true];
         [VStr "7ee6d360568f6efbfd8242a824885237"; VStr "bob"; VStr "2 elm 4"; VStr "springfield"; VInt 0; VInt 1;
          VBool true; VBool false]]).
Proof. vm_compute. reflexivity. Qed.

Example remove_dupes_sample :
  remove_dupes ex_normalized "file1" = Ok ex_file1.
Proof. vm_compute. reflexivity. Qed.

Example md5_empty :
  Md5.hexdigest EmptyString = "d41d8cd98f00b204e9800998ecf8427e".
Proof. vm_compute. reflexivity. Qed.

Example md5_abc : Md5.hexdigest "abc" = "900150983cd24fb0d6963f7d28e17f72".
Proof. vm_compute. reflexivity. Qed.
(** * Lemmas: paths and the reading of the source files *)

Lemma split_not_nil (sep : ascii) (s : string) : Str.split sep s ≠ [].
Proof.
  destruct s as [|c s]; cbn; [done|].
  case_bool_decide; [done|]. by destruct (Str.split sep s).
Qed.

Lemma split_no_sep (sep : ascii) (s : string) :
  PyRepr.has_char sep s = false → Str.split sep s = [s].
Proof.
  induction s as [|c s IH]; cbn; [done|].
  intros [Hc Hs]%orb_false_iff. apply bool_decide_eq_false in Hc.
  rewrite bool_decide_false by done. by rewrite (IH Hs).
Qed.

Lemma split_app_sep (sep : ascii) (a b : string) :
  PyRepr.has_char sep a = false →
  Str.split sep (a +:+ String sep b) = a :: Str.split sep b.
Proof.
  induction a as [|c a IH]; intros Ha.
  - rewrite string_app_nil. cbn. by rewrite bool_decide_true.
  - rewrite string_app_cons. cbn in Ha |- *.
    apply orb_false_iff in Ha as [Hc Ha]. apply bool_decide_eq_false in Hc.
    rewrite bool_decide_false by done. by rewrite (IH Ha).
Qed.

(** The first part of a split text that starts with a part free of
    separators. *)
Lemma split_head_app (sep : ascii) (a b : string) :
  PyRepr.has_char sep a = false →
  (b = EmptyString ∨ ∃ b', b = String sep b') →
  getitem (Str.split sep (a +:+ b)) 0 = Ok a.
Proof.
  intros Ha [-> | [b' ->]].
  - assert (a +:+ EmptyString = a) as ->.
    { clear Ha. induction a as [|c a IH]; [done|].
      rewrite string_app_cons. by rewrite IH. }
    by rewrite split_no_sep.
  - by rewrite split_app_sep.
Qed.

Lemma split_head_other (sep x : ascii) (a b : string) :
  PyRepr.has_char sep a = false → x ≠ sep →
  ∃ t, getitem (Str.split sep (a +:+ String x b)) 0 = Ok (a +:+ String x t).
Proof.
  intros Ha Hx. induction a as [|c a IH].
  - rewrite string_app_nil. cbn. rewrite bool_decide_false by done.
    destruct (Str.split sep b) as [|p ps] eqn:E.
    { by apply split_not_nil in E. }
    exists p. by rewrite string_app_nil.
  - cbn in Ha. apply orb_false_iff in Ha as [Hc Ha].
    apply bool_decide_eq_false in Hc.
    destruct (IH Ha) as [t Ht]. exists t.
    rewrite !string_app_cons. cbn. rewrite bool_decide_false by done.
    unfold getitem in Ht.
    destruct (Str.split sep (a +:+ String x b)) as [|p ps]; [done|].
    cbn in Ht |- *. by injection Ht as ->.
Qed.

(** * Statements about read_source_files *)

(** A path without a slash has no second part: the file name cannot be
    taken and [IndexError] is raised. *)
Theorem file_name_needs_slash (file : string) :
  PyRepr.has_char "/" file = false → file_name file = Raise IndexError.
Proof.
  intros H. unfold file_name. by rewrite (split_no_sep _ _ H).
Qed.

(** The file name is read from the second part of the path, up to its first
    dot: for [dir/stem] followed by nothing, by a dot or by a slash, it is
    [stem]. *)
Theorem file_name_second_part (dir stem rest : string) :
  PyRepr.has_char "/" dir = false →
  PyRepr.has_char "/" stem = false → PyRepr.has_char "." stem = false →
  (rest = EmptyString ∨
   ∃ c r, rest = String c r ∧ (c = "/"%char ∨ c = "."%char)) →
  file_name (dir +:+ "/" +:+ stem +:+ rest) = Ok stem.
Proof.
  intros Hdir Hs1 Hs2 Hrest. unfold file_name.
  rewrite string_app_cons, string_app_nil, (split_app_sep _ _ _ Hdir).
  change (getitem (dir :: ?l) 1) with (getitem l 0).
  destruct Hrest as [-> | (c & r & -> & [-> | ->])].
  - rewrite (split_head_app _ _ _ Hs1) by auto. cbn.
    by rewrite (split_no_sep _ _ Hs2).
  - rewrite (split_head_app _ _ _ Hs1) by eauto. cbn.
    by rewrite (split_no_sep _ _ Hs2).
  - destruct (split_head_other "/" "." stem r Hs1) as [t ->]; [done|].
    cbn. apply (split_head_app "." stem); eauto.
Qed.
(** * Lemmas: clean_data cell by cell *)

Lemma map_rows_res_eval (f : string → cell → result cell)
    (g : string → cell → cell) (labels : list string) (rs : list (list cell)) :
  (∀ row i l c, row ∈ rs → labels !! i = Some l → row !! i = Some c →
                f l c = Ok (g l c)) →
  Pandas.map_rows_res f labels rs = Ok (Pandas.map_row g labels <$> rs).
Proof.
  assert (Hrow : ∀ row,
    (∀ i l c, labels !! i = Some l → row !! i = Some c → f l c = Ok (g l c)) →
    Pandas.map_row_res f labels row = Ok (Pandas.map_row g labels row)).
  { induction labels as [|l labels IH]; intros [|c row] H; cbn; try done.
    rewrite (H 0%nat l c) by done. cbn.
    rewrite IH; [done|]. intros i l' c' Hl Hc. by apply (H (S i)). }
  induction rs as [|r rs IH]; intros H; cbn; [done|].
  rewrite Hrow by (intros i l c; apply H; by left). cbn.
  rewrite IH; [done|]. intros row i l c Hin. apply H. by right.
Qed.

Lemma map_row_all (f : cell → cell) (labels : list string) (row : list cell) :
  (length row ≤ length labels)%nat →
  f <$> row = Pandas.map_row (λ _, f) labels row.
Proof.
  revert row. induction labels as [|l labels IH]; intros [|c row] H; cbn in *;
    try done; [lia|].
  f_equal. apply IH. lia.
Qed.

Lemma map_rows_compose (f g : string → cell → cell) (labels : list string)
    (rs : list (list cell)) :
  Pandas.map_row f labels <$> (Pandas.map_row g labels <$> rs) =
  Pandas.map_row (λ l c, f l (g l c)) labels <$> rs.
Proof.
  rewrite <- list_fmap_compose. apply list_fmap_ext. intros i r _. cbn.
  apply map_row_compose.
Qed.

Lemma str_cols_key_cols (l : string) : l ∈ str_cols → l ∈ key_cols.
Proof.
  unfold str_cols, key_cols. rewrite !elem_of_cons, !elem_of_nil. tauto.
Qed.

(** The run of [clean_data] on a table of text, cell by cell. *)
Lemma clean_spec (d : DataFrame) :
  distinct_labels d → text_cells d → rectangular d →
  ∃ d1 rest d3 t,
    renamed d = Ok d1 ∧ columns d1 = key_cols ++ rest ∧
    (∀ l, l ∈ rest → l ∉ key_cols) ∧ NoDup (columns d1) ∧
    updated_in_place d = Ok d3 ∧ finished d3 = Ok t ∧
    d3 = mkDF (columns d1) (Pandas.map_row in_place_cell (columns d1) <$> rows d) ∧
    t = mkDF (columns d1) (Pandas.map_row clean_cell (columns d1) <$> rows d).
Proof.
  intros Hd Ht Hrect.
  destruct (distinct_labels_inv d Hd) as (d1 & rest & E & Ec & Hrest & Er).
  assert (Hnd : NoDup (columns d1)).
  { destruct Hd as (d1' & E' & Hnd). congruence. }
  assert (Hlen : length (columns d1) = length (columns d)).
  { apply renamed_inv in E as (c0 & c1 & c2 & c3 & rest' & _ & -> & _).
    by rewrite length_fmap. }
  set (d3 := mkDF (columns d1)
               (Pandas.map_row in_place_cell (columns d1) <$> rows d)).
  assert (E3 : updated_in_place d = Ok d3).
  { unfold updated_in_place, mbind, result_bind. rewrite E.
    unfold Pandas.map_selected_res.
    rewrite fillna_columns, missing_label_none.
    2:{ rewrite Ec. intros l Hl%str_cols_key_cols. apply elem_of_app. by left. }
    rewrite fillna_rows, Er.
    rewrite (map_rows_res_eval _ (Pandas.on_labels str_cols lower_cell)).
    - unfold mbind, result_bind, mret, result_ret, d3.
      by rewrite map_rows_compose.
    - intros row i l c Hrow Hl Hc.
      unfold Pandas.on_labels_res, Pandas.on_labels, Pandas.has_label.
      case_bool_decide as Hs; [|done].
      rewrite Ec in Hl.
      pose proof (key_cols_lookup_str rest i l Hrest Hl Hs) as Hi.
      rewrite Ec in Hrow.
      apply list_elem_of_fmap in Hrow as (row0 & -> & Hrow0).
      rewrite map_row_lookup, Hl in Hc.
      destruct (row0 !! i) as [c0|] eqn:E0; [|done]. injection Hc as <-.
      assert (Hc0 : str_or_missing c0).
      { specialize (Ht row0 Hrow0). eapply Forall_lookup_1; [exact Ht|].
        rewrite lookup_take_lt; [exact E0|lia]. }
      unfold fill_cell. destruct c0; cbn in Hc0 |- *; try done.
      rewrite bool_decide_true by done. done. }
  exists d1, rest, d3,
    (mkDF (columns d1) (Pandas.map_row clean_cell (columns d1) <$> rows d)).
  do 5 (split; [done|]). split; [|done].
  unfold finished, mbind, result_bind.
  rewrite map_selected_res_total. cbn [columns Pandas.applymap d3].
  rewrite missing_label_none.
  2:{ rewrite Ec. intros l ->%list_elem_of_singleton. apply elem_of_app.
      left. unfold key_cols. rewrite !elem_of_cons. auto. }
  rewrite map_selected_res_total. cbn [columns].
  rewrite missing_label_none.
  2:{ rewrite Ec. intros l Hl%str_cols_key_cols. apply elem_of_app. by left. }
  f_equal. f_equal. cbn [rows d3].
  assert (Hstrip : (λ r : list cell, py_strip <$> r) <$>
                     (Pandas.map_row in_place_cell (columns d1) <$> rows d) =
                   Pandas.map_row (λ l c, py_strip (in_place_cell l c))
                     (columns d1) <$> rows d).
  { rewrite <- list_fmap_compose. apply list_fmap_ext. intros i r Hr. cbn.
    rewrite (map_row_all _ (columns d1)).
    - apply map_row_compose.
    - rewrite map_row_length, Hlen.
      apply list_elem_of_lookup_2 in Hr. by rewrite (Hrect r Hr). }
  change (rows (Pandas.applymap py_strip d3))
    with ((λ r : list cell, py_strip <$> r) <$>
            (Pandas.map_row in_place_cell (columns d1) <$> rows d)).
  rewrite Hstrip, !map_rows_compose. done.
Qed.

(** Text after the cleaning steps. *)
Lemma lower_char_not_upper (c : ascii) : Py.is_upper (Py.lower_char c) = false.
Proof. destruct c as [[] [] [] [] [] [] [] []]; reflexivity. Qed.

Lemma lower_lowercase (s : string) : Py.is_lowercase (Py.lower s) = true.
Proof.
  induction s as [|c s IH]; [done|].
  unfold Py.is_lowercase in *. cbn. by rewrite lower_char_not_upper, IH.
Qed.

Lemma lstrip_all_chars (p : ascii → bool) (s : string) :
  Py.all_chars p s = true → Py.all_chars p (Py.lstrip s) = true.
Proof.
  induction s as [|c s IH]; [done|]. cbn [Py.lstrip].
  destruct (Py.is_space c); [|done].
  cbn. intros [_ H]%andb_true_iff. by apply IH.
Qed.

Lemma rstrip_all_chars (p : ascii → bool) (s : string) :
  Py.all_chars p s = true → Py.all_chars p (Py.rstrip s) = true.
Proof.
  induction s as [|c s IH]; [done|]. cbn [Py.all_chars Py.rstrip].
  intros [Hc Hs]%andb_true_iff. specialize (IH Hs).
  destruct (Py.rstrip s) as [|c' r].
  - destruct (Py.is_space c); cbn; [done|]. by rewrite Hc.
  - change (p c && Py.all_chars p (String c' r) = true). by rewrite Hc, IH.
Qed.

Lemma strip_all_chars (p : ascii → bool) (s : string) :
  Py.all_chars p s = true → Py.all_chars p (Py.strip s) = true.
Proof. intros H. by apply rstrip_all_chars, lstrip_all_chars. Qed.

Lemma re_sub_alt_all_chars (p : ascii → bool) (pats : list string)
    (s : string) :
  Py.all_chars p s = true → Py.all_chars p (Py.re_sub_alt pats s) = true.
Proof.
  unfold Py.re_sub_alt. generalize O.
  induction s as [|c s IH]; intros skip; [done|].
  cbn [Py.all_chars Py.re_sub_alt_from].
  intros [Hc Hs]%andb_true_iff.
  destruct skip as [|k]; [|by apply IH].
  destruct (Py.match_alt pats (String c s)); [by apply IH|].
  cbn [Py.all_chars]. by rewrite Hc, IH.
Qed.

Lemma remove_symbols_all_chars (p : ascii → bool) (s : string) :
  Py.all_chars p s = true → Py.all_chars p (Py.remove_symbols s) = true.
Proof.
  induction s as [|c s IH]; [done|]. cbn [Py.all_chars Py.remove_symbols].
  intros [Hc Hs]%andb_true_iff.
  destruct (Py.is_word c || Py.is_space c); [|by apply IH].
  cbn [Py.all_chars]. by rewrite Hc, IH.
Qed.

Lemma remove_symbols_word_space (s : string) :
  Py.only_word_space (Py.remove_symbols s) = true.
Proof.
  unfold Py.only_word_space. induction s as [|c s IH]; [done|].
  cbn [Py.remove_symbols].
  destruct (Py.is_word c || Py.is_space c) eqn:E; [|done].
  cbn [Py.all_chars]. by rewrite E, IH.
Qed.

Lemma on_labels_in (sel : list string) (f : cell → cell) (l : string)
    (c : cell) :
  l ∈ sel → Pandas.on_labels sel f l c = f c.
Proof.
  intros H. unfold Pandas.on_labels, Pandas.has_label.
  by rewrite bool_decide_true.
Qed.

Lemma on_labels_out (sel : list string) (f : cell → cell) (l : string)
    (c : cell) :
  l ∉ sel → Pandas.on_labels sel f l c = c.
Proof.
  intros H. unfold Pandas.on_labels, Pandas.has_label.
  by rewrite bool_decide_false.
Qed.

(** A text cell of the first three columns comes out as lowercase text of
    word characters and whitespace. *)
Lemma clean_cell_text (l : string) (c : cell) :
  l ∈ str_cols → str_or_missing c →
  ∃ s, clean_cell l c = VStr s ∧
       Py.is_lowercase s = true ∧ Py.only_word_space s = true.
Proof.
  intros Hl Hc. unfold clean_cell, in_place_cell.
  rewrite (on_labels_in str_cols replace_symbols) by done.
  rewrite (on_labels_in str_cols lower_cell) by done.
  assert (∃ s0, fill_cell l c = VStr s0) as [s0 ->].
  { unfold fill_cell. destruct c; cbn in Hc |- *; try done; [eauto|].
    rewrite bool_decide_true by done. eauto. }
  cbn [lower_cell py_strip].
  assert (∃ s1, Pandas.on_labels ["name"] str_replace_corp l
                  (VStr (Py.strip (Py.lower s0))) = VStr s1 ∧
                Py.is_lowercase s1 = true) as (s1 & -> & H1).
  { unfold Pandas.on_labels. destruct (Pandas.has_label l ["name"]); cbn.
    - eexists. split; [done|].
      apply re_sub_alt_all_chars, strip_all_chars, lower_lowercase.
    - eexists. split; [done|]. apply strip_all_chars, lower_lowercase. }
  cbn [replace_symbols]. eexists. split; [done|]. split.
  - by apply remove_symbols_all_chars.
  - apply remove_symbols_word_space.
Qed.

Lemma clean_cell_zip (c : cell) :
  clean_cell "zip" c = py_strip (if Pandas.isna c then VInt 0 else c).
Proof. unfold clean_cell, in_place_cell. by destruct c. Qed.

Lemma clean_cell_zip_present (c : cell) : Pandas.isna (clean_cell "zip" c) = false.
Proof. rewrite clean_cell_zip. by destruct c. Qed.

Lemma clean_cell_other (l : string) (c : cell) :
  l ∉ key_cols → clean_cell l c = py_strip c.
Proof.
  intros Hl. unfold clean_cell, in_place_cell.
  assert (Hs : l ∉ str_cols) by (by intros ?%str_cols_key_cols).
  assert (Hn : l ∉ ["name"]).
  { intros ->%list_elem_of_singleton. apply Hl. unfold key_cols.
    rewrite !elem_of_cons. auto. }
  rewrite !on_labels_out by done.
  unfold fill_cell. destruct (Pandas.isna c); [|done].
  rewrite bool_decide_false by done.
  rewrite bool_decide_false; [done|].
  intros ->. apply Hl. unfold key_cols. rewrite !elem_of_cons. auto.
Qed.

Lemma missing_label_none_inv (sel cols : list string) (l : string) :
  Pandas.missing_label sel cols = None → l ∈ sel → l ∈ cols.
Proof.
  unfold Pandas.missing_label, Pandas.has_label. intros H Hl.
  apply list_elem_of_In in Hl.
  pose proof (find_none _ _ H l Hl) as Hn. cbn in Hn.
  apply negb_false_iff, bool_decide_eq_true in Hn. done.
Qed.

Lemma map_selected_res_labels (sel : list string) (f : cell → result cell)
    (d d' : DataFrame) (l : string) :
  Pandas.map_selected_res sel f d = Ok d' → l ∈ sel → l ∈ columns d.
Proof.
  unfold Pandas.map_selected_res.
  destruct (Pandas.missing_label sel (columns d)) eqn:E; [done|].
  intros _. by apply missing_label_none_inv.
Qed.

(** Once the lowercasing has gone through, nothing else can raise. *)
Lemma finished_after_update (d d3 : DataFrame) :
  updated_in_place d = Ok d3 →
  ∃ t, finished d3 = Ok t ∧ check_count (shape0 d) t = Ok tt.
Proof.
  intros E3.
  assert (Hs : ∀ l, l ∈ str_cols → l ∈ columns d3).
  { intros l Hl. revert E3. unfold updated_in_place, mbind, result_bind.
    destruct (renamed d) as [d1|]; [|done]. intros E3.
    pose proof (map_selected_res_labels _ _ _ _ l E3 Hl) as Hin.
    apply map_selected_res_shape in E3 as [-> _]. done. }
  destruct (finished_returns d3) as [t Et].
  1-3: apply Hs; unfold str_cols; rewrite !elem_of_cons; auto.
  exists t. split; [done|].
  rewrite check_count_spec, bool_decide_true; [done|].
  apply finished_shape in Et as [_ ->].
  by rewrite (updated_in_place_shape _ _ E3).
Qed.

(** * Further statements about clean_data *)

(** A table with fewer than four columns is rejected with [IndexError]
    before anything is changed. *)
Theorem clean_data_needs_four_columns (h : heap) (r : ref) (d : DataFrame) :
  h !! r = Some d → (length (columns d) < 4)%nat →
  clean_data r h = (h, Raise IndexError).
Proof.
  intros Hr Hlen. rewrite (clean_data_run h r d Hr).
  assert (renamed d = Raise IndexError) as ->; [|done].
  unfold renamed, Pandas.column_label, mbind, result_bind.
  destruct (columns d) as [|c0 [|c1 [|c2 [|c3 rest]]]]; cbn in *; try done.
  lia.
Qed.

(** [clean_data] does not undo its work when it fails.  On a table with
    distinct labels the only failure is the [AttributeError] of [x.lower()];
    it leaves the caller's table renamed and filled, and no new table has
    been made. *)
Theorem clean_data_failure_keeps_update (h h' : heap) (r : ref)
    (d : DataFrame) (e : exn) :
  h !! r = Some d → distinct_labels d → clean_data r h = (h', Raise e) →
  ∃ d1, renamed d = Ok d1 ∧ e = AttributeError ∧
        h' = <[r := Pandas.fillna fill_values d1]> h ∧
        length h' = length h.
Proof.
  intros Hr Hd. rewrite (clean_data_run h r d Hr).
  destruct (distinct_labels_inv d Hd) as (d1 & rest & E1 & Ec & _ & _).
  rewrite E1. cbn zeta.
  destruct (Pandas.map_selected_res str_cols py_lower
              (Pandas.fillna fill_values d1)) as [d3|e3] eqn:E3.
  - assert (Eu : updated_in_place d = Ok d3).
    { unfold updated_in_place, mbind, result_bind. by rewrite E1. }
    destruct (finished_after_update d d3 Eu) as (t & Et & Ech).
    revert Et. unfold finished, mbind, result_bind.
    destruct (Pandas.map_selected_res ["name"] _ _) as [t1|]; [|done].
    intros ->. by rewrite Ech.
  - intros [= <- <-]. exists d1. split; [done|].
    rewrite length_insert. split; [|done].
    revert E3. unfold Pandas.map_selected_res.
    rewrite fillna_columns, Ec, missing_label_none.
    2:{ intros l Hl%str_cols_key_cols. apply elem_of_app. by left. }
    unfold mbind, result_bind.
    destruct (Pandas.map_rows_res _ _ _) as [rs|e'] eqn:Em; [done|].
    intros [= <-]. by apply py_lower_raises in Em.
Qed.

Lemma clean_row_cells (rest : list string) (row0 : list cell) :
  length row0 = length (key_cols ++ rest) →
  Forall str_or_missing (take 3 row0) →
  ∃ n a c z tl,
    Pandas.map_row clean_cell (key_cols ++ rest) row0
      = VStr n :: VStr a :: VStr c :: z :: tl ∧
    Forall (λ s, Py.is_lowercase s = true ∧ Py.only_word_space s = true)
           [n; a; c] ∧
    Pandas.isna z = false.
Proof.
  intros Hlen Ht.
  destruct row0 as [|x0 [|x1 [|x2 [|x3 tl]]]]; try done.
  cbn in Ht. apply Forall_cons in Ht as [H0 Ht].
  apply Forall_cons in Ht as [H1 Ht]. apply Forall_cons in Ht as [H2 _].
  destruct (clean_cell_text "name" x0) as (n & En & Hn1 & Hn2); [|done|].
  { unfold str_cols. rewrite !elem_of_cons. auto. }
  destruct (clean_cell_text "address" x1) as (a & Ea & Ha1 & Ha2); [|done|].
  { unfold str_cols. rewrite !elem_of_cons. auto. }
  destruct (clean_cell_text "city" x2) as (c & Ec & Hc1 & Hc2); [|done|].
  { unfold str_cols. rewrite !elem_of_cons. auto. }
  exists n, a, c, (clean_cell "zip" x3), (Pandas.map_row clean_cell rest tl).
  split; [|split].
  - change (Pandas.map_row clean_cell (key_cols ++ rest) (x0 :: x1 :: x2 :: x3 :: tl))
      with (clean_cell "name" x0 :: clean_cell "address" x1 ::
            clean_cell "city" x2 :: clean_cell "zip" x3 ::
            Pandas.map_row clean_cell rest tl).
    by rewrite En, Ea, Ec.
  - repeat constructor; done.
  - apply clean_cell_zip_present.
Qed.

(** On a table of text the returned table has the four names in front,
    lowercase text of word characters and whitespace in the first three
    columns, and a zip in every row. *)
Theorem clean_data_output_is_clean (h : heap) (r : ref) (d : DataFrame) :
  h !! r = Some d → distinct_labels d → text_cells d → rectangular d →
  ∃ h' t rest,
    clean_data r h = (h', Ok (length h)) ∧ h' !! length h = Some t ∧
    columns t = key_cols ++ rest ∧ rectangular t ∧
    ∀ row, row ∈ rows t →
      ∃ n a c z tl,
        row = VStr n :: VStr a :: VStr c :: z :: tl ∧
        Forall (λ s, Py.is_lowercase s = true ∧ Py.only_word_space s = true)
               [n; a; c] ∧
        Pandas.isna z = false.
Proof.
  intros Hr Hd Ht Hrect.
  destruct (clean_spec d Hd Ht Hrect)
    as (d1 & rest & d3 & t & E1 & Ec & Hrest & Hnd & E3 & Et & -> & ->).
  assert (Hlen : length (columns d1) = length (columns d)).
  { apply renamed_inv in E1 as (c0 & c1 & c2 & c3 & rest' & _ & -> & _).
    by rewrite length_fmap. }
  eexists _, _, rest. split; [by apply (clean_data_returns h r d _ _ Hr E3 Et)|].
  split.
  { rewrite lookup_app_r by (by rewrite length_insert).
    by rewrite length_insert, Nat.sub_diag. }
  split; [done|]. split.
  - intros row (row0 & -> & H0)%list_elem_of_fmap. cbn [columns].
    by rewrite map_row_length, (Hrect row0 H0).
  - intros row (row0 & -> & H0)%list_elem_of_fmap. rewrite Ec.
    apply clean_row_cells; [|by apply Ht].
    by rewrite (Hrect row0 H0), <- Hlen, Ec.
Qed.

(** Row by row and cell by cell: row [k] of the returned table comes from
    row [k] of the caller's table.  A missing name, address or city is
    [not provided]; a zip that is there is only stripped if it is text; a
    missing zip in a zip column that holds text is the integer 0; a cell
    beyond the fourth column is only stripped if it is text. *)
Theorem clean_data_fills_and_strips (h : heap) (r : ref) (d : DataFrame)
    (k : nat) (row0 : list cell) :
  h !! r = Some d → distinct_labels d → text_cells d → rectangular d →
  rows d !! k = Some row0 →
  ∃ h' t row,
    clean_data r h = (h', Ok (length h)) ∧ h' !! length h = Some t ∧
    rows t !! k = Some row ∧ length row = length row0 ∧
    (∀ i, (i < 3)%nat → row0 !! i = Some VMissing →
          row !! i = Some (VStr "not provided")) ∧
    (∀ c, row0 !! 3%nat = Some c → Pandas.isna c = false →
          row !! 3%nat = Some (py_strip c)) ∧
    (row0 !! 3%nat = Some VMissing → text_zip d →
     row !! 3%nat = Some (VInt 0)) ∧
    (∀ i c, (4 ≤ i)%nat → row0 !! i = Some c → row !! i = Some (py_strip c)).
Proof.
  intros Hr Hd Ht Hrect Hk.
  destruct (clean_spec d Hd Ht Hrect)
    as (d1 & rest & d3 & t & E1 & Ec & Hrest & Hnd & E3 & Et & -> & ->).
  assert (Hlen : length (columns d1) = length (columns d)).
  { apply renamed_inv in E1 as (c0 & c1 & c2 & c3 & rest' & _ & -> & _).
    by rewrite length_fmap. }
  assert (Hrow0 : length row0 = length (key_cols ++ rest)).
  { rewrite <- Ec, Hlen. apply Hrect. by eapply list_elem_of_lookup_2. }
  eexists _, _, _. split; [by apply (clean_data_returns h r d _ _ Hr E3 Et)|].
  split.
  { rewrite lookup_app_r by (by rewrite length_insert).
    by rewrite length_insert, Nat.sub_diag. }
  cbn [rows]. rewrite list_lookup_fmap, Hk. split; [done|].
  split; [apply map_row_length|]. rewrite Ec.
  split; [|split; [|split]].
  - intros i Hi H0. rewrite map_row_lookup, H0.
    destruct i as [|[|[|i]]]; [done..|lia].
  - intros c H0 Hc. rewrite map_row_lookup, H0.
    cbn [lookup list_lookup app key_cols].
    by rewrite clean_cell_zip, Hc.
  - intros H0 _. rewrite map_row_lookup, H0.
    cbn [lookup list_lookup app key_cols].
    by rewrite clean_cell_zip.
  - intros i c Hi H0. rewrite map_row_lookup, H0.
    destruct ((key_cols ++ rest) !! i) as [l|] eqn:El.
    + rewrite clean_cell_other; [done|].
      rewrite lookup_app_r in El by (cbn; lia).
      apply Hrest. by eapply list_elem_of_lookup_2.
    + apply lookup_ge_None in El. apply lookup_lt_Some in H0. lia.
Qed.

(** A table without rows comes back without rows, under the four names:
    no cell is looked at, so nothing can raise. *)
Theorem clean_data_empty_table (h : heap) (r : ref) (d : DataFrame) :
  h !! r = Some d → distinct_labels d → rows d = [] →
  ∃ d1,
    renamed d = Ok d1 ∧ take 4 (columns d1) = key_cols ∧ rows d1 = [] ∧
    clean_data r h = (<[r := d1]> h ++ [d1], Ok (length h)).
Proof.
  intros Hr Hd Hrows.
  assert (Ht : text_cells d)
    by (intros row; rewrite Hrows; by intros ?%elem_of_nil).
  assert (Hrect : rectangular d)
    by (intros row; rewrite Hrows; by intros ?%elem_of_nil).
  destruct (clean_spec d Hd Ht Hrect)
    as (d1 & rest & d3 & t & E1 & Ec & Hrest & Hnd & E3 & Et & -> & ->).
  exists d1. pose proof (renamed_rows d d1 E1) as Hrows1.
  rewrite Hrows in *. cbn [fmap list_fmap] in *.
  assert (d1 = mkDF (columns d1) []) as Hd1 by (by apply df_ext).
  split; [done|]. split; [by rewrite Ec|]. split; [done|].
  rewrite Hd1 at 1 2. by apply (clean_data_returns h r d _ _ Hr E3 Et).
Qed.
(** * Lemmas: where the corporate suffixes are removed *)

Lemma prefix_is_prefix (p s : string) : String.prefix p s = is_prefix p s.
Proof.
  revert s. induction p as [|x p IH]; intros [|c s]; cbn; try done.
  destruct (ascii_dec x c) as [->|Hne].
  - rewrite bool_decide_true by done. apply IH.
  - by rewrite bool_decide_false.
Qed.

Lemma is_prefix_cons (x c : ascii) (p s : string) :
  is_prefix (String x p) (String c s) = bool_decide (x = c) && is_prefix p s.
Proof. reflexivity. Qed.

Lemma is_prefix_before_space (q a b : string) :
  PyRepr.has_char " " q = false →
  is_prefix q (a +:+ String " " b) = is_prefix q a.
Proof.
  revert a. induction q as [|x q IH]; intros a Hq; [done|].
  cbn in Hq. apply orb_false_iff in Hq as [Hx Hq].
  destruct a as [|c a].
  - rewrite string_app_nil. cbn. by rewrite Hx.
  - rewrite string_app_cons. cbn. by rewrite IH.
Qed.

Lemma match_alt_before_space (a b : string) :
  a ≠ EmptyString →
  Py.match_alt corp_pattern (a +:+ String " " b) = Py.match_alt corp_pattern a.
Proof.
  intros Ha. destruct a as [|c a]; [done|].
  unfold corp_pattern. cbn [Py.match_alt].
  rewrite !prefix_is_prefix, string_app_cons, !is_prefix_cons.
  by rewrite !is_prefix_before_space.
Qed.

Lemma is_prefix_length (p s : string) :
  is_prefix p s = true → (String.length p ≤ String.length s)%nat.
Proof.
  revert s. induction p as [|x p IH]; intros [|c s]; cbn; try done; [lia|].
  intros [_ H]%andb_true_iff. apply IH in H. lia.
Qed.

Lemma match_alt_length (s p : string) :
  Py.match_alt corp_pattern s = Some p →
  String.length p = 4%nat ∧ (4 ≤ String.length s)%nat.
Proof.
  unfold corp_pattern. cbn [Py.match_alt]. rewrite !prefix_is_prefix.
  destruct (is_prefix " llc" s) eqn:E1; [intros [= <-]|].
  { split; [done|]. by apply is_prefix_length in E1. }
  destruct (is_prefix " inc" s) eqn:E2; [intros [= <-]|].
  { split; [done|]. by apply is_prefix_length in E2. }
  destruct (is_prefix " ltd" s) eqn:E3; [intros [= <-]|done].
  split; [done|]. by apply is_prefix_length in E3.
Qed.

Lemma string_length_app (a b : string) :
  String.length (a +:+ b) = (String.length a + String.length b)%nat.
Proof.
  induction a as [|c a IH]; [done|].
  rewrite string_app_cons. cbn. by rewrite IH.
Qed.

(** Matches that begin before a suffix end before it. *)
Lemma re_sub_alt_from_before (a p b : string) (k : nat) :
  p ∈ corp_pattern → (k ≤ String.length a)%nat →
  Py.re_sub_alt_from corp_pattern k (a +:+ p +:+ b) =
  Py.re_sub_alt_from corp_pattern k a +:+ Py.re_sub_alt corp_pattern b.
Proof.
  intros Hp. revert k. induction a as [|c a IH]; intros k Hk.
  - cbn in Hk. assert (k = 0%nat) as -> by lia. rewrite string_app_nil.
    unfold corp_pattern in Hp. rewrite !elem_of_cons, elem_of_nil in Hp.
    destruct Hp as [->|[->|[->|[]]]];
      rewrite !string_app_cons, string_app_nil; cbn [Py.re_sub_alt_from];
      unfold corp_pattern at 1; cbn [Py.match_alt];
      rewrite !prefix_is_prefix; reflexivity.
  - rewrite string_app_cons. cbn [Py.re_sub_alt_from].
    destruct k as [|k]; [|apply IH; cbn in Hk; lia].
    assert (Hsp : ∃ q, p = String " " q) .
    { unfold corp_pattern in Hp. rewrite !elem_of_cons, elem_of_nil in Hp.
      destruct Hp as [->|[->|[->|[]]]]; eauto. }
    destruct Hsp as [q ->].
    rewrite <- string_app_cons.
    rewrite (string_app_cons " " q b) at 1.
    rewrite match_alt_before_space by done.
    destruct (Py.match_alt corp_pattern (String c a)) as [p'|] eqn:E.
    + apply match_alt_length in E as [-> Hlen]. cbn [Nat.pred].
      apply IH. cbn in Hlen. lia.
    + rewrite IH by lia. by rewrite string_app_cons.
Qed.

(** The corporate suffixes are removed wherever they stand in a name, at its
    end, in its middle or inside a longer word: what is left of the name is
    joined, each part with its own suffixes removed. *)
Theorem corp_suffix_removed_anywhere (a p b : string) :
  p ∈ corp_pattern →
  str_replace_corp (VStr (a +:+ p +:+ b)) =
    VStr (Py.re_sub_alt corp_pattern a +:+ Py.re_sub_alt corp_pattern b) ∧
  (Py.no_match corp_pattern a = true → Py.no_match corp_pattern b = true →
   str_replace_corp (VStr (a +:+ p +:+ b)) = VStr (a +:+ b)).
Proof.
  intros Hp.
  assert (E : str_replace_corp (VStr (a +:+ p +:+ b)) =
              VStr (Py.re_sub_alt corp_pattern a
                    +:+ Py.re_sub_alt corp_pattern b)).
  { cbn [str_replace_corp]. f_equal. unfold Py.re_sub_alt at 1.
    apply re_sub_alt_from_before; [done|lia]. }
  split; [done|]. intros Ha Hb.
  by rewrite E, !re_sub_alt_id.
Qed.
(** * Lemmas: the groups of remove_dupes *)

Lemma cell_compare_antisym (a b : cell) :
  Frame.cell_compare a b = CompOpp (Frame.cell_compare b a).
Proof.
  destruct a as [s|n|[]|], b as [t|m|[]|];
    unfold Frame.cell_compare; cbn [Frame.num_norm]; try done;
    first [apply String.compare_antisym | apply Z.compare_antisym].
Qed.

Lemma dir_compare_antisym (asc : bool) (a b : cell) :
  Frame.dir_compare asc a b = CompOpp (Frame.dir_compare asc b a).
Proof.
  unfold Frame.dir_compare.
  destruct (Pandas.isna a), (Pandas.isna b), asc; try done;
    apply cell_compare_antisym.
Qed.

Lemma rows_compare_antisym (order : list (nat * bool)) (r1 r2 : list cell) :
  Frame.rows_compare order r1 r2 = CompOpp (Frame.rows_compare order r2 r1).
Proof.
  induction order as [|[i asc] order IH]; [done|]. cbn.
  rewrite (dir_compare_antisym asc (Frame.cell_at r1 i)).
  destruct (Frame.dir_compare asc (Frame.cell_at r2 i) (Frame.cell_at r1 i));
    cbn; done.
Qed.

Lemma rows_leb_total (order : list (nat * bool)) :
  total_order (Frame.rows_leb order).
Proof.
  intros r1 r2. unfold Frame.rows_leb.
  rewrite (rows_compare_antisym order r1 r2).
  destruct (Frame.rows_compare order r2 r1); cbn; auto.
Qed.

(** Counting keys one by one. *)
Lemma key_eqb_sym (k1 k2 : list cell) :
  Frame.key_eqb k1 k2 = Frame.key_eqb k2 k1.
Proof.
  unfold Frame.key_eqb. apply bool_decide_ext. split; by intros ->.
Qed.

Lemma key_eqb_trans_l (k k1 k2 : list cell) :
  Frame.key_eqb k1 k2 = true → Frame.key_eqb k k1 = Frame.key_eqb k k2.
Proof.
  intros H%key_eqb_true. unfold Frame.key_eqb. apply bool_decide_ext.
  fold (norm_key k) (norm_key k1) (norm_key k2). by rewrite H.
Qed.

Lemma group_count_count_key (k0 k : list cell) (gs : list (list cell * Z)) :
  group_count k0 (Frame.count_key k gs) =
  group_count k0 gs + (if Frame.key_eqb k0 k then 1 else 0).
Proof.
  induction gs as [|[k' n] gs IH]; cbn.
  - destruct (Frame.key_eqb k0 k); lia.
  - destruct (Frame.key_eqb k k') eqn:E; cbn.
    + rewrite (key_eqb_trans_l k0 k k' E).
      destruct (Frame.key_eqb k0 k'); [lia|].
      lia.
    + destruct (Frame.key_eqb k0 k') eqn:E0; [|apply IH].
      assert (Frame.key_eqb k0 k = false) as ->; [|lia].
      rewrite (key_eqb_sym k0 k), (key_eqb_sym k0 k') in *.
      by rewrite (key_eqb_trans_l k k' k0) in E by done.
Qed.

Lemma group_sizes_snoc (keys : list (list cell)) (k : list cell) :
  Frame.group_sizes (keys ++ [k]) = Frame.count_key k (Frame.group_sizes keys).
Proof. unfold Frame.group_sizes. by rewrite foldl_app. Qed.

Lemma count_equal_snoc (k0 k : list cell) (keys : list (list cell)) :
  count_equal k0 (keys ++ [k]) =
  count_equal k0 keys + (if Frame.key_eqb k0 k then 1 else 0).
Proof.
  unfold count_equal. rewrite List.filter_app, length_app. cbn.
  destruct (Frame.key_eqb k0 k); cbn; lia.
Qed.

(** The groups hold, for every key, the number of rows that carry it. *)
Lemma group_count_sizes (k0 : list cell) (keys : list (list cell)) :
  group_count k0 (Frame.group_sizes keys) = count_equal k0 keys.
Proof.
  induction keys as [|k keys IH] using rev_ind; [done|].
  by rewrite group_sizes_snoc, group_count_count_key, count_equal_snoc, IH.
Qed.

Lemma group_count_elem (gs : list (list cell * Z)) (g : list cell * Z) :
  NoDup (norm_key <$> gs.*1) → g ∈ gs → group_count g.1 gs = g.2.
Proof.
  induction gs as [|[k' n] gs IH]; intros Hnd Hg; [by apply elem_of_nil in Hg|].
  rewrite !fmap_cons in Hnd. apply NoDup_cons in Hnd as [Hk Hnd].
  cbn [fst] in Hk. cbn [group_count]. apply elem_of_cons in Hg as [->|Hg].
  - cbn. unfold Frame.key_eqb. by rewrite bool_decide_true.
  - destruct (Frame.key_eqb g.1 k') eqn:E; [|by apply IH].
    exfalso. apply Hk. apply key_eqb_true in E. rewrite <- E.
    apply list_elem_of_fmap. exists g.1. split; [done|].
    apply list_elem_of_fmap. by exists g.
Qed.

Lemma group_count_pos (k : list cell) (gs : list (list cell * Z)) :
  0 < group_count k gs →
  ∃ g, g ∈ gs ∧ Frame.key_eqb k g.1 = true ∧ g.2 = group_count k gs.
Proof.
  induction gs as [|[k' n] gs IH]; cbn; [lia|].
  destruct (Frame.key_eqb k k') eqn:E.
  - intros _. exists (k', n). split; [by left|done].
  - intros (g & Hg & H1 & H2)%IH. exists g. split; [by right|done].
Qed.

Lemma count_equal_pos (k : list cell) (keys : list (list cell)) :
  k ∈ keys → 0 < count_equal k keys.
Proof.
  intros Hk. unfold count_equal.
  assert (k ∈ List.filter (Frame.key_eqb k) keys).
  { apply list_elem_of_In, filter_In. split; [by apply list_elem_of_In|].
    unfold Frame.key_eqb. by rewrite bool_decide_true. }
  destruct (List.filter _ keys); [by apply elem_of_nil in H|]. cbn. lia.
Qed.

(** The count of a key does not depend on the order of the groups. *)
Lemma group_count_perm (k : list cell) (gs gs' : list (list cell * Z)) :
  gs ≡ₚ gs' → NoDup (norm_key <$> gs.*1) →
  group_count k gs = group_count k gs'.
Proof.
  induction 1 as [|[k1 n1] gs gs' Hp IH|[k1 n1] [k2 n2] gs|gs gs' gs'' H1 IH1 H2 IH2];
    intros Hnd.
  - done.
  - rewrite !fmap_cons in Hnd. apply NoDup_cons in Hnd as [_ Hnd].
    cbn. destruct (Frame.key_eqb k k1); [done|]. by apply IH.
  - cbn. destruct (Frame.key_eqb k k1) eqn:E1,
             (Frame.key_eqb k k2) eqn:E2; try done.
    exfalso. rewrite !fmap_cons in Hnd. apply NoDup_cons in Hnd as [Hnd _].
    apply Hnd. cbn [fst]. apply key_eqb_true in E1, E2.
    rewrite <- E2, E1. by left.
  - rewrite IH1 by done. apply IH2. by rewrite <- H1.
Qed.

(** A key with a missing value equals no complete key. *)
Lemma has_na_norm (k1 k2 : list cell) :
  norm_key k1 = norm_key k2 → Frame.has_na k1 = Frame.has_na k2.
Proof.
  unfold Frame.has_na, norm_key.
  revert k2. induction k1 as [|a k1 IH]; intros [|b k2];
    rewrite ?fmap_cons, ?fmap_nil; try done.
  intros [= Hab H]. cbn [existsb]. rewrite (IH _ H). f_equal.
  destruct a as [| |[]|], b as [| |[]|]; done.
Qed.

Lemma count_equal_complete (k : list cell) (keys : list (list cell)) :
  Frame.has_na k = false →
  count_equal k (List.filter (λ k', negb (Frame.has_na k')) keys) =
  count_equal k keys.
Proof.
  intros Hk. unfold count_equal. f_equal. f_equal.
  induction keys as [|k' keys IH]; [done|]. cbn.
  destruct (Frame.key_eqb k k') eqn:E.
  - apply key_eqb_true in E as E'. apply has_na_norm in E'.
    rewrite <- E', Hk. cbn. by rewrite E, IH.
  - destruct (Frame.has_na k'); cbn; [done|]. by rewrite E.
Qed.

(** The source columns are appended behind the count. *)
Lemma setitem_new (l : string) (v : cell) (cols : list string)
    (rs : list (list cell)) :
  l ∉ cols →
  Frame.setitem l v (mkDF cols rs) = mkDF (cols ++ [l]) ((λ r, r ++ [v]) <$> rs).
Proof.
  intros Hl. unfold Frame.setitem, Frame.setitem_row, Pandas.has_label.
  cbn [columns rows]. by rewrite bool_decide_false.
Qed.

Lemma tag_source_rows (source : string) (groups : list (list cell * Z)) :
  source ∉ key_cols ++ ["occurrences"] →
  tag_source source
    (mkDF (key_cols ++ ["occurrences"]) (row_of_group <$> groups)) =
  mkDF (key_cols ++ ["occurrences"; "file1"; other_label source])
       (tagged_row source <$> groups).
Proof.
  intros Hs. unfold tag_source, other_label, tagged_row.
  assert (H1 : "file1" ∉ key_cols ++ ["occurrences"]).
  { unfold key_cols. cbn. rewrite !elem_of_cons, elem_of_nil.
    intros [|[|[|[|[|[]]]]]]; discriminate. }
  case_bool_decide as E.
  - subst source. rewrite setitem_new by done. rewrite setitem_new.
    2:{ unfold key_cols. cbn. rewrite !elem_of_cons, elem_of_nil.
        intros [|[|[|[|[|[|[]]]]]]]; discriminate. }
    apply df_ext; cbn [columns rows].
    + unfold key_cols. by rewrite <- !app_assoc.
    + rewrite <- !list_fmap_compose. apply list_fmap_ext. intros i g _.
      cbn. unfold row_of_group. by rewrite <- !app_assoc.
  - rewrite setitem_new by done. rewrite setitem_new.
    2:{ rewrite elem_of_app, list_elem_of_singleton. tauto. }
    apply df_ext; cbn [columns rows].
    + unfold key_cols. by rewrite <- !app_assoc.
    + rewrite <- !list_fmap_compose. apply list_fmap_ext. intros i g _.
      cbn. unfold row_of_group. by rewrite <- !app_assoc.
Qed.

Lemma tagged_row_cells (source : string) (g : list cell * Z) :
  length g.1 = 4%nat →
  Frame.cell_at (tagged_row source g) 4 = VInt g.2 ∧
  Frame.cell_at (tagged_row source g) 0 = Frame.cell_at g.1 0 ∧
  Frame.key_at [0; 1; 2; 3]%nat (tagged_row source g) = g.1.
Proof.
  destruct g as [[|a [|b [|c [|z [|]]]]] n]; cbn; try done.
Qed.

(** What [remove_dupes] returns: one row per group of the complete keys, in
    the order of the sort. *)
Lemma remove_dupes_spec (df : DataFrame) (source : string) (idx : list nat) :
  Frame.get_locs key_cols (columns df) = Ok idx →
  source ∉ key_cols ++ ["occurrences"] →
  ∃ groups,
    remove_dupes df source =
      Ok (mkDF (key_cols ++ ["occurrences"; "file1"; other_label source])
            (tagged_row source <$> groups)) ∧
    groups ≡ₚ Frame.group_sizes (complete_keys idx df) ∧
    Forall (λ g, length g.1 = 4%nat) groups ∧
    Sorted (λ g1 g2, occurrences_name_leb (tagged_row source g1)
                       (tagged_row source g2) = true) groups.
Proof.
  intros Hidx Hs.
  set (keys := complete_keys idx df).
  set (gs0 := Frame.stable_sort (λ g1 g2, Frame.key_leb g1.1 g2.1)
                (Frame.group_sizes keys)).
  set (gs1 := Frame.stable_sort
                (λ g1 g2, Frame.rows_leb [(4%nat, false); (0%nat, true)]
                            (row_of_group g1) (row_of_group g2)) gs0).
  assert (Hperm : gs1 ≡ₚ Frame.group_sizes keys).
  { unfold gs1, gs0. by rewrite !stable_sort_perm. }
  destruct (group_sizes_spec keys) as (Hnd & _ & _ & Hin).
  assert (Hlen : Forall (λ g, length g.1 = 4%nat) gs1).
  { apply Forall_forall. intros g Hg.
    assert (Hk : g.1 ∈ keys).
    { apply Hin. rewrite <- Hperm. apply list_elem_of_fmap. by exists g. }
    unfold keys, complete_keys in Hk.
    apply list_elem_of_In, filter_In in Hk as [Hk _].
    apply list_elem_of_In, list_elem_of_fmap in Hk as (row & -> & _).
    unfold Frame.key_at. rewrite length_fmap.
    by rewrite (get_locs_length _ _ _ Hidx). }
  assert (Eg : grouped df =
               Ok (mkDF (key_cols ++ ["occurrences"]) (row_of_group <$> gs1))).
  { unfold grouped. rewrite (groupby_size_columns _ _ _ _ Hidx).
    unfold Frame.group_by_columns, mbind, result_bind, mret, result_ret.
    rewrite Hidx. fold (complete_keys idx df). fold keys. fold gs0.
    unfold Frame.sort_values_lex, mbind, result_bind, mret, result_ret.
    change (Frame.get_locs ["occurrences"; "name"]
              (columns (mkDF (key_cols ++ ["occurrences"])
                          ((λ g, g.1 ++ [VInt g.2]) <$> gs0))))
      with (@Ok (list nat) [4; 0]%nat).
    cbn [columns rows zip zip_with].
    unfold Frame.drop_duplicates, mbind, result_bind, mret, result_ret.
    change (Frame.get_locs key_cols
              (columns (mkDF (key_cols ++ ["occurrences"]) _)))
      with (@Ok (list nat) [0; 1; 2; 3]%nat).
    cbn [columns rows]. f_equal. f_equal.
    change (λ g : list cell * Z, g.1 ++ [VInt g.2]) with row_of_group.
    rewrite stable_sort_fmap. fold gs1.
    apply keep_first_id.
    - rewrite <- list_fmap_compose.
      rewrite (list_fmap_ext _ (norm_key ∘ fst) gs1).
      + rewrite list_fmap_compose. by rewrite Hperm.
      + intros i g Hg.
        change (norm_key (Frame.key_at [0; 1; 2; 3]%nat (row_of_group g)) =
                norm_key g.1).
        rewrite key_at_row_of_group; [done|].
        eapply Forall_lookup_1 in Hlen; eauto.
    - intros r _. cbn. apply not_elem_of_nil. }
  exists gs1. split; [|split; [done|split; [done|]]].
  - by rewrite remove_dupes_unfold, Eg, tag_source_rows.
  - assert (Hs1 : Sorted
      (λ g1 g2, Frame.rows_leb [(4%nat, false); (0%nat, true)]
                  (row_of_group g1) (row_of_group g2) = true) gs1).
    { apply stable_sort_sorted. intros g1 g2. apply rows_leb_total. }
    assert (Hrel : ∀ g1 g2, g1 ∈ gs1 → g2 ∈ gs1 →
      Frame.rows_leb [(4%nat, false); (0%nat, true)]
        (row_of_group g1) (row_of_group g2) =
      occurrences_name_leb (tagged_row source g1) (tagged_row source g2)).
    { intros g1 g2 H1 H2.
      assert (L1 : length g1.1 = 4%nat)
        by (eapply Forall_forall in Hlen; eauto).
      assert (L2 : length g2.1 = 4%nat)
        by (eapply Forall_forall in Hlen; eauto).
      destruct g1 as [[|a1 [|b1 [|c1 [|z1 [|]]]]] n1]; try done.
      destruct g2 as [[|a2 [|b2 [|c2 [|z2 [|]]]]] n2]; done. }
    revert Hs1 Hrel. generalize gs1. clear.
    induction 1 as [|g gs Hgs IH Hhd]; intros Hrel; constructor.
    + apply IH. intros g1 g2 H1 H2. apply Hrel; by right.
    + destruct Hhd as [|g' gs' Hgg']; constructor.
      rewrite <- Hrel; [done|by left|right; by left].
Qed.

(** Looking up labels of a table with distinct labels. *)
Lemma locs_present (l : string) (cols : list string) (k : nat) :
  NoDup cols → l ∈ cols → ∃ i, Frame.locs l cols k = [i].
Proof.
  revert k. induction cols as [|c cols IH]; intros k Hnd Hl.
  { by apply elem_of_nil in Hl. }
  apply NoDup_cons in Hnd as [Hc Hnd]. cbn.
  case_bool_decide as E.
  - subst c. rewrite locs_nil by done. eauto.
  - apply elem_of_cons in Hl as [->|Hl]; [done|]. by apply IH.
Qed.

Lemma get_loc_present (l : string) (cols : list string) :
  NoDup cols → l ∈ cols → ∃ i, Frame.get_loc l cols = Ok i.
Proof.
  intros Hnd Hl. unfold Frame.get_loc.
  destruct (locs_present l cols 0 Hnd Hl) as [i ->]. eauto.
Qed.

Lemma get_loc_absent (l : string) (cols : list string) :
  l ∉ cols → Frame.get_loc l cols = Raise (KeyError l).
Proof. intros Hl. unfold Frame.get_loc. by rewrite locs_nil. Qed.

Lemma get_locs_missing (ls cols : list string) (l : string) :
  NoDup cols → Pandas.missing_label ls cols = Some l →
  Frame.get_locs ls cols = Raise (KeyError l).
Proof.
  intros Hnd. unfold Pandas.missing_label.
  induction ls as [|l0 ls IH]; [done|]. cbn [List.find Frame.get_locs].
  unfold Pandas.has_label at 1. case_bool_decide as E; cbn [negb].
  - destruct (get_loc_present l0 cols Hnd E) as [i ->].
    intros H. cbn. by rewrite (IH H).
  - intros [= <-]. by rewrite get_loc_absent.
Qed.

(** * Further statements about remove_dupes *)

Lemma missing_label_not_all (sel cols : list string) (l : string) :
  Pandas.missing_label sel cols = Some l →
  forallb (λ l0, Pandas.has_label l0 cols) sel = false.
Proof.
  unfold Pandas.missing_label.
  induction sel as [|l0 sel IH]; [done|]. cbn [List.find forallb].
  destruct (Pandas.has_label l0 cols); cbn [negb andb]; [exact IH|done].
Qed.

(** A table that lacks one of the four key columns is rejected with a
    [KeyError].  It is the error of the first key label that is missing,
    unless the table has exactly four rows: [groupby] then takes the list
    of the four labels for the grouping itself, and it is the sort of the
    counts that fails, for want of a [name] column. *)
Theorem remove_dupes_missing_column (df : DataFrame) (source l : string) :
  NoDup (columns df) → Pandas.missing_label key_cols (columns df) = Some l →
  remove_dupes df source =
    Raise (KeyError (if bool_decide (shape0 df = 4%nat) then "name" else l)).
Proof.
  intros Hnd Hl. rewrite remove_dupes_unfold.
  pose proof (missing_label_not_all _ _ _ Hl) as Hall.
  case_bool_decide as E.
  - rewrite grouped_by_labels; [done|].
    rewrite Hall. cbn [negb]. rewrite andb_true_r.
    apply bool_decide_eq_true. by rewrite E.
  - unfold grouped, Frame.groupby_size.
    rewrite bool_decide_false by (intros E'; apply E; by rewrite <- E').
    cbn [andb]. unfold Frame.group_by_columns.
    by rewrite (get_locs_missing _ _ _ Hnd Hl).
Qed.

(** The table [remove_dupes] returns has seven columns: the four keys, the
    count, [file1] and the other source column.  No other column of the
    input is kept, every key is the key of an input row, and of the two
    flags exactly the one of the source is true. *)
Theorem remove_dupes_layout (df : DataFrame) (source : string)
    (idx : list nat) :
  Frame.get_locs key_cols (columns df) = Ok idx →
  source ∉ key_cols ++ ["occurrences"] →
  ∃ out,
    remove_dupes df source = Ok out ∧
    columns out =
      key_cols ++ ["occurrences"; "file1"; other_label source] ∧
    ∀ row, row ∈ rows out →
      ∃ r n, r ∈ rows df ∧ Frame.has_na (Frame.key_at idx r) = false ∧
             row = Frame.key_at idx r ++
                   [VInt n; VBool (bool_decide (source = "file1"));
                    VBool (negb (bool_decide (source = "file1")))].
Proof.
  intros Hidx Hs.
  destruct (remove_dupes_spec df source idx Hidx Hs)
    as (groups & -> & Hperm & Hlen & _).
  eexists. split; [done|]. split; [done|]. cbn [rows].
  intros row (g & -> & Hg)%list_elem_of_fmap.
  destruct (group_sizes_spec (complete_keys idx df)) as (_ & _ & _ & Hin).
  assert (Hk : g.1 ∈ complete_keys idx df).
  { apply Hin. rewrite <- Hperm. apply list_elem_of_fmap. by exists g. }
  unfold complete_keys in Hk.
  apply list_elem_of_In, filter_In in Hk as [Hk Hna].
  apply list_elem_of_In, list_elem_of_fmap in Hk as (r & Er & Hr).
  exists r, g.2. split; [done|]. split.
  - rewrite <- Er. by apply negb_true_iff in Hna.
  - unfold tagged_row. by rewrite Er.
Qed.

(** The count of a row is the number of input rows that carry its key, and
    every input row with a complete key is counted in exactly one row of
    the output. *)
Theorem remove_dupes_counts_rows (df : DataFrame) (source : string)
    (idx : list nat) :
  Frame.get_locs key_cols (columns df) = Ok idx →
  source ∉ key_cols ++ ["occurrences"] →
  ∃ out groups,
    remove_dupes df source = Ok out ∧
    rows out = tagged_row source <$> groups ∧
    NoDup (norm_key <$> groups.*1) ∧
    (∀ g, g ∈ groups →
          g.2 = count_equal g.1 (Frame.key_at idx <$> rows df) ∧ 1 ≤ g.2) ∧
    (∀ r, r ∈ rows df → Frame.has_na (Frame.key_at idx r) = false →
          ∃ g, g ∈ groups ∧ Frame.key_eqb (Frame.key_at idx r) g.1 = true).
Proof.
  intros Hidx Hs.
  destruct (remove_dupes_spec df source idx Hidx Hs)
    as (groups & -> & Hperm & Hlen & _).
  destruct (group_sizes_spec (complete_keys idx df))
    as (Hnd & Hpos & _ & Hin).
  assert (Hnd' : NoDup (norm_key <$> groups.*1)) by (by rewrite Hperm).
  assert (Hcount : ∀ k, group_count k groups
                        = count_equal k (complete_keys idx df)).
  { intros k. rewrite <- group_count_sizes. by apply group_count_perm. }
  eexists _, groups. split; [done|]. split; [done|]. split; [done|]. split.
  - intros g Hg. split.
    + rewrite <- (group_count_elem _ g Hnd' Hg), Hcount.
      apply count_equal_complete.
      assert (Hk : g.1 ∈ complete_keys idx df).
      { apply Hin. rewrite <- Hperm. apply list_elem_of_fmap. by exists g. }
      unfold complete_keys in Hk.
      apply list_elem_of_In, filter_In in Hk as [_ Hna].
      by apply negb_true_iff in Hna.
    + rewrite Hperm in Hg. eapply Forall_forall in Hpos; eauto.
  - intros r Hr Hna.
    assert (Hk : Frame.key_at idx r ∈ complete_keys idx df).
    { unfold complete_keys. apply list_elem_of_In, filter_In. split.
      - apply list_elem_of_In, list_elem_of_fmap. by exists r.
      - by rewrite Hna. }
    apply count_equal_pos in Hk. rewrite <- Hcount in Hk.
    destruct (group_count_pos _ _ Hk) as (g & Hg & Hkg & _). eauto.
Qed.

Lemma occurrences_loc (source : string) :
  source ∉ key_cols ++ ["occurrences"] →
  Frame.get_loc "occurrences"
    (key_cols ++ ["occurrences"; "file1"; other_label source]) = Ok 4%nat.
Proof.
  intros Hs.
  change (key_cols ++ ["occurrences"; "file1"; other_label source])
    with ((key_cols ++ ["occurrences"; "file1"]) ++ [other_label source]).
  rewrite get_loc_snoc; [reflexivity|].
  unfold other_label. case_bool_decide; [done|].
  intros E. apply Hs. rewrite E. apply elem_of_app. right. by left.
Qed.

Lemma occurrences_of_tagged (source : string) (groups : list (list cell * Z)) :
  Forall (λ g, length g.1 = 4%nat) groups →
  (λ r, Frame.cell_at r 4) <$> (tagged_row source <$> groups)
  = VInt <$> groups.*2.
Proof.
  intros Hlen. rewrite <- !list_fmap_compose. apply list_fmap_ext.
  intros i g Hg. cbn. eapply Forall_lookup_1 in Hlen; eauto.
  by apply tagged_row_cells.
Qed.

Lemma length_le_zsum (ns : list Z) :
  Forall (λ n, 1 ≤ n) ns → Z.of_nat (length ns) ≤ zsum ns.
Proof.
  induction 1 as [|n ns Hn _ IH]; [done|].
  rewrite zsum_cons. cbn [length]. lia.
Qed.

(** Rows with a missing key value are left out without notice: the counts
    add up to the number of rows whose key is complete, and the output has
    at most that many rows. *)
Theorem remove_dupes_drops_incomplete_keys (df : DataFrame) (source : string)
    (idx : list nat) :
  Frame.get_locs key_cols (columns df) = Ok idx →
  source ∉ key_cols ++ ["occurrences"] →
  ∃ out ns,
    remove_dupes df source = Ok out ∧
    column_cells "occurrences" out = Ok (VInt <$> ns) ∧
    zsum ns = Z.of_nat (length (complete_keys idx df)) ∧
    (shape0 out ≤ length (complete_keys idx df) ≤ shape0 df)%nat.
Proof.
  intros Hidx Hs.
  destruct (remove_dupes_spec df source idx Hidx Hs)
    as (groups & -> & Hperm & Hlen & _).
  destruct (group_sizes_spec (complete_keys idx df))
    as (_ & Hpos & Hsum & _).
  assert (Hz : zsum groups.*2 = Z.of_nat (length (complete_keys idx df))).
  { rewrite <- Hsum. apply zsum_perm. by rewrite Hperm. }
  eexists _, groups.*2. split; [done|]. split; [|split; [done|split]].
  - unfold column_cells. cbn [columns rows].
    rewrite (occurrences_loc source Hs). cbn.
    by rewrite occurrences_of_tagged.
  - unfold shape0. cbn [rows]. rewrite length_fmap.
    assert (Hp : Forall (λ n, 1 ≤ n) groups.*2).
    { apply Forall_fmap. by rewrite Hperm. }
    apply length_le_zsum in Hp. rewrite length_fmap in Hp. lia.
  - unfold complete_keys, shape0.
    rewrite <- (length_fmap (Frame.key_at idx) (rows df)).
    generalize (Frame.key_at idx <$> rows df). intros l.
    induction l as [|k l IH]; cbn; [done|].
    destruct (negb (Frame.has_na k)); cbn; lia.
Qed.

(** The rows come in the order of the sort: larger counts first, and rows
    of equal count by name, for names that are text. *)
Theorem remove_dupes_order (df : DataFrame) (source : string)
    (idx : list nat) :
  Frame.get_locs key_cols (columns df) = Ok idx →
  source ∉ key_cols ++ ["occurrences"] →
  (∀ r, r ∈ rows df → ∃ s, head (Frame.key_at idx r) = Some (VStr s)) →
  ∃ out groups,
    remove_dupes df source = Ok out ∧
    rows out = tagged_row source <$> groups ∧
    Sorted (λ g1 g2,
              g2.2 < g1.2 ∨
              g1.2 = g2.2 ∧
              ∃ s1 s2, head g1.1 = Some (VStr s1) ∧
                       head g2.1 = Some (VStr s2) ∧
                       String.compare s1 s2 ≠ Gt) groups.
Proof.
  intros Hidx Hs Htext.
  destruct (remove_dupes_spec df source idx Hidx Hs)
    as (groups & -> & Hperm & Hlen & Hsorted).
  eexists _, groups. split; [done|]. split; [done|].
  destruct (group_sizes_spec (complete_keys idx df)) as (_ & _ & _ & Hin).
  assert (Hnames : Forall (λ g, length g.1 = 4%nat ∧
                                ∃ s, head g.1 = Some (VStr s)) groups).
  { apply Forall_forall. intros g Hg. split.
    { eapply Forall_forall in Hlen; eauto. }
    assert (Hk : g.1 ∈ complete_keys idx df).
    { apply Hin. rewrite <- Hperm. apply list_elem_of_fmap. by exists g. }
    unfold complete_keys in Hk.
    apply list_elem_of_In, filter_In in Hk as [Hk _].
    apply list_elem_of_In, list_elem_of_fmap in Hk as (r & -> & Hr).
    by apply Htext. }
  revert Hsorted Hnames. clear.
  induction 1 as [|g gs Hgs IH Hhd]; intros Hn; constructor.
  - apply IH. by apply Forall_cons in Hn as [_ ?].
  - destruct Hhd as [|g' gs' Hgg']; constructor.
    apply Forall_cons in Hn as [[L1 [s1 N1]] Hn].
    apply Forall_cons in Hn as [[L2 [s2 N2]] _].
    revert Hgg'. unfold occurrences_name_leb, Frame.rows_leb.
    cbn [Frame.rows_compare].
    destruct (tagged_row_cells source g L1) as (-> & -> & _).
    destruct (tagged_row_cells source g' L2) as (-> & -> & _).
    assert (C1 : Frame.cell_at g.1 0 = VStr s1).
    { unfold Frame.cell_at. destruct g.1; [done|]. cbn in *. congruence. }
    assert (C2 : Frame.cell_at g'.1 0 = VStr s2).
    { unfold Frame.cell_at. destruct g'.1; [done|]. cbn in *. congruence. }
    rewrite C1, C2.
    unfold Frame.dir_compare. cbn [Pandas.isna].
    unfold Frame.cell_compare. cbn [Frame.num_norm].
    destruct (Z.compare_spec g'.2 g.2) as [E|E|E]; [|lia|done].
    intros H. right. split; [done|]. exists s1, s2.
    split; [done|]. split; [done|].
    by destruct (String.compare s1 s2).
Qed.
(** * Lemmas: the merger on any aligned input *)

Lemma concat_same_columns (cols : list string) (dfs : list DataFrame) :
  dfs ≠ [] → (∀ d, d ∈ dfs → columns d = cols) →
  Frame.concat dfs = Ok (mkDF cols (stacked dfs)).
Proof.
  intros Hne Hcols. destruct dfs as [|d ds]; [done|]. unfold Frame.concat.
  assert (Hd : columns d = cols) by (apply Hcols; by left).
  rewrite (proj2 (forallb_forall _ ds)); [by rewrite Hd|].
  intros d' Hd'. apply bool_decide_eq_true. rewrite Hd. apply Hcols.
  right. by apply list_elem_of_In.
Qed.

Lemma hex_strings_chars (n : nat) (s : string) :
  s ∈ hex_strings n →
  String.length s = n ∧ Py.all_chars is_hex_char s = true.
Proof.
  revert s. induction n as [|n IH]; intros s; cbn [hex_strings].
  - by intros ->%list_elem_of_singleton.
  - intros (t & Hs & Ht)%list_elem_of_bind.
    apply list_elem_of_fmap in Hs as (c & -> & Hc).
    destruct (IH t Ht) as [<- Hall]. split; [done|].
    cbn [Py.all_chars]. rewrite Hall. unfold is_hex_char.
    by rewrite bool_decide_true.
Qed.

(** * Further statements about combine_dataframes *)

(** Tables without a [name] column cannot be merged: the sort raises
    [KeyError]. *)
Theorem combine_needs_name_column (kind : Frame.sort_algorithm)
    (cols : list string) (dfs : list DataFrame) :
  dfs ≠ [] → (∀ d, d ∈ dfs → columns d = cols) → "name" ∉ cols →
  combine_dataframes kind dfs = Raise (KeyError "name").
Proof.
  intros Hne Hcols Hname. unfold combine_dataframes.
  rewrite (concat_same_columns cols) by done. cbn [mbind result_bind].
  unfold Frame.sort_values. cbn [columns].
  by rewrite get_loc_absent.
Qed.

(** Names that mix text with numbers cannot be put in order: the sort
    raises [TypeError]. *)
Theorem combine_mixed_names (kind : Frame.sort_algorithm)
    (cols : list string) (i : nat) (dfs : list DataFrame)
    (r1 r2 : list cell) (s : string) (n : Z) :
  (∀ d, d ∈ dfs → columns d = cols) → Frame.get_loc "name" cols = Ok i →
  r1 ∈ stacked dfs → r2 ∈ stacked dfs →
  Frame.cell_at r1 i = VStr s → Frame.cell_at r2 i = VInt n →
  combine_dataframes kind dfs = Raise TypeError.
Proof.
  intros Hcols Hname H1 H2 E1 E2. unfold combine_dataframes.
  rewrite (concat_same_columns cols);
    [|intros ->; by apply elem_of_nil in H1|done].
  cbn [mbind result_bind].
  unfold Frame.sort_values. cbn [columns rows]. rewrite Hname.
  cbn [mbind result_bind].
  set (present := List.filter _ (stacked dfs)).
  assert (P1 : r1 ∈ present).
  { apply list_elem_of_In, filter_In. split; [by apply list_elem_of_In|].
    by rewrite E1. }
  assert (P2 : r2 ∈ present).
  { apply list_elem_of_In, filter_In. split; [by apply list_elem_of_In|].
    by rewrite E2. }
  assert (Frame.comparable ((λ r, Frame.cell_at r i) <$> present) = false)
    as ->; [|done].
  unfold Frame.comparable. apply orb_false_iff. split.
  - apply not_true_iff_false. intros H. rewrite forallb_forall in H.
    specialize (H (VInt n)). cbn in H. discriminate H.
    apply list_elem_of_In, list_elem_of_fmap. by exists r2.
  - apply not_true_iff_false. intros H. rewrite forallb_forall in H.
    specialize (H (VStr s)). cbn in H. discriminate H.
    apply list_elem_of_In, list_elem_of_fmap. by exists r1.
Qed.

(** The merged table leads with the [id] column, and every [id] is a text
    of 32 lowercase hexadecimal digits. *)
Theorem combine_id_column (kind : Frame.sort_algorithm)
    (cols : list string) (i : nat) (dfs : list DataFrame) :
  comparison_sort kind → merge_input cols i dfs →
  ∃ out,
    combine_dataframes kind dfs = Ok out ∧
    columns out = "id" :: cols ∧
    ∀ r, r ∈ rows out →
      length r = S (length cols) ∧
      ∃ s, head r = Some (VStr s) ∧ String.length s = 32%nat ∧
           Py.all_chars is_hex_char s = true.
Proof.
  intros Hk Hin. eexists. split; [by apply (combine_spec cols i)|].
  split; [done|]. cbn [rows].
  intros r (r0 & -> & Hr0)%list_elem_of_fmap. split.
  - cbn [length]. f_equal.
    destruct (Hk _ (name_leb i) (name_leb_total i) (name_leb_trans i)
                (stacked dfs)) as [Hp _].
    rewrite Hp in Hr0. by apply (stacked_rect cols i dfs Hin).
  - eexists. split; [done|].
    apply (hex_strings_chars (16 + 16)), hexdigest_strings.
Qed.

(** The text that is digested names the row: rows that differ in a value
    or in their length never share it. *)
Theorem row_text_reads_back (r1 r2 : list cell) :
  r1 ≠ r2 → PyRepr.str_tuple r1 ≠ PyRepr.str_tuple r2.
Proof. intros Hne E. by apply str_tuple_inj in E. Qed.

(** * The merger on tables that already carry an id *)

Lemma get_loc_of_lookup (l : string) (cols : list string) (j : nat) :
  NoDup cols → cols !! j = Some l → Frame.get_loc l cols = Ok j.
Proof.
  intros Hnd Hj. unfold Frame.get_loc.
  destruct (locs_present l cols 0 Hnd) as [i Hi].
  { by eapply list_elem_of_lookup_2. }
  rewrite Hi. f_equal.
  assert (Hin : i ∈ Frame.locs l cols 0) by (rewrite Hi; by left).
  apply locs_elem in Hin as [_ Hin]. rewrite Nat.sub_0_r in Hin.
  by apply (NoDup_lookup cols i j l).
Qed.

Lemma setitem_row_existing (l : string) (v : cell) (cols : list string)
    (r : list cell) (j : nat) :
  NoDup cols → cols !! j = Some l → length r = length cols →
  Frame.setitem_row l v cols r = <[j := v]> r.
Proof.
  intros Hnd Hj Hlen. unfold Frame.setitem_row, Pandas.has_label.
  rewrite bool_decide_true by (by eapply list_elem_of_lookup_2).
  apply list_eq. intros k. rewrite map_row_lookup.
  destruct (decide (k = j)) as [->|Hk].
  - rewrite Hj. rewrite list_lookup_insert_eq.
    2:{ rewrite Hlen. by eapply lookup_lt_Some. }
    destruct (r !! j) eqn:E.
    + unfold Pandas.on_labels, Pandas.has_label.
      by rewrite bool_decide_true by (by left).
    + apply lookup_ge_None in E. apply lookup_lt_Some in Hj. lia.
  - rewrite list_lookup_insert_ne by done.
    destruct (cols !! k) as [l'|] eqn:El; [|done].
    destruct (r !! k) as [c|] eqn:Ec; [|done].
    unfold Pandas.on_labels, Pandas.has_label.
    rewrite bool_decide_false; [done|].
    intros ->%list_elem_of_singleton. apply Hk.
    by apply (NoDup_lookup cols k j l).
Qed.

Lemma delete_insert_same {A} (l : list A) (j : nat) (x : A) :
  delete j (<[j := x]> l) = delete j l.
Proof.
  revert j. induction l as [|y l IH]; intros [|j]; cbn; try done.
  f_equal. apply IH.
Qed.

Lemma sort_values_text (kind : Frame.sort_algorithm) (cols : list string)
    (i : nat) (body : list (list cell)) :
  Frame.get_loc "name" cols = Ok i →
  (∀ r, r ∈ body → ∃ s, Frame.cell_at r i = VStr s) →
  Frame.sort_values kind "name" (mkDF cols body) =
  Ok (mkDF cols (kind _ (name_leb i) body)).
Proof.
  intros Hname Ht.
  unfold Frame.sort_values, mbind, result_bind. cbn [columns rows].
  rewrite Hname. rewrite (filter_all _ body).
  2:{ intros r Hr. destruct (Ht r Hr) as [s ->]. done. }
  assert (Hnone : List.filter (λ r, Pandas.isna (Frame.cell_at r i)) body = []).
  { revert Ht. clear. intros Ht.
    induction body as [|r l IH]; cbn; [done|].
    destruct (Ht r ltac:(by left)) as [s ->]. cbn. apply IH.
    intros r' Hr'. apply Ht. by right. }
  rewrite Hnone, app_nil_r.
  assert (Hcmp : Frame.comparable ((λ r, Frame.cell_at r i) <$> body) = true).
  { unfold Frame.comparable. apply orb_true_iff. left.
    apply forallb_forall. intros c Hc.
    apply list_elem_of_In, list_elem_of_fmap in Hc as (r & -> & Hr).
    by destruct (Ht r Hr) as [s ->]. }
  by rewrite Hcmp.
Qed.

(** An [id] column of the input is not kept: the new [id] digests the whole
    input row, the old [id] with it, and takes the place in front. *)
Theorem combine_replaces_id (kind : Frame.sort_algorithm)
    (cols : list string) (i j : nat) (dfs : list DataFrame) :
  comparison_sort kind →
  dfs ≠ [] → (∀ d, d ∈ dfs → columns d = cols) → NoDup cols →
  cols !! j = Some "id" → Frame.get_loc "name" cols = Ok i →
  (∀ r, r ∈ stacked dfs →
        length r = length cols ∧ ∃ s, Frame.cell_at r i = VStr s) →
  combine_dataframes kind dfs =
  Ok (mkDF ("id" :: delete j cols)
        ((λ r, row_id r :: delete j r) <$> kind _ (name_leb i) (stacked dfs))).
Proof.
  intros Hk Hne Hcols Hnd Hj Hname Hrows. unfold combine_dataframes.
  rewrite (concat_same_columns cols) by done. cbn [mbind result_bind].
  rewrite (sort_values_text kind cols i) by (done || intros r Hr; by apply Hrows).
  cbn [mbind result_bind rows].
  destruct (Hk _ (name_leb i) (name_leb_total i) (name_leb_trans i)
              (stacked dfs)) as [Hp _].
  set (body := kind _ (name_leb i) (stacked dfs)) in *.
  assert (Hbody : ∀ r, r ∈ body → length r = length cols).
  { intros r Hr. rewrite Hp in Hr. by apply Hrows. }
  assert (Hjlt : (j < length cols)%nat) by (by eapply lookup_lt_Some).
  unfold Frame.setitem_values. cbn [columns rows].
  unfold Pandas.has_label at 1.
  rewrite bool_decide_true by (by eapply list_elem_of_lookup_2).
  rewrite zip_with_fmap_diag.
  unfold Frame.pop, mbind, result_bind, mret, result_ret. cbn [columns rows].
  rewrite (get_loc_of_lookup "id" cols j Hnd Hj).
  unfold Frame.insert0. cbn [columns rows]. f_equal. f_equal.
  rewrite <- !list_fmap_compose.
  apply list_eq. intros k.
  rewrite lookup_zip_with, !list_lookup_fmap.
  destruct (body !! k) as [r|] eqn:E; cbn; [|done].
  assert (Hr : length r = length cols)
    by (apply Hbody; by eapply list_elem_of_lookup_2).
  rewrite (setitem_row_existing "id" _ cols r j Hnd Hj Hr).
  unfold Frame.cell_at. rewrite list_lookup_insert_eq by lia. cbn.
  by rewrite delete_insert_same.
Qed.
(** * Lemmas: the pipeline of main *)

Lemma get_locs_key_cols (rest : list string) :
  (∀ l, l ∈ rest → l ∉ key_cols) →
  Frame.get_locs key_cols (key_cols ++ rest) = Ok [0; 1; 2; 3]%nat.
Proof.
  intros Hrest.
  assert (Hloc : ∀ l i, l ∈ key_cols → Frame.locs l key_cols 0 = [i] →
                        Frame.get_loc l (key_cols ++ rest) = Ok i).
  { intros l i Hl Hi. unfold Frame.get_loc. rewrite locs_app, Hi.
    rewrite locs_nil; [done|]. intros H. by apply (Hrest l). }
  unfold Frame.get_locs, key_cols at 1.
  rewrite (Hloc "name" 0%nat), (Hloc "address" 1%nat),
    (Hloc "city" 2%nat), (Hloc "zip" 3%nat); try reflexivity.
  all: unfold key_cols; rewrite !elem_of_cons; auto.
Qed.

(** One source, cleaned and deduplicated. *)
Lemma clean_then_dedupe (d : DataFrame) (source : string) :
  distinct_labels d → text_cells d → rectangular d →
  source ∉ key_cols ++ ["occurrences"] →
  ∃ d3 t groups,
    updated_in_place d = Ok d3 ∧ finished d3 = Ok t ∧
    remove_dupes t source =
      Ok (mkDF (key_cols ++ ["occurrences"; "file1"; other_label source])
            (tagged_row source <$> groups)) ∧
    Forall (λ g, length g.1 = 4%nat ∧ 1 ≤ g.2 ∧
                 ∃ s, Frame.cell_at g.1 0 = VStr s) groups ∧
    NoDup (norm_key <$> groups.*1) ∧
    zsum groups.*2 = Z.of_nat (shape0 d).
Proof.
  intros Hd Ht Hrect Hs.
  destruct (clean_spec d Hd Ht Hrect)
    as (d1 & rest & d3 & t & E1 & Ec & Hrest & Hnd & E3 & Et & -> & ->).
  assert (Hlen : length (columns d1) = length (columns d)).
  { apply renamed_inv in E1 as (c0 & c1 & c2 & c3 & rest' & _ & -> & _).
    by rewrite length_fmap. }
  set (t := mkDF (columns d1)
              (Pandas.map_row clean_cell (columns d1) <$> rows d)).
  assert (Hidx : Frame.get_locs key_cols (columns t) = Ok [0; 1; 2; 3]%nat).
  { cbn [columns t]. rewrite Ec. by apply get_locs_key_cols. }
  assert (Hrows : ∀ row, row ∈ rows t →
            ∃ n a c z tl, row = VStr n :: VStr a :: VStr c :: z :: tl ∧
                          Pandas.isna z = false).
  { intros row (row0 & -> & H0)%list_elem_of_fmap. rewrite Ec.
    destruct (clean_row_cells rest row0) as (n & a & c & z & tl & E & _ & Hz).
    - by rewrite (Hrect row0 H0), <- Hlen, Ec.
    - by apply Ht.
    - rewrite E. eauto 10. }
  assert (Hkeys : complete_keys [0; 1; 2; 3]%nat t
                  = Frame.key_at [0; 1; 2; 3]%nat <$> rows t).
  { unfold complete_keys. apply filter_all.
    intros k (row & -> & Hrow)%list_elem_of_fmap.
    destruct (Hrows row Hrow) as (n & a & c & z & tl & -> & Hz).
    cbn. by rewrite Hz. }
  destruct (remove_dupes_spec t source _ Hidx Hs)
    as (groups & Eout & Hperm & Hl4 & _).
  destruct (group_sizes_spec (complete_keys [0; 1; 2; 3]%nat t))
    as (Hnd' & Hpos & Hsum & Hin).
  exists (mkDF (columns d1)
            (Pandas.map_row in_place_cell (columns d1) <$> rows d)), t, groups.
  split; [done|]. split; [done|]. split; [done|]. split; [|split].
  - apply Forall_forall. intros g Hg. split; [|split].
    + eapply Forall_forall in Hl4; eauto.
    + rewrite Hperm in Hg. eapply Forall_forall in Hpos; eauto.
    + assert (Hk : g.1 ∈ complete_keys [0; 1; 2; 3]%nat t).
      { apply Hin. rewrite <- Hperm. apply list_elem_of_fmap. by exists g. }
      rewrite Hkeys in Hk. apply list_elem_of_fmap in Hk as (row & -> & Hrow).
      destruct (Hrows row Hrow) as (n & a & c & z & tl & -> & Hz).
      by exists n.
  - by rewrite Hperm.
  - rewrite (zsum_perm _ _ (fmap_Permutation snd _ _ Hperm)), Hsum, Hkeys.
    rewrite length_fmap. unfold t, shape0. cbn [rows].
    by rewrite length_fmap.
Qed.

Lemma tagged_row_length (source : string) (g : list cell * Z) :
  length g.1 = 4%nat → length (tagged_row source g) = 7%nat.
Proof. intros H. unfold tagged_row. rewrite length_app, H. done. Qed.

(** The two deduplicated tables are an input the merger accepts. *)
Lemma dedup_merge_input (g1 g2 : list (list cell * Z)) :
  Forall (λ g, length g.1 = 4%nat ∧ 1 ≤ g.2 ∧
               ∃ s, Frame.cell_at g.1 0 = VStr s) g1 →
  Forall (λ g, length g.1 = 4%nat ∧ 1 ≤ g.2 ∧
               ∃ s, Frame.cell_at g.1 0 = VStr s) g2 →
  merge_input dedup_cols 0
    [mkDF dedup_cols (tagged_row "file1" <$> g1);
     mkDF dedup_cols (tagged_row "file2" <$> g2)].
Proof.
  intros H1 H2.
  assert (Hrow : ∀ d r,
    d ∈ [mkDF dedup_cols (tagged_row "file1" <$> g1);
         mkDF dedup_cols (tagged_row "file2" <$> g2)] → r ∈ rows d →
    ∃ source g, r = tagged_row source g ∧ length g.1 = 4%nat ∧
                ∃ s, Frame.cell_at g.1 0 = VStr s).
  { intros d r Hd Hr. elem_cases Hd; cbn [rows] in Hr;
      apply list_elem_of_fmap in Hr as (g & -> & Hg).
    - eapply Forall_forall in H1 as (? & _ & ?); eauto.
    - eapply Forall_forall in H2 as (? & _ & ?); eauto. }
  split.
  - done.
  - intros d Hd. elem_cases Hd; reflexivity.
  - intros d r Hd Hr.
    destruct (Hrow d r Hd Hr) as (source & g & -> & Hl & _).
    by rewrite tagged_row_length.
  - decide_by_computation.
  - reflexivity.
  - intros d r Hd Hr.
    destruct (Hrow d r Hd Hr) as (source & g & -> & Hl & s & Hs).
    exists s. destruct (tagged_row_cells source g Hl) as (_ & -> & _). done.
Qed.

Lemma alloc_run (d : DataFrame) (h : heap) :
  alloc d h = (h ++ [d], Ok (length h)).
Proof. reflexivity. Qed.

(** The run of [read_source_files] when both files can be read. *)
Lemma read_source_files_run (read_csv : string → result DataFrame)
    (h : heap) (d1 d2 : DataFrame) :
  read_csv "data/file1.csv" = Ok d1 → read_csv "data/file2.csv" = Ok d2 →
  read_source_files read_csv h =
    (h ++ [d1; d2], Ok [("file1", length h); ("file2", S (length h))]).
Proof.
  intros E1 E2. unfold read_source_files, SOURCE_FILES. cbn [read_files].
  assert (file_name "data/file1.csv" = Ok "file1") as -> by reflexivity.
  assert (file_name "data/file2.csv" = Ok "file2") as -> by reflexivity.
  rewrite E1, E2. unfold mbind, M_bind, lift, alloc, mret, M_ret.
  cbn [dict_set]. rewrite bool_decide_false by done.
  rewrite length_app, <- app_assoc. cbn [length app].
  by rewrite Nat.add_1_r.
Qed.

(** One turn of the loop of [main]. *)
Lemma clean_and_dedupe_step (h : heap) (file : string) (r : ref)
    (d d3 t o : DataFrame) (source_data : list (string * ref))
    (finalized_dfs : list DataFrame) :
  h !! r = Some d → updated_in_place d = Ok d3 → finished d3 = Ok t →
  remove_dupes t file = Ok o →
  clean_and_dedupe ((file, r) :: source_data) finalized_dfs h =
  clean_and_dedupe source_data (finalized_dfs ++ [o]) (<[r := d3]> h ++ [t]).
Proof.
  intros Hr E3 Et Eo. cbn [clean_and_dedupe].
  rewrite (bind_ok _ _ _ _ _ (clean_data_returns h r d d3 t Hr E3 Et)).
  rewrite (bind_ok _ _ _ (<[r := d3]> h ++ [t]) t).
  2:{ apply load_run. rewrite lookup_app_r by (by rewrite length_insert).
      by rewrite length_insert, Nat.sub_diag. }
  rewrite (bind_ok _ _ _ (<[r := d3]> h ++ [t]) o); [done|].
  by rewrite lift_run, Eo.
Qed.

(** The run of [main] on two tables of text. *)
Lemma main_spec (kind : Frame.sort_algorithm)
    (read_csv : string → result DataFrame) (h : heap) (d1 d2 : DataFrame) :
  comparison_sort kind →
  read_csv "data/file1.csv" = Ok d1 → read_csv "data/file2.csv" = Ok d2 →
  distinct_labels d1 → text_cells d1 → rectangular d1 →
  distinct_labels d2 → text_cells d2 → rectangular d2 →
  ∃ u1 u2 t1 t2 g1 g2,
    updated_in_place d1 = Ok u1 ∧ finished u1 = Ok t1 ∧
    updated_in_place d2 = Ok u2 ∧ finished u2 = Ok t2 ∧
    remove_dupes t1 "file1" = Ok (mkDF dedup_cols (tagged_row "file1" <$> g1)) ∧
    remove_dupes t2 "file2" = Ok (mkDF dedup_cols (tagged_row "file2" <$> g2)) ∧
    Forall (λ g, length g.1 = 4%nat ∧ 1 ≤ g.2 ∧
                 ∃ s, Frame.cell_at g.1 0 = VStr s) g1 ∧
    Forall (λ g, length g.1 = 4%nat ∧ 1 ≤ g.2 ∧
                 ∃ s, Frame.cell_at g.1 0 = VStr s) g2 ∧
    zsum g1.*2 = Z.of_nat (shape0 d1) ∧ zsum g2.*2 = Z.of_nat (shape0 d2) ∧
    main kind read_csv h =
      (h ++ [u1; u2; t1; t2],
       Ok (mkDF ("id" :: dedup_cols)
             ((λ r, row_id r :: r) <$>
              kind _ (name_leb 0)
                ((tagged_row "file1" <$> g1) ++ (tagged_row "file2" <$> g2))))).
Proof.
  intros Hk E1 E2 Hd1 Ht1 Hr1 Hd2 Ht2 Hr2.
  assert (Hs1 : "file1" ∉ key_cols ++ ["occurrences"])
    by decide_by_computation.
  assert (Hs2 : "file2" ∉ key_cols ++ ["occurrences"])
    by decide_by_computation.
  destruct (clean_then_dedupe d1 "file1" Hd1 Ht1 Hr1 Hs1)
    as (u1 & t1 & g1 & Eu1 & Et1 & Eo1 & Hg1 & _ & Hz1).
  destruct (clean_then_dedupe d2 "file2" Hd2 Ht2 Hr2 Hs2)
    as (u2 & t2 & g2 & Eu2 & Et2 & Eo2 & Hg2 & _ & Hz2).
  exists u1, u2, t1, t2, g1, g2.
  do 10 (split; [done|]).
  unfold main.
  rewrite (bind_ok _ _ _ _ _ (read_source_files_run read_csv h d1 d2 E1 E2)).
  assert (H01 : (h ++ [d1; d2]) !! length h = Some d1).
  { rewrite lookup_app_r by lia. by rewrite Nat.sub_diag. }
  assert (Hh1 : <[length h := u1]> (h ++ [d1; d2]) ++ [t1]
                = h ++ [u1; d2; t1]).
  { rewrite <- (Nat.add_0_r (length h)) at 1. rewrite insert_app_r.
    by rewrite <- app_assoc. }
  assert (H02 : (h ++ [u1; d2; t1]) !! S (length h) = Some d2).
  { rewrite lookup_app_r by lia.
    by replace (S (length h) - length h)%nat with 1%nat by lia. }
  assert (Hh2 : <[S (length h) := u2]> (h ++ [u1; d2; t1]) ++ [t2]
                = h ++ [u1; u2; t1; t2]).
  { rewrite <- (Nat.add_1_r (length h)). rewrite insert_app_r.
    by rewrite <- app_assoc. }
  assert (Hrun : clean_and_dedupe
                   [("file1", length h); ("file2", S (length h))] []
                   (h ++ [d1; d2]) =
                 (h ++ [u1; u2; t1; t2],
                  Ok [mkDF dedup_cols (tagged_row "file1" <$> g1);
                      mkDF dedup_cols (tagged_row "file2" <$> g2)])).
  { rewrite (clean_and_dedupe_step _ "file1" (length h) d1 u1 t1 _ _ _
               H01 Eu1 Et1 Eo1), Hh1.
    rewrite (clean_and_dedupe_step _ "file2" (S (length h)) d2 u2 t2 _ _ _
               H02 Eu2 Et2 Eo2), Hh2.
    done. }
  rewrite (bind_ok _ _ _ _ _ Hrun). rewrite lift_run. f_equal.
  rewrite (combine_spec dedup_cols 0 _ (dedup_merge_input g1 g2 Hg1 Hg2) kind Hk).
  unfold stacked. rewrite !fmap_cons, fmap_nil. cbn [mjoin list_join rows].
  by rewrite app_nil_r.
Qed.

Lemma zsum_app (l1 l2 : list Z) : zsum (l1 ++ l2) = zsum l1 + zsum l2.
Proof.
  induction l1 as [|n l1 IH]; [done|]. cbn [app]. rewrite !zsum_cons, IH. lia.
Qed.

Lemma tagged_rows_elem (g1 g2 : list (list cell * Z)) (r : list cell) :
  Forall (λ g, length g.1 = 4%nat ∧ 1 ≤ g.2 ∧
               ∃ s, Frame.cell_at g.1 0 = VStr s) g1 →
  Forall (λ g, length g.1 = 4%nat ∧ 1 ≤ g.2 ∧
               ∃ s, Frame.cell_at g.1 0 = VStr s) g2 →
  r ∈ (tagged_row "file1" <$> g1) ++ (tagged_row "file2" <$> g2) →
  ∃ source g, (source = "file1" ∨ source = "file2") ∧
              r = tagged_row source g ∧ length g.1 = 4%nat ∧ 1 ≤ g.2.
Proof.
  intros H1 H2 [Hr|Hr]%elem_of_app;
    apply list_elem_of_fmap in Hr as (g & -> & Hg).
  - eapply Forall_forall in H1 as (? & ? & _); eauto 10.
  - eapply Forall_forall in H2 as (? & ? & _); eauto 10.
Qed.

(** * Statements about main and read_source_files *)

(** When both files can be read, [read_source_files] returns their tables
    as two new objects under the keys [file1] and [file2], in this order:
    the identifiers that [remove_dupes] tests for. *)
Theorem read_source_files_tables (read_csv : string → result DataFrame)
    (h : heap) (d1 d2 : DataFrame) :
  read_csv "data/file1.csv" = Ok d1 → read_csv "data/file2.csv" = Ok d2 →
  read_source_files read_csv h =
    (h ++ [d1; d2], Ok [("file1", length h); ("file2", S (length h))]).
Proof. apply read_source_files_run. Qed.

(** A file that cannot be read stops [main] with the reader's exception
    before any table is cleaned: the store holds at most the first table,
    as it was read. *)
Theorem main_read_error (kind : Frame.sort_algorithm)
    (read_csv : string → result DataFrame) (h : heap) (e : exn) :
  read_csv "data/file1.csv" = Raise e ∨
  (∃ d1, read_csv "data/file1.csv" = Ok d1 ∧
         read_csv "data/file2.csv" = Raise e) →
  ∃ h', main kind read_csv h = (h', Raise e) ∧
        (h' = h ∨ ∃ d1, read_csv "data/file1.csv" = Ok d1 ∧ h' = h ++ [d1]).
Proof.
  assert (N1 : file_name "data/file1.csv" = Ok "file1") by reflexivity.
  assert (N2 : file_name "data/file2.csv" = Ok "file2") by reflexivity.
  intros [E1 | (d1 & E1 & E2)].
  - exists h. split; [|by left].
    unfold main, read_source_files, SOURCE_FILES. cbn [read_files].
    rewrite N1, E1. reflexivity.
  - exists (h ++ [d1]). split; [|right; eauto].
    unfold main, read_source_files, SOURCE_FILES. cbn [read_files].
    rewrite N1, N2, E1, E2. reflexivity.
Qed.

(** On two tables of text [main] returns.  The table it hands to [to_csv]
    has the columns id, name, address, city, zip, occurrences, file1, file2
    and is sorted by name; every row carries its digest, a count of at
    least 1 and exactly one true source flag. *)
Theorem main_output_rows (kind : Frame.sort_algorithm)
    (read_csv : string → result DataFrame) (h : heap) (d1 d2 : DataFrame) :
  comparison_sort kind →
  read_csv "data/file1.csv" = Ok d1 → read_csv "data/file2.csv" = Ok d2 →
  distinct_labels d1 → text_cells d1 → rectangular d1 →
  distinct_labels d2 → text_cells d2 → rectangular d2 →
  ∃ h' out,
    main kind read_csv h = (h', Ok out) ∧
    columns out = "id" :: dedup_cols ∧
    sorted_by_name out ∧
    ∀ r, r ∈ rows out →
      ∃ key n b,
        r = row_id (key ++ [VInt n; VBool b; VBool (negb b)]) ::
            key ++ [VInt n; VBool b; VBool (negb b)] ∧
        length key = 4%nat ∧ 1 ≤ n.
Proof.
  intros Hk E1 E2 Hd1 Ht1 Hr1 Hd2 Ht2 Hr2.
  destruct (main_spec kind read_csv h d1 d2 Hk E1 E2 Hd1 Ht1 Hr1 Hd2 Ht2 Hr2)
    as (u1 & u2 & t1 & t2 & g1 & g2 & _ & _ & _ & _ & _ & _ & Hg1 & Hg2 & _ & _
        & ->).
  destruct (Hk _ (name_leb 0) (name_leb_total 0) (name_leb_trans 0)
              ((tagged_row "file1" <$> g1) ++ (tagged_row "file2" <$> g2)))
    as [Hp Hsorted].
  eexists _, _. split; [done|]. split; [done|]. split.
  { exists 1%nat. split; [reflexivity|]. cbn [rows].
    eapply Sorted_fmap; [|exact Hsorted]. by intros r1 r2. }
  cbn [rows]. intros r (r0 & -> & H0)%list_elem_of_fmap.
  rewrite Hp in H0.
  destruct (tagged_rows_elem g1 g2 r0 Hg1 Hg2 H0)
    as (source & g & _ & -> & Hl & Hn).
  exists g.1, g.2, (bool_decide (source = "file1")). done.
Qed.

(** No row of either file is lost on the way: the counts of the final table
    add up to the number of rows of the two files. *)
Theorem main_counts_every_row (kind : Frame.sort_algorithm)
    (read_csv : string → result DataFrame) (h : heap) (d1 d2 : DataFrame) :
  comparison_sort kind →
  read_csv "data/file1.csv" = Ok d1 → read_csv "data/file2.csv" = Ok d2 →
  distinct_labels d1 → text_cells d1 → rectangular d1 →
  distinct_labels d2 → text_cells d2 → rectangular d2 →
  ∃ h' out ns,
    main kind read_csv h = (h', Ok out) ∧
    column_cells "occurrences" out = Ok (VInt <$> ns) ∧
    zsum ns = Z.of_nat (shape0 d1 + shape0 d2) ∧
    (shape0 out ≤ shape0 d1 + shape0 d2)%nat.
Proof.
  intros Hk E1 E2 Hd1 Ht1 Hr1 Hd2 Ht2 Hr2.
  destruct (main_spec kind read_csv h d1 d2 Hk E1 E2 Hd1 Ht1 Hr1 Hd2 Ht2 Hr2)
    as (u1 & u2 & t1 & t2 & g1 & g2 & _ & _ & _ & _ & _ & _ & Hg1 & Hg2 & Hz1
        & Hz2 & ->).
  set (body := (tagged_row "file1" <$> g1) ++ (tagged_row "file2" <$> g2)).
  destruct (Hk _ (name_leb 0) (name_leb_total 0) (name_leb_trans 0) body)
    as [Hp _].
  set (count := λ r : list cell,
                  match Frame.cell_at r 4 with VInt n => n | _ => 0 end).
  assert (Hcount : ∀ source g, length g.1 = 4%nat →
                               count (tagged_row source g) = g.2).
  { intros source g Hl. unfold count.
    by destruct (tagged_row_cells source g Hl) as (-> & _). }
  assert (Hsum : zsum (count <$> body) = Z.of_nat (shape0 d1 + shape0 d2)).
  { unfold body. rewrite fmap_app, zsum_app, <- !list_fmap_compose.
    rewrite (list_fmap_ext (count ∘ tagged_row "file1") snd g1).
    2:{ intros i g Hg. cbn. apply Hcount.
        eapply Forall_lookup_1 in Hg1 as [? _]; eauto. }
    rewrite (list_fmap_ext (count ∘ tagged_row "file2") snd g2).
    2:{ intros i g Hg. cbn. apply Hcount.
        eapply Forall_lookup_1 in Hg2 as [? _]; eauto. }
    rewrite Hz1, Hz2. lia. }
  eexists _, _, (count <$> kind _ (name_leb 0) body).
  split; [done|]. split; [|split].
  - unfold column_cells. cbn [columns].
    assert (Frame.get_loc "occurrences" ("id" :: dedup_cols) = Ok 5%nat)
      as -> by reflexivity.
    cbn [mbind result_bind mret result_ret rows columns]. f_equal.
    rewrite <- !list_fmap_compose. apply list_fmap_ext. intros i r Hr.
    apply list_elem_of_lookup_2 in Hr. rewrite Hp in Hr.
    destruct (tagged_rows_elem g1 g2 r Hg1 Hg2 Hr)
      as (source & g & _ & -> & Hl & _).
    cbn. rewrite (Hcount source g Hl).
    change (Frame.cell_at (tagged_row source g) 4 = VInt g.2).
    by destruct (tagged_row_cells source g Hl) as (-> & _).
  - rewrite <- Hsum. apply zsum_perm. by rewrite Hp.
  - unfold shape0. cbn [rows]. rewrite length_fmap, Hp. unfold body.
    rewrite length_app, !length_fmap.
    assert (Hle : ∀ gs : list (list cell * Z),
              Forall (λ g, length g.1 = 4%nat ∧ 1 ≤ g.2 ∧
                           ∃ s, Frame.cell_at g.1 0 = VStr s) gs →
              Z.of_nat (length gs) ≤ zsum gs.*2).
    { intros gs Hgs. rewrite <- (length_fmap snd gs). apply length_le_zsum.
      apply Forall_fmap. eapply Forall_impl; [exact Hgs|].
      by intros g (_ & ? & _). }
    pose proof (Hle g1 Hg1). pose proof (Hle g2 Hg2).
    unfold shape0 in Hz1, Hz2. lia.
Qed.

Lemma clean_table_returns (d u t : DataFrame) :
  updated_in_place d = Ok u → finished u = Ok t → clean_table d = Ok t.
Proof.
  intros Eu Et. unfold clean_table.
  by rewrite (clean_data_returns [d] 0%nat d u t eq_refl Eu Et).
Qed.

(** [main] is the three functions in a row, and the sources stay apart: the
    final table holds the deduplicated rows of [file1] and those of [file2]
    side by side, so a record that is in both files is there twice, once
    under each flag. *)
Theorem main_keeps_sources_apart (kind : Frame.sort_algorithm)
    (read_csv : string → result DataFrame) (h : heap) (d1 d2 : DataFrame) :
  comparison_sort kind →
  read_csv "data/file1.csv" = Ok d1 → read_csv "data/file2.csv" = Ok d2 →
  distinct_labels d1 → text_cells d1 → rectangular d1 →
  distinct_labels d2 → text_cells d2 → rectangular d2 →
  ∃ h' out t1 t2 o1 o2,
    main kind read_csv h = (h', Ok out) ∧
    clean_table d1 = Ok t1 ∧ remove_dupes t1 "file1" = Ok o1 ∧
    clean_table d2 = Ok t2 ∧ remove_dupes t2 "file2" = Ok o2 ∧
    combine_dataframes kind [o1; o2] = Ok out ∧
    without_id out ≡ₚ rows o1 ++ rows o2 ∧
    shape0 out = (shape0 o1 + shape0 o2)%nat.
Proof.
  intros Hk E1 E2 Hd1 Ht1 Hr1 Hd2 Ht2 Hr2.
  destruct (main_spec kind read_csv h d1 d2 Hk E1 E2 Hd1 Ht1 Hr1 Hd2 Ht2 Hr2)
    as (u1 & u2 & t1 & t2 & g1 & g2 & Eu1 & Et1 & Eu2 & Et2 & Eo1 & Eo2 & Hg1
        & Hg2 & _ & _ & ->).
  destruct (Hk _ (name_leb 0) (name_leb_total 0) (name_leb_trans 0)
              ((tagged_row "file1" <$> g1) ++ (tagged_row "file2" <$> g2)))
    as [Hp _].
  eexists _, _, t1, t2, _, _. split; [done|].
  split; [by apply (clean_table_returns d1 u1)|]. split; [exact Eo1|].
  split; [by apply (clean_table_returns d2 u2)|]. split; [exact Eo2|].
  split; [|split].
  - rewrite (combine_spec dedup_cols 0 _ (dedup_merge_input g1 g2 Hg1 Hg2)
               kind Hk).
    unfold stacked. rewrite !fmap_cons, fmap_nil. cbn [mjoin list_join rows].
    by rewrite app_nil_r.
  - unfold without_id. cbn [rows]. by rewrite tail_with_id.
  - unfold shape0. cbn [rows]. by rewrite length_fmap, Hp, length_app.
Qed.

(** What [clean_data] returns is what [remove_dupes] expects: on a table of
    text the returned table has each key column once and no key value
    missing, so deduplicating it raises nothing and leaves no row out. *)
Theorem clean_output_normalized (d : DataFrame) (source : string) :
  distinct_labels d → text_cells d → rectangular d →
  source ∉ key_cols ++ ["occurrences"] →
  ∃ t out ns,
    clean_table d = Ok t ∧ normalized t ∧
    remove_dupes t source = Ok out ∧
    column_cells "occurrences" out = Ok (VInt <$> ns) ∧
    zsum ns = Z.of_nat (shape0 d).
Proof.
  intros Hd Ht Hrect Hs.
  destruct (clean_then_dedupe d source Hd Ht Hrect Hs)
    as (u & t & groups & Eu & Et & Eo & Hg & _ & Hz).
  destruct (clean_spec d Hd Ht Hrect)
    as (d1 & rest & u' & t' & E1 & Ec & Hrest & Hnd & Eu' & Et' & -> & ->).
  assert (t = mkDF (columns d1)
                (Pandas.map_row clean_cell (columns d1) <$> rows d)) as ->
    by congruence.
  assert (Hlen : length (columns d1) = length (columns d)).
  { apply renamed_inv in E1 as (c0 & c1 & c2 & c3 & rest' & _ & -> & _).
    by rewrite length_fmap. }
  eexists _, _, groups.*2.
  split; [by apply (clean_table_returns d _ _ Eu Et)|]. split; [|split; [exact Eo|]].
  - exists [0; 1; 2; 3]%nat. cbn [columns rows]. split.
    + rewrite Ec. by apply get_locs_key_cols.
    + intros row (row0 & -> & H0)%list_elem_of_fmap. rewrite Ec.
      destruct (clean_row_cells rest row0) as (n & a & c & z & tl & -> & _ & Hz').
      * by rewrite (Hrect row0 H0), <- Hlen, Ec.
      * by apply Ht.
      * cbn. by rewrite Hz'.
  - split; [|done]. unfold column_cells. cbn [columns rows].
    rewrite (occurrences_loc source Hs). cbn.
    rewrite occurrences_of_tagged; [done|].
    eapply Forall_impl; [exact Hg|]. by intros g [? _].
Qed.
(** * The default sort on short arrays

    Up to 17 elements [npy_aquicksort] never partitions: the array is
    sorted by its insertion sort alone, which moves an element to the left
    only past elements that are greater. *)

Lemma stable_sort_ext {A} (leb1 leb2 : A → A → bool) (l : list A) :
  (∀ x y, leb1 x y = leb2 x y) →
  Frame.stable_sort leb1 l = Frame.stable_sort leb2 l.
Proof.
  intros H. induction l as [|x l IH]; cbn; [done|]. rewrite IH.
  generalize (Frame.stable_sort leb2 l). intros l'.
  induction l' as [|y l' IH']; cbn; [done|]. by rewrite H, IH'.
Qed.

Lemma insert_sorted_length {A} (leb : A → A → bool) (x : A) (l : list A) :
  length (Frame.insert_sorted leb x l) = S (length l).
Proof. by rewrite (Permutation_length (insert_sorted_perm leb x l)). Qed.

Section insertion.
Context {A : Type} (less : A → A → bool).


(** The inner loop moves [vi] to its place in the sorted part [pre]; what
    stands at the place of [vi] at the start does not matter. *)
Lemma shift_up_spec (fuel : nat) (pre : list A) (g vi : A) (post : list A) :
  (length pre ≤ fuel)%nat →
  Numpy.shift_up less fuel (pre ++ g :: post) vi 0 (length pre) =
  rev (Frame.insert_sorted (λ x y, negb (less x y)) vi (rev pre)) ++ post.
Proof.
  revert fuel g post. induction pre as [|x pre IH] using rev_ind;
    intros fuel g post Hfuel.
  - destruct fuel; reflexivity.
  - rewrite length_app in Hfuel. cbn [length] in Hfuel.
    destruct fuel as [|fuel]; [lia|].
    rewrite rev_app_distr. cbn [rev app Frame.insert_sorted].
    cbn [Numpy.shift_up].
    assert (Hpos : (0 <? length (pre ++ [x]))%nat = true).
    { apply Nat.ltb_lt. rewrite length_app. cbn. lia. }
    rewrite Hpos.
    assert (Hpj : (length (pre ++ [x]) - 1)%nat = length pre).
    { rewrite length_app. cbn. lia. }
    rewrite Hpj.
    assert (Hx : ((pre ++ [x]) ++ g :: post) !! length pre = Some x).
    { rewrite <- app_assoc. by apply (list_lookup_middle pre (g :: post) x). }
    rewrite Hx.
    assert (Hins : ∀ v, <[length (pre ++ [x]) := v]> ((pre ++ [x]) ++ g :: post)
                        = pre ++ x :: v :: post).
    { intros v. rewrite insert_app_r_alt by lia.
      rewrite Nat.sub_diag. cbn. by rewrite <- app_assoc. }
    rewrite !Hins.
    destruct (less vi x); cbn [negb].
    + rewrite (IH fuel x (x :: post)) by lia.
      cbn [rev]. by rewrite <- app_assoc.
    + cbn [rev]. rewrite rev_involutive. by rewrite <- !app_assoc.
Qed.

Lemma insertion_loop_spec (fuel : nat) (pre rest : list A) (pr : nat) :
  (length rest ≤ fuel)%nat → pre ≠ [] →
  pr = (length pre + length rest - 1)%nat →
  Numpy.insertion_loop less fuel (pre ++ rest) 0 pr (length pre) =
  rev (foldl (λ r x, Frame.insert_sorted (λ x y, negb (less x y)) x r)
         (rev pre) rest).
Proof.
  revert fuel pre. induction rest as [|x rest IH]; intros fuel pre Hf Hne ->.
  - rewrite app_nil_r. cbn [foldl]. rewrite rev_involutive.
    destruct fuel as [|fuel]; [done|]. cbn [Numpy.insertion_loop].
    destruct pre as [|y pre]; [done|]. cbn [length].
    rewrite (proj2 (Nat.leb_gt _ _)); [done|]. cbn. lia.
  - cbn [length] in Hf. destruct fuel as [|fuel]; [lia|].
    cbn [Numpy.insertion_loop foldl].
    rewrite (proj2 (Nat.leb_le _ _)) by (cbn [length]; lia).
    rewrite list_lookup_middle by done.
    rewrite shift_up_spec by (rewrite length_app; lia).
    set (pre' := rev (Frame.insert_sorted (λ x y, negb (less x y)) x
                        (rev pre))).
    assert (Hlen : length pre' = S (length pre)).
    { unfold pre'. by rewrite length_rev, insert_sorted_length, length_rev. }
    rewrite <- Hlen. rewrite (IH fuel pre').
    + unfold pre'. by rewrite rev_involutive.
    + lia.
    + intros E. rewrite E in Hlen. done.
    + rewrite Hlen. cbn [length]. lia.
Qed.

Lemma insertion_sort_spec (a : list A) :
  Numpy.insertion_sort less a 0 (length a - 1) =
  rev (Frame.stable_sort (λ x y, negb (less x y)) (rev a)).
Proof.
  assert (Hfold : ∀ l,
            foldl (λ r x, Frame.insert_sorted (λ x y, negb (less x y)) x r)
              [] l =
            Frame.stable_sort (λ x y, negb (less x y)) (rev l)).
  { induction l as [|x l IH] using rev_ind; [done|].
    rewrite foldl_app, rev_app_distr. cbn. by rewrite IH. }
  rewrite <- Hfold. unfold Numpy.insertion_sort.
  destruct a as [|x rest]; [done|].
  apply (insertion_loop_spec (length (x :: rest)) [x] rest).
  - cbn. lia.
  - done.
  - cbn. lia.
Qed.

(** An array of at most 17 elements is sorted by insertion alone. *)
Lemma aquicksort_small (a : list A) :
  (length a ≤ 17)%nat →
  Numpy.aquicksort less a =
  rev (Frame.stable_sort (λ x y, negb (less x y)) (rev a)).
Proof.
  intros Hlen. unfold Numpy.aquicksort. cbn [Numpy.run].
  unfold Numpy.turn. cbn [Numpy.cdepth Numpy.arr Numpy.pl Numpy.pr Numpy.stack].
  rewrite (proj2 (Z.ltb_ge _ _)).
  2:{ pose proof (Z.log2_nonneg (Z.of_nat (length a))). lia. }
  assert (Hsplit : ∀ d,
    Numpy.split_range less (length a)
      (Numpy.mkState a 0 (length a - 1) d []) =
    Numpy.mkState a 0 (length a - 1) d []).
  { intros d. destruct (length a) as [|n] eqn:E; [done|].
    cbn [Numpy.split_range Numpy.pr Numpy.pl].
    rewrite (proj2 (Nat.ltb_ge _ _)); [done|]. lia. }
  rewrite Hsplit.
  cbn [Numpy.cdepth Numpy.arr Numpy.pl Numpy.pr Numpy.stack].
  apply insertion_sort_spec.
Qed.
End insertion.

Lemma quicksort_kind_small {A} (leb : A → A → bool) (l : list A) :
  (length l ≤ 17)%nat →
  Numpy.quicksort_kind A leb l =
  rev (Frame.stable_sort (λ x y, leb y x) (rev l)).
Proof.
  intros Hlen. unfold Numpy.quicksort_kind.
  rewrite aquicksort_small by done. f_equal.
  apply stable_sort_ext. intros x y. apply negb_involutive.
Qed.

Lemma StronglySorted_snoc {A} (R : A → A → Prop) (l : list A) (x : A) :
  StronglySorted R l → Forall (λ y, R y x) l → StronglySorted R (l ++ [x]).
Proof.
  induction 1 as [|y l Hl IH Hy]; intros Hx; cbn.
  - repeat constructor.
  - apply Forall_cons in Hx as [Hyx Hx]. constructor; [by apply IH|].
    apply Forall_app. split; [done|]. by constructor.
Qed.

Lemma Sorted_rev {A} (leb : A → A → bool) (l : list A) :
  transitive_order leb →
  Sorted (λ x y, leb y x = true) l → Sorted (λ x y, leb x y = true) (rev l).
Proof.
  intros Htr Hs.
  assert (Hss : StronglySorted (λ x y, leb y x = true) l).
  { apply Sorted_StronglySorted; [|done].
    intros x y z Hxy Hyz. by apply (Htr z y x). }
  clear Hs. apply StronglySorted_Sorted.
  induction Hss as [|x l Hl IH Hx]; cbn [rev]; [constructor|].
  apply StronglySorted_snoc; [done|]. by apply Forall_rev.
Qed.

(** On at most 17 elements the default sort is a stable sort. *)
Lemma quicksort_kind_small_sorts {A} (leb : A → A → bool) (l : list A) :
  total_order leb → transitive_order leb → (length l ≤ 17)%nat →
  Numpy.quicksort_kind A leb l ≡ₚ l ∧
  Sorted (λ x y, leb x y = true) (Numpy.quicksort_kind A leb l) ∧
  ∀ x, List.filter (λ y, leb x y && leb y x) (Numpy.quicksort_kind A leb l) =
       List.filter (λ y, leb x y && leb y x) l.
Proof.
  intros Htot Htr Hlen. rewrite quicksort_kind_small by done.
  assert (Htot' : total_order (λ x y : A, leb y x)).
  { intros x y. destruct (Htot x y); auto. }
  assert (Htr' : transitive_order (λ x y : A, leb y x)).
  { intros x y z Hxy Hyz. by apply (Htr z y x). }
  split; [|split].
  - rewrite <- Permutation_rev, stable_sort_perm. by rewrite <- Permutation_rev.
  - apply Sorted_rev; [done|]. by apply (stable_sort_sorted (λ x y, leb y x)).
  - intros x. rewrite filter_rev.
    rewrite (filter_ext _ (λ y, leb y x && leb x y))
      by (intros y; apply andb_comm).
    pose proof (stable_kind_stable A (λ x y, leb y x) Htot' Htr' (rev l) x)
      as Hst.
    unfold Frame.stable_kind in Hst. cbn beta in Hst. rewrite Hst.
    rewrite filter_rev, rev_involutive.
    apply filter_ext. intros y. apply andb_comm.
Qed.

Lemma combine_spec_perm (kind : Frame.sort_algorithm) (cols : list string)
    (i : nat) (dfs : list DataFrame) :
  merge_input cols i dfs →
  kind _ (name_leb i) (stacked dfs) ≡ₚ stacked dfs →
  combine_dataframes kind dfs =
  Ok (mkDF ("id" :: cols)
        ((λ r, row_id r :: r) <$> kind _ (name_leb i) (stacked dfs))).
Proof.
  intros Hin Hp. unfold combine_dataframes.
  rewrite (concat_aligned cols i dfs Hin). cbn [mbind result_bind].
  rewrite (sort_values_stacked cols i dfs Hin). cbn [mbind result_bind rows].
  apply (add_id cols i dfs Hin). intros r Hr.
  apply (stacked_rect cols i dfs Hin). by rewrite <- Hp.
Qed.

(** * The merge under the default sort *)

(** Under the default [kind] a merge of at most 17 rows is sorted by
    insertion alone: the merged table is in order of name, holds the stacked
    input rows, and rows of equal name keep the order they were stacked
    in. *)
Theorem combine_small_keeps_order (cols : list string) (i : nat)
    (dfs : list DataFrame) :
  merge_input cols i dfs → (length (stacked dfs) ≤ 17)%nat →
  ∃ out,
    combine_dataframes Numpy.quicksort_kind dfs = Ok out ∧
    sorted_by_name out ∧
    without_id out ≡ₚ stacked dfs ∧
    same_order_of_equal_names i (without_id out) (stacked dfs).
Proof.
  intros Hin Hlen.
  destruct (quicksort_kind_small_sorts (name_leb i) (stacked dfs)
              (name_leb_total i) (name_leb_trans i) Hlen) as (Hp & Hs & Hst).
  eexists. split; [by apply (combine_spec_perm _ cols i)|].
  unfold without_id. cbn [rows]. rewrite tail_with_id.
  split; [|split; [done|]].
  - exists (S i). cbn [columns rows]. split.
    + apply get_loc_cons; [done|]. apply (mi_name _ _ _ Hin).
    + eapply Sorted_fmap; [|exact Hs]. by intros r1 r2.
  - intros r. apply Hst.
Qed.
(** * The further statements at the sample tables *)

Lemma ex_raw_rectangular : rectangular ex_raw.
Proof. intros row Hrow. cbn in Hrow. elem_cases Hrow; reflexivity. Qed.

Lemma ex_raw2_distinct_labels : distinct_labels ex_raw2.
Proof. eexists. split; [reflexivity|]. decide_by_computation. Qed.

Lemma ex_raw2_text_cells : text_cells ex_raw2.
Proof.
  intros row Hrow. cbn in Hrow. elem_cases Hrow; by repeat constructor.
Qed.

Lemma ex_raw2_rectangular : rectangular ex_raw2.
Proof. intros row Hrow. cbn in Hrow. elem_cases Hrow; reflexivity. Qed.

Lemma ex_no_rows_distinct_labels : distinct_labels ex_no_rows.
Proof. eexists. split; [reflexivity|]. decide_by_computation. Qed.

Lemma ex_numbered_distinct_labels : distinct_labels ex_numbered.
Proof. eexists. split; [reflexivity|]. decide_by_computation. Qed.

Lemma ex_raw_text_zip : text_zip ex_raw.
Proof. eexists _, _. split; [by left|reflexivity]. Qed.

Lemma file1_is_no_key : "file1" ∉ key_cols ++ ["occurrences"].
Proof. decide_by_computation. Qed.

Lemma file_name_needs_slash_witness :
  PyRepr.has_char "/" "file1.csv" = false ∧
  file_name "file1.csv" = Raise IndexError.
Proof.
  split; [reflexivity|]. apply (file_name_needs_slash "file1.csv").
  reflexivity.
Defined.

Lemma file_name_second_part_witness :
  PyRepr.has_char "/" "data" = false ∧
  PyRepr.has_char "/" "file1" = false ∧ PyRepr.has_char "." "file1" = false ∧
  file_name ("data" +:+ "/" +:+ "file1" +:+ ".csv") = Ok "file1".
Proof.
  split; [reflexivity|]. split; [reflexivity|]. split; [reflexivity|].
  apply (file_name_second_part "data" "file1" ".csv"); try reflexivity.
  right. exists "."%char, "csv". split; [reflexivity|]. by right.
Defined.

Lemma read_source_files_tables_witness :
  ex_read_csv "data/file1.csv" = Ok ex_raw ∧
  ex_read_csv "data/file2.csv" = Ok ex_raw2 ∧
  read_source_files ex_read_csv [] =
    ([ex_raw; ex_raw2], Ok [("file1", 0%nat); ("file2", 1%nat)]).
Proof.
  split; [reflexivity|]. split; [reflexivity|].
  apply (read_source_files_tables ex_read_csv [] ex_raw ex_raw2); reflexivity.
Defined.

Lemma main_read_error_witness :
  (ex_read_nothing "data/file1.csv" = Raise (Exception "no such file") ∨
   (∃ d1, ex_read_nothing "data/file1.csv" = Ok d1 ∧
          ex_read_nothing "data/file2.csv" = Raise (Exception "no such file")))
  ∧
  ∃ h', main Frame.stable_kind ex_read_nothing [] =
          (h', Raise (Exception "no such file")) ∧
        (h' = [] ∨
         ∃ d1, ex_read_nothing "data/file1.csv" = Ok d1 ∧ h' = [] ++ [d1]).
Proof.
  split; [left; reflexivity|].
  apply (main_read_error Frame.stable_kind ex_read_nothing []).
  left. reflexivity.
Defined.

Lemma main_output_rows_witness :
  comparison_sort Frame.stable_kind ∧
  ex_read_csv "data/file1.csv" = Ok ex_raw ∧
  ex_read_csv "data/file2.csv" = Ok ex_raw2 ∧
  distinct_labels ex_raw ∧ text_cells ex_raw ∧ rectangular ex_raw ∧
  distinct_labels ex_raw2 ∧ text_cells ex_raw2 ∧ rectangular ex_raw2 ∧
  ∃ h' out,
    main Frame.stable_kind ex_read_csv [] = (h', Ok out) ∧
    columns out = "id" :: dedup_cols ∧
    sorted_by_name out ∧
    ∀ r, r ∈ rows out →
      ∃ key n b,
        r = row_id (key ++ [VInt n; VBool b; VBool (negb b)]) ::
            key ++ [VInt n; VBool b; VBool (negb b)] ∧
        length key = 4%nat ∧ 1 ≤ n.
Proof.
  split; [exact stable_kind_sorts|].
  split; [reflexivity|]. split; [reflexivity|].
  split; [exact ex_raw_distinct_labels|]. split; [exact ex_raw_text_cells|].
  split; [exact ex_raw_rectangular|].
  split; [exact ex_raw2_distinct_labels|]. split; [exact ex_raw2_text_cells|].
  split; [exact ex_raw2_rectangular|].
  apply (main_output_rows Frame.stable_kind ex_read_csv [] ex_raw ex_raw2).
  - exact stable_kind_sorts.
  - reflexivity.
  - reflexivity.
  - exact ex_raw_distinct_labels.
  - exact ex_raw_text_cells.
  - exact ex_raw_rectangular.
  - exact ex_raw2_distinct_labels.
  - exact ex_raw2_text_cells.
  - exact ex_raw2_rectangular.
Defined.

Lemma main_counts_every_row_witness :
  comparison_sort Frame.stable_kind ∧
  ex_read_csv "data/file1.csv" = Ok ex_raw ∧
  ex_read_csv "data/file2.csv" = Ok ex_raw2 ∧
  distinct_labels ex_raw ∧ text_cells ex_raw ∧ rectangular ex_raw ∧
  distinct_labels ex_raw2 ∧ text_cells ex_raw2 ∧ rectangular ex_raw2 ∧
  ∃ h' out ns,
    main Frame.stable_kind ex_read_csv [] = (h', Ok out) ∧
    column_cells "occurrences" out = Ok (VInt <$> ns) ∧
    zsum ns = Z.of_nat (shape0 ex_raw + shape0 ex_raw2) ∧
    (shape0 out ≤ shape0 ex_raw + shape0 ex_raw2)%nat.
Proof.
  split; [exact stable_kind_sorts|].
  split; [reflexivity|]. split; [reflexivity|].
  split; [exact ex_raw_distinct_labels|]. split; [exact ex_raw_text_cells|].
  split; [exact ex_raw_rectangular|].
  split; [exact ex_raw2_distinct_labels|]. split; [exact ex_raw2_text_cells|].
  split; [exact ex_raw2_rectangular|].
  apply (main_counts_every_row Frame.stable_kind ex_read_csv [] ex_raw ex_raw2).
  - exact stable_kind_sorts.
  - reflexivity.
  - reflexivity.
  - exact ex_raw_distinct_labels.
  - exact ex_raw_text_cells.
  - exact ex_raw_rectangular.
  - exact ex_raw2_distinct_labels.
  - exact ex_raw2_text_cells.
  - exact ex_raw2_rectangular.
Defined.

Lemma main_keeps_sources_apart_witness :
  comparison_sort Frame.stable_kind ∧
  ex_read_csv "data/file1.csv" = Ok ex_raw ∧
  ex_read_csv "data/file2.csv" = Ok ex_raw2 ∧
  distinct_labels ex_raw ∧ text_cells ex_raw ∧ rectangular ex_raw ∧
  distinct_labels ex_raw2 ∧ text_cells ex_raw2 ∧ rectangular ex_raw2 ∧
  ∃ h' out t1 t2 o1 o2,
    main Frame.stable_kind ex_read_csv [] = (h', Ok out) ∧
    clean_table ex_raw = Ok t1 ∧ remove_dupes t1 "file1" = Ok o1 ∧
    clean_table ex_raw2 = Ok t2 ∧ remove_dupes t2 "file2" = Ok o2 ∧
    combine_dataframes Frame.stable_kind [o1; o2] = Ok out ∧
    without_id out ≡ₚ rows o1 ++ rows o2 ∧
    shape0 out = (shape0 o1 + shape0 o2)%nat.
Proof.
  split; [exact stable_kind_sorts|].
  split; [reflexivity|]. split; [reflexivity|].
  split; [exact ex_raw_distinct_labels|]. split; [exact ex_raw_text_cells|].
  split; [exact ex_raw_rectangular|].
  split; [exact ex_raw2_distinct_labels|]. split; [exact ex_raw2_text_cells|].
  split; [exact ex_raw2_rectangular|].
  apply (main_keeps_sources_apart Frame.stable_kind ex_read_csv []
           ex_raw ex_raw2).
  - exact stable_kind_sorts.
  - reflexivity.
  - reflexivity.
  - exact ex_raw_distinct_labels.
  - exact ex_raw_text_cells.
  - exact ex_raw_rectangular.
  - exact ex_raw2_distinct_labels.
  - exact ex_raw2_text_cells.
  - exact ex_raw2_rectangular.
Defined.

Lemma clean_data_needs_four_columns_witness :
  [ex_three_columns] !! 0%nat = Some ex_three_columns ∧
  (length (columns ex_three_columns) < 4)%nat ∧
  clean_data 0%nat [ex_three_columns] = ([ex_three_columns], Raise IndexError).
Proof.
  split; [reflexivity|]. split; [cbn; lia|].
  apply (clean_data_needs_four_columns [ex_three_columns] 0%nat
           ex_three_columns); [reflexivity|cbn; lia].
Defined.

Lemma clean_data_failure_keeps_update_witness :
  [ex_numbered] !! 0%nat = Some ex_numbered ∧ distinct_labels ex_numbered ∧
  clean_data 0%nat [ex_numbered] =
    ([ex_numbered_updated], Raise AttributeError) ∧
  ex_numbered_updated ≠ ex_numbered ∧
  ∃ d1, renamed ex_numbered = Ok d1 ∧ AttributeError = AttributeError ∧
        [ex_numbered_updated] =
          <[0%nat := Pandas.fillna fill_values d1]> [ex_numbered] ∧
        length [ex_numbered_updated] = length [ex_numbered].
Proof.
  split; [reflexivity|]. split; [exact ex_numbered_distinct_labels|].
  split; [vm_compute; reflexivity|]. split; [discriminate|].
  apply (clean_data_failure_keeps_update [ex_numbered] [ex_numbered_updated]
           0%nat ex_numbered AttributeError).
  - reflexivity.
  - exact ex_numbered_distinct_labels.
  - vm_compute. reflexivity.
Defined.

Lemma clean_data_output_is_clean_witness :
  [ex_raw] !! 0%nat = Some ex_raw ∧
  distinct_labels ex_raw ∧ text_cells ex_raw ∧ rectangular ex_raw ∧
  ∃ h' t rest,
    clean_data 0%nat [ex_raw] = (h', Ok (length [ex_raw])) ∧
    h' !! length [ex_raw] = Some t ∧
    columns t = key_cols ++ rest ∧ rectangular t ∧
    ∀ row, row ∈ rows t →
      ∃ n a c z tl,
        row = VStr n :: VStr a :: VStr c :: z :: tl ∧
        Forall (λ s, Py.is_lowercase s = true ∧ Py.only_word_space s = true)
               [n; a; c] ∧
        Pandas.isna z = false.
Proof.
  split; [reflexivity|].
  split; [exact ex_raw_distinct_labels|]. split; [exact ex_raw_text_cells|].
  split; [exact ex_raw_rectangular|].
  apply (clean_data_output_is_clean [ex_raw] 0%nat ex_raw).
  - reflexivity.
  - exact ex_raw_distinct_labels.
  - exact ex_raw_text_cells.
  - exact ex_raw_rectangular.
Defined.

Lemma clean_data_fills_and_strips_witness :
  [ex_raw] !! 0%nat = Some ex_raw ∧
  distinct_labels ex_raw ∧ text_cells ex_raw ∧ rectangular ex_raw ∧
  rows ex_raw !! 1%nat =
    Some [VMissing; VStr "2 Elm #4"; VStr "Springfield"; VMissing; VMissing] ∧
  text_zip ex_raw ∧
  ∃ h' t row,
    clean_data 0%nat [ex_raw] = (h', Ok (length [ex_raw])) ∧
    h' !! length [ex_raw] = Some t ∧
    rows t !! 1%nat = Some row ∧
    length row =
      length [VMissing; VStr "2 Elm #4"; VStr "Springfield"; VMissing;
              VMissing] ∧
    (∀ i, (i < 3)%nat →
          [VMissing; VStr "2 Elm #4"; VStr "Springfield"; VMissing; VMissing]
            !! i = Some VMissing →
          row !! i = Some (VStr "not provided")) ∧
    (∀ c, [VMissing; VStr "2 Elm #4"; VStr "Springfield"; VMissing; VMissing]
            !! 3%nat = Some c →
          Pandas.isna c = false → row !! 3%nat = Some (py_strip c)) ∧
    ([VMissing; VStr "2 Elm #4"; VStr "Springfield"; VMissing; VMissing]
       !! 3%nat = Some VMissing →
     text_zip ex_raw → row !! 3%nat = Some (VInt 0)) ∧
    (∀ i c, (4 ≤ i)%nat →
            [VMissing; VStr "2 Elm #4"; VStr "Springfield"; VMissing; VMissing]
              !! i = Some c →
            row !! i = Some (py_strip c)).
Proof.
  split; [reflexivity|].
  split; [exact ex_raw_distinct_labels|]. split; [exact ex_raw_text_cells|].
  split; [exact ex_raw_rectangular|]. split; [reflexivity|].
  split; [exact ex_raw_text_zip|].
  apply (clean_data_fills_and_strips [ex_raw] 0%nat ex_raw 1%nat).
  - reflexivity.
  - exact ex_raw_distinct_labels.
  - exact ex_raw_text_cells.
  - exact ex_raw_rectangular.
  - reflexivity.
Defined.

Lemma clean_data_empty_table_witness :
  [ex_no_rows] !! 0%nat = Some ex_no_rows ∧ distinct_labels ex_no_rows ∧
  rows ex_no_rows = [] ∧
  ∃ d1,
    renamed ex_no_rows = Ok d1 ∧ take 4 (columns d1) = key_cols ∧
    rows d1 = [] ∧
    clean_data 0%nat [ex_no_rows] =
      (<[0%nat := d1]> [ex_no_rows] ++ [d1], Ok (length [ex_no_rows])).
Proof.
  split; [reflexivity|]. split; [exact ex_no_rows_distinct_labels|].
  split; [reflexivity|].
  apply (clean_data_empty_table [ex_no_rows] 0%nat ex_no_rows).
  - reflexivity.
  - exact ex_no_rows_distinct_labels.
  - reflexivity.
Defined.

Lemma corp_suffix_removed_anywhere_witness :
  (" inc" ∈ corp_pattern) ∧
  str_replace_corp (VStr ("acme" +:+ " inc" +:+ "orporated")) =
    VStr (Py.re_sub_alt corp_pattern "acme"
          +:+ Py.re_sub_alt corp_pattern "orporated") ∧
  (Py.no_match corp_pattern "acme" = true →
   Py.no_match corp_pattern "orporated" = true →
   str_replace_corp (VStr ("acme" +:+ " inc" +:+ "orporated"))
   = VStr ("acme" +:+ "orporated")).
Proof.
  split; [decide_by_computation|].
  apply (corp_suffix_removed_anywhere "acme" " inc" "orporated").
  decide_by_computation.
Defined.

Lemma remove_dupes_missing_column_witness :
  (NoDup (columns ex_three_columns) ∧
   Pandas.missing_label key_cols (columns ex_three_columns) = Some "zip" ∧
   shape0 ex_three_columns = 1%nat ∧
   remove_dupes ex_three_columns "file1" = Raise (KeyError "zip")) ∧
  (NoDup (columns ex_four_rows) ∧
   Pandas.missing_label key_cols (columns ex_four_rows) = Some "zip" ∧
   shape0 ex_four_rows = 4%nat ∧
   remove_dupes ex_four_rows "file1" = Raise (KeyError "name")).
Proof.
  split.
  - split; [decide_by_computation|]. split; [reflexivity|].
    split; [reflexivity|].
    apply (remove_dupes_missing_column ex_three_columns "file1" "zip").
    + decide_by_computation.
    + reflexivity.
  - split; [decide_by_computation|]. split; [reflexivity|].
    split; [reflexivity|].
    apply (remove_dupes_missing_column ex_four_rows "file1" "zip").
    + decide_by_computation.
    + reflexivity.
Defined.

Lemma remove_dupes_layout_witness :
  Frame.get_locs key_cols (columns ex_incomplete) = Ok [0; 1; 2; 3]%nat ∧
  ("file2" ∉ key_cols ++ ["occurrences"]) ∧
  ∃ out,
    remove_dupes ex_incomplete "file2" = Ok out ∧
    columns out =
      key_cols ++ ["occurrences"; "file1"; other_label "file2"] ∧
    ∀ row, row ∈ rows out →
      ∃ r n, r ∈ rows ex_incomplete ∧
             Frame.has_na (Frame.key_at [0; 1; 2; 3]%nat r) = false ∧
             row = Frame.key_at [0; 1; 2; 3]%nat r ++
                   [VInt n; VBool (bool_decide ("file2" = "file1"));
                    VBool (negb (bool_decide ("file2" = "file1")))].
Proof.
  split; [reflexivity|]. split; [decide_by_computation|].
  apply (remove_dupes_layout ex_incomplete "file2" [0; 1; 2; 3]%nat).
  - reflexivity.
  - decide_by_computation.
Defined.

Lemma remove_dupes_counts_rows_witness :
  Frame.get_locs key_cols (columns ex_normalized) = Ok [0; 1; 2; 3]%nat ∧
  ("file1" ∉ key_cols ++ ["occurrences"]) ∧
  ∃ out groups,
    remove_dupes ex_normalized "file1" = Ok out ∧
    rows out = tagged_row "file1" <$> groups ∧
    NoDup (norm_key <$> groups.*1) ∧
    (∀ g, g ∈ groups →
          g.2 = count_equal g.1
                  (Frame.key_at [0; 1; 2; 3]%nat <$> rows ex_normalized) ∧
          1 ≤ g.2) ∧
    (∀ r, r ∈ rows ex_normalized →
          Frame.has_na (Frame.key_at [0; 1; 2; 3]%nat r) = false →
          ∃ g, g ∈ groups ∧
               Frame.key_eqb (Frame.key_at [0; 1; 2; 3]%nat r) g.1 = true).
Proof.
  split; [reflexivity|]. split; [exact file1_is_no_key|].
  apply (remove_dupes_counts_rows ex_normalized "file1" [0; 1; 2; 3]%nat).
  - reflexivity.
  - exact file1_is_no_key.
Defined.

Lemma remove_dupes_drops_incomplete_keys_witness :
  Frame.get_locs key_cols (columns ex_incomplete) = Ok [0; 1; 2; 3]%nat ∧
  ("file1" ∉ key_cols ++ ["occurrences"]) ∧
  length (complete_keys [0; 1; 2; 3]%nat ex_incomplete) = 2%nat ∧
  shape0 ex_incomplete = 3%nat ∧
  ∃ out ns,
    remove_dupes ex_incomplete "file1" = Ok out ∧
    column_cells "occurrences" out = Ok (VInt <$> ns) ∧
    zsum ns = Z.of_nat (length (complete_keys [0; 1; 2; 3]%nat ex_incomplete)) ∧
    (shape0 out ≤ length (complete_keys [0; 1; 2; 3]%nat ex_incomplete)
     ≤ shape0 ex_incomplete)%nat.
Proof.
  split; [reflexivity|]. split; [exact file1_is_no_key|].
  split; [reflexivity|]. split; [reflexivity|].
  apply (remove_dupes_drops_incomplete_keys ex_incomplete "file1"
           [0; 1; 2; 3]%nat).
  - reflexivity.
  - exact file1_is_no_key.
Defined.

Lemma remove_dupes_order_witness :
  Frame.get_locs key_cols (columns ex_normalized) = Ok [0; 1; 2; 3]%nat ∧
  ("file1" ∉ key_cols ++ ["occurrences"]) ∧
  (∀ r, r ∈ rows ex_normalized →
        ∃ s, head (Frame.key_at [0; 1; 2; 3]%nat r) = Some (VStr s)) ∧
  ∃ out groups,
    remove_dupes ex_normalized "file1" = Ok out ∧
    rows out = tagged_row "file1" <$> groups ∧
    Sorted (λ g1 g2,
              g2.2 < g1.2 ∨
              g1.2 = g2.2 ∧
              ∃ s1 s2, head g1.1 = Some (VStr s1) ∧
                       head g2.1 = Some (VStr s2) ∧
                       String.compare s1 s2 ≠ Gt) groups.
Proof.
  assert (Ht : ∀ r, r ∈ rows ex_normalized →
            ∃ s, head (Frame.key_at [0; 1; 2; 3]%nat r) = Some (VStr s)).
  { intros r Hr. cbn in Hr. elem_cases Hr; cbn; eauto. }
  split; [reflexivity|]. split; [exact file1_is_no_key|]. split; [exact Ht|].
  apply (remove_dupes_order ex_normalized "file1" [0; 1; 2; 3]%nat).
  - reflexivity.
  - exact file1_is_no_key.
  - exact Ht.
Defined.

Lemma combine_needs_name_column_witness :
  [ex_no_name] ≠ [] ∧
  (∀ d, d ∈ [ex_no_name] → columns d = ["address"; "city"]) ∧
  ("name" ∉ ["address"; "city"]) ∧
  combine_dataframes Frame.stable_kind [ex_no_name] = Raise (KeyError "name").
Proof.
  split; [done|].
  split; [intros d Hd; elem_cases Hd; reflexivity|].
  split; [decide_by_computation|].
  apply (combine_needs_name_column Frame.stable_kind ["address"; "city"]
           [ex_no_name]).
  - done.
  - intros d Hd. elem_cases Hd. reflexivity.
  - decide_by_computation.
Defined.

Lemma combine_mixed_names_witness :
  (∀ d, d ∈ [ex_mixed_names] → columns d = ["name"; "zip"]) ∧
  Frame.get_loc "name" ["name"; "zip"] = Ok 0%nat ∧
  ([VStr "acme"; VInt 11111] ∈ stacked [ex_mixed_names]) ∧
  ([VInt 7; VInt 22222] ∈ stacked [ex_mixed_names]) ∧
  combine_dataframes Frame.stable_kind [ex_mixed_names] = Raise TypeError.
Proof.
  split; [intros d Hd; elem_cases Hd; reflexivity|].
  split; [reflexivity|].
  split; [decide_by_computation|]. split; [decide_by_computation|].
  apply (combine_mixed_names Frame.stable_kind ["name"; "zip"] 0%nat
           [ex_mixed_names] [VStr "acme"; VInt 11111] [VInt 7; VInt 22222]
           "acme" 7).
  - intros d Hd. elem_cases Hd. reflexivity.
  - reflexivity.
  - decide_by_computation.
  - decide_by_computation.
  - reflexivity.
  - reflexivity.
Defined.

Lemma combine_id_column_witness :
  comparison_sort Frame.stable_kind ∧
  merge_input dedup_cols 0 [ex_file1; ex_file2] ∧
  ∃ out,
    combine_dataframes Frame.stable_kind [ex_file1; ex_file2] = Ok out ∧
    columns out = "id" :: dedup_cols ∧
    ∀ r, r ∈ rows out →
      length r = S (length dedup_cols) ∧
      ∃ s, head r = Some (VStr s) ∧ String.length s = 32%nat ∧
           Py.all_chars is_hex_char s = true.
Proof.
  split; [exact stable_kind_sorts|]. split; [exact ex_merge_input|].
  apply (combine_id_column Frame.stable_kind dedup_cols 0%nat
           [ex_file1; ex_file2]).
  - exact stable_kind_sorts.
  - exact ex_merge_input.
Defined.

Lemma row_text_reads_back_witness :
  [VStr "1"] ≠ [VInt 1] ∧
  PyRepr.str_tuple [VStr "1"] ≠ PyRepr.str_tuple [VInt 1].
Proof.
  split; [discriminate|].
  apply (row_text_reads_back [VStr "1"] [VInt 1]). discriminate.
Defined.

Lemma combine_replaces_id_witness :
  comparison_sort Frame.stable_kind ∧
  [ex_merged] ≠ [] ∧
  (∀ d, d ∈ [ex_merged] → columns d = "id" :: dedup_cols) ∧
  NoDup ("id" :: dedup_cols) ∧
  ("id" :: dedup_cols) !! 0%nat = Some "id" ∧
  Frame.get_loc "name" ("id" :: dedup_cols) = Ok 1%nat ∧
  (∀ r, r ∈ stacked [ex_merged] →
        length r = length ("id" :: dedup_cols) ∧
        ∃ s, Frame.cell_at r 1 = VStr s) ∧
  combine_dataframes Frame.stable_kind [ex_merged] =
  Ok (mkDF ("id" :: delete 0%nat ("id" :: dedup_cols))
        ((λ r, row_id r :: delete 0%nat r) <$>
         Frame.stable_kind _ (name_leb 1) (stacked [ex_merged]))).
Proof.
  assert (Hrows : ∀ r, r ∈ stacked [ex_merged] →
            length r = length ("id" :: dedup_cols) ∧
            ∃ s, Frame.cell_at r 1 = VStr s).
  { intros r Hr. cbn in Hr. elem_cases Hr; (split; [reflexivity|cbn; eauto]). }
  split; [exact stable_kind_sorts|]. split; [done|].
  split; [intros d Hd; elem_cases Hd; reflexivity|].
  split; [decide_by_computation|]. split; [reflexivity|].
  split; [reflexivity|]. split; [exact Hrows|].
  apply (combine_replaces_id Frame.stable_kind ("id" :: dedup_cols) 1%nat
           0%nat [ex_merged]).
  - exact stable_kind_sorts.
  - done.
  - intros d Hd. elem_cases Hd. reflexivity.
  - decide_by_computation.
  - reflexivity.
  - reflexivity.
  - exact Hrows.
Defined.

Lemma combine_small_keeps_order_witness :
  merge_input dedup_cols 0 [ex_file1; ex_file2] ∧
  (length (stacked [ex_file1; ex_file2]) ≤ 17)%nat ∧
  ∃ out,
    combine_dataframes Numpy.quicksort_kind [ex_file1; ex_file2] = Ok out ∧
    sorted_by_name out ∧
    without_id out ≡ₚ stacked [ex_file1; ex_file2] ∧
    same_order_of_equal_names 0 (without_id out)
      (stacked [ex_file1; ex_file2]).
Proof.
  split; [exact ex_merge_input|]. split; [cbn; lia|].
  apply (combine_small_keeps_order dedup_cols 0%nat [ex_file1; ex_file2]).
  - exact ex_merge_input.
  - cbn. lia.
Defined.

(** The sample run of the whole pipeline, evaluated. *)
Example main_sample :
  main Frame.stable_kind ex_read_csv [] =
  ([ex_raw_updated;
    mkDF ["name"; "address"; "city"; "zip"]
      [[VStr "acme"; VStr "1 main st"; VStr "not provided";
        VStr "11111-0001"];
       [VStr "acme, inc."; VStr " 1 main st "; VStr "not provided";
        VStr "11111-0001"];
       [VStr "zeta ltd"; VStr "9 oak ave"; VStr "shelbyville";
        VStr "62701-0002"]];
    ex_raw_cleaned;
    mkDF ["name"; "address"; "city"; "zip"]
      [[VStr "acme"; VStr "1 main st"; VStr "not provided";
        VStr "11111-0001"];
       [VStr "acme"; VStr "1 main st"; VStr "not provided";
        VStr "11111-0001"];
       [VStr "zeta"; VStr "9 oak ave"; VStr "shelbyville";
        VStr "62701-0002"]]],
   Ok (mkDF ("id" :: dedup_cols)
         [[VStr "3e5dd585e6ae45797cbe8d2d576a06bb"; VStr "acme";
           VStr "1 main st"; VStr "not provided"; VStr "11111-0001"; VInt 1;
           VBool true; VBool false];
          [VStr "e5cbc4d5a23c7913598ac8d5ee6fcdbb"; VStr "acme";
           VStr "1 main st"; VStr "not provided"; VStr "11111-0001"; VInt 2;
           VBool false; VBool true];
          [VStr "65c84a7b78e5dbe32f9cb1d256644282"; VStr "not provided";
           VStr "2 elm 4"; VStr "springfield"; VInt 0; VInt 1; VBool true;
           VBool false];
          [VStr "c5cb7d01494ca90a015d931f3ed91b8e"; VStr "zeta";
           VStr "9 oak ave"; VStr "shelbyville"; VStr "62701-0002"; VInt 1;
           VBool false; VBool true]])).
Proof. vm_compute. reflexivity. Qed.

(** The same run under the default [kind]. *)
Example main_sample_quicksort :
  (main Numpy.quicksort_kind ex_read_csv []).2 =
  (main Frame.stable_kind ex_read_csv []).2.
Proof. vm_compute. reflexivity. Qed.

Lemma clean_output_normalized_witness :
  distinct_labels ex_raw ∧ text_cells ex_raw ∧ rectangular ex_raw ∧
  ("file1" ∉ key_cols ++ ["occurrences"]) ∧
  ∃ t out ns,
    clean_table ex_raw = Ok t ∧ normalized t ∧
    remove_dupes t "file1" = Ok out ∧
    column_cells "occurrences" out = Ok (VInt <$> ns) ∧
    zsum ns = Z.of_nat (shape0 ex_raw).
Proof.
  split; [exact ex_raw_distinct_labels|]. split; [exact ex_raw_text_cells|].
  split; [exact ex_raw_rectangular|]. split; [exact file1_is_no_key|].
  apply (clean_output_normalized ex_raw "file1").
  - exact ex_raw_distinct_labels.
  - exact ex_raw_text_cells.
  - exact ex_raw_rectangular.
  - exact file1_is_no_key.
Defined.
